(** * Smart-Canvas orchestrator: retry, rate limiting, content detection, streaming

    A shallow embedding of the tool-orchestration runtime of the backend
    ([api/orchestrator/routes.py], [api/orchestrator/agent.py],
    [api/orchestrator/services/jina_ai_service.py] and
    [api/orchestrator/tools/content_detection_tool.py]) together with the
    properties its specification states about it.

    Conventions of the embedding:
    - a Python [str] is a [string] of bytes; [str.lower] is modelled on the
      ASCII letters, every other byte is left as it is;
    - a Python [float] holding a delay or a clock reading is an exact
      rational [Q]: the delays of the properties (powers of two, small
      integers) are exactly representable;
    - an awaited operation is a function on the world it runs in; the
      outside (the language model, a remote service) is a function from
      the number of calls made so far to the outcome of the next one, so
      that it may answer differently on each attempt;
    - [asyncio.sleep] is recorded in a log of the delays slept, in order;
    - logging is left out. *)

From Stdlib Require Import ZArith QArith Qminmax List String Ascii Bool Lia Lqa.
From Stdlib Require Import Sorting.Sorted Sorting.Permutation DecimalString.
From stdpp Require Import gmap strings list.
Import ListNotations.

Local Open Scope string_scope.
Local Open Scope list_scope.
Local Open Scope Z_scope.

(** ** Python strings *)

Module PyStr.

Definition is_upper (c : ascii) : bool :=
  let n := nat_of_ascii c in (65 <=? n)%nat && (n <=? 90)%nat.

Definition is_lower (c : ascii) : bool :=
  let n := nat_of_ascii c in (97 <=? n)%nat && (n <=? 122)%nat.

Definition lower_char (c : ascii) : ascii :=
  if is_upper c then ascii_of_nat (nat_of_ascii c + 32) else c.

Definition upper_char (c : ascii) : ascii :=
  if is_lower c then ascii_of_nat (nat_of_ascii c - 32) else c.

(** [s.lower()] *)
Fixpoint lower (s : string) : string :=
  match s with
  | EmptyString => EmptyString
  | String c s' => String (lower_char c) (lower s')
  end.

(** [s.startswith(p)] *)
Fixpoint startswith (p s : string) : bool :=
  match p, s with
  | EmptyString, _ => true
  | String a p', String b s' => Ascii.eqb a b && startswith p' s'
  | String _ _, EmptyString => false
  end.

(** [needle in hay] *)
Fixpoint contains (needle hay : string) : bool :=
  match hay with
  | EmptyString => startswith needle EmptyString
  | String _ hay' => startswith needle hay || contains needle hay'
  end.

(** [any(keyword in s for keyword in keywords)] *)
Definition any_in (keywords : list string) (s : string) : bool :=
  existsb (fun keyword => contains keyword s) keywords.

Definition nl : string := String (ascii_of_nat 10) EmptyString.

End PyStr.

(** ** Exceptions and outcomes *)

Inductive exc_class :=
| Exception_
| ConnectionError
| TimeoutError
| ValueError
| PermissionError
| TypeError
| UnboundLocalError
| RetryableError
| NonRetryableError
| JinaRetryableError
| JinaNonRetryableError
| ModelRetry.

Definition exc_class_eqb (a b : exc_class) : bool :=
  match a, b with
  | Exception_, Exception_ | ConnectionError, ConnectionError
  | TimeoutError, TimeoutError | ValueError, ValueError
  | PermissionError, PermissionError | TypeError, TypeError
  | UnboundLocalError, UnboundLocalError
  | RetryableError, RetryableError | NonRetryableError, NonRetryableError
  | JinaRetryableError, JinaRetryableError
  | JinaNonRetryableError, JinaNonRetryableError
  | ModelRetry, ModelRetry => true
  | _, _ => false
  end.

(** An exception instance: its class and the message it was built with;
    [str(e)] is that message.  Only subclasses of [Exception] are
    modelled, which is what [except Exception] catches. *)
Record exc := Exc { exc_type : exc_class; exc_msg : string }.

Definition str (e : exc) : string := exc_msg e.

(** [isinstance(e, cls)]: none of the classes above derives from another
    one of them, except that all derive from [Exception]. *)
Definition isinstance (e : exc) (cls : exc_class) : bool :=
  match cls with
  | Exception_ => true
  | _ => exc_class_eqb (exc_type e) cls
  end.

Inductive outcome (A : Type) :=
| Return (a : A)
| Raise (e : exc).
Arguments Return {A} a.
Arguments Raise {A} e.

(** ** The world an executor runs in: how often the wrapped operation has
    been called, and the delays slept so far, oldest first. *)

Record world := World { calls : nat; slept : list Q }.

Definition world0 : world := World 0 [].

(** An awaited operation runs in the world and may raise. *)
Definition op (A : Type) : Type := world -> outcome A * world.

(** The operation that asks the outside for its next answer: [answers n]
    is the outcome of the call numbered [n]. *)
Definition call {A} (answers : nat -> outcome A) : op A :=
  fun w => (answers (calls w), World (S (calls w)) (slept w)).

Definition sleep (delay : Q) (w : world) : world :=
  World (calls w) (slept w ++ [delay]).

(** [range(n)] *)
Definition py_range (n : Z) : list Z :=
  map Z.of_nat (seq 0 (Z.to_nat n)).

(** [min(base_delay * (backoff_factor ** attempt), max_delay)] *)
Definition backoff_delay (base_delay max_delay backoff_factor : Q) (attempt : Z) : Q :=
  Qmin (base_delay * backoff_factor ^ attempt)%Q max_delay.

(** ** routes.py: retry_with_backoff *)

Module Routes.
Section RetryWithBackoff.
Context {A : Type}.
Variable func : op A.
Variables (max_retries : Z) (base_delay max_delay backoff_factor : Q).

(** [raise last_exception] after the loop; raising [None] is a
    [TypeError]. *)
Definition raise_last (last_exception : option exc) : outcome A :=
  match last_exception with
  | Some e => Raise e
  | None => Raise (Exc TypeError "exceptions must derive from BaseException")
  end.

Fixpoint retry_loop (attempts : list Z) (last_exception : option exc) (w : world)
  : outcome A * world :=
  match attempts with
  | [] => (raise_last last_exception, w)
  | attempt :: rest =>
      match func w with
      | (Return v, w1) => (Return v, w1)
      | (Raise e, w1) =>
          if isinstance e NonRetryableError then (Raise e, w1)
          else if attempt =? max_retries then (raise_last (Some e), w1)
          else
            let delay := backoff_delay base_delay max_delay backoff_factor attempt in
            retry_loop rest (Some e) (sleep delay w1)
      end
  end.

Definition retry_with_backoff (w : world) : outcome A * world :=
  retry_loop (py_range (max_retries + 1)) None w.

End RetryWithBackoff.
End Routes.

(** ** jina_ai_service.py: retry_jina_request *)

Module Jina.

Definition retry_keywords : list string :=
  ["timeout"; "connection"; "network"; "temporary"; "429"; "502"; "503"; "504"].

Section RetryJinaRequest.
Context {A : Type}.
Variable func : op A.
Variables (max_retries : Z) (base_delay max_delay backoff_factor : Q).

Definition request_failed (e : exc) : exc :=
  Exc JinaNonRetryableError ("Jina AI request failed: " +:+ str e).

Definition max_retries_exceeded (last_exception : option exc) : exc :=
  Exc JinaNonRetryableError
    ("Max retries exceeded: " +:+
     match last_exception with Some e => str e | None => "None" end).

Fixpoint retry_loop (attempts : list Z) (last_exception : option exc) (w : world)
  : outcome A * world :=
  match attempts with
  | [] => (Raise (max_retries_exceeded last_exception), w)
  | attempt :: rest =>
      match func w with
      | (Return v, w1) => (Return v, w1)
      | (Raise e, w1) =>
          if isinstance e JinaNonRetryableError then (Raise e, w1)
          else
            let error_str := PyStr.lower (str e) in
            if PyStr.any_in retry_keywords error_str then
              if attempt <? max_retries then
                let delay := backoff_delay base_delay max_delay backoff_factor attempt in
                retry_loop rest (Some e) (sleep delay w1)
              else (Raise (request_failed e), w1)
            else (Raise (request_failed e), w1)
      end
  end.

Definition retry_jina_request (w : world) : outcome A * world :=
  retry_loop (py_range (max_retries + 1)) None w.

End RetryJinaRequest.
End Jina.

(** ** agent.py: MetatronAgent._execute_with_retry *)

Module Agent.

(** [ToolExecutionMetadata]; [execution_time] and [timestamp] are clock
    readings and are left out. *)
Record ToolExecutionMetadata := {
  tool_name : string;
  success : bool;
  retry_count : Z;
  source : string
}.

Definition _create_tool_metadata (name : string) (ok : bool) (retries : Z)
  : ToolExecutionMetadata :=
  {| tool_name := name; success := ok; retry_count := retries;
     source := "orchestrator" |}.

(** What an execution leaves behind: the metadata record it built. *)
Inductive exec_result (A : Type) :=
| Returned (result : A) (metadata : ToolExecutionMetadata)
| Raised (e : exc) (metadata : ToolExecutionMetadata)
| ReturnedNone
| OutOfFuel.
Arguments Returned {A} result metadata.
Arguments Raised {A} e metadata.
Arguments ReturnedNone {A}.
Arguments OutOfFuel {A}.

(** [str(n)] for an integer. *)
Definition str_of_Z (n : Z) : string :=
  NilEmpty.string_of_int (Z.to_int n).

Section ExecuteWithRetry.
Context {A : Type}.
Variable operation : op A.
Variable name : string.
Variables (max_retries : Z) (retry_delay : Q).

Definition exhausted (last_exception : exc) : exc :=
  Exc ModelRetry
    ("Tool " +:+ name +:+ " failed after " +:+ str_of_Z max_retries +:+
     " retries: " +:+ str last_exception).

(** The [while retry_count <= max_retries] loop; [fuel] bounds the
    number of iterations. *)
Fixpoint while_loop (fuel : nat) (retry_count : Z) (w : world)
  : exec_result A * world :=
  if retry_count <=? max_retries then
    match fuel with
    | O => (OutOfFuel, w)
    | S fuel' =>
        match operation w with
        | (Return result, w1) =>
            (Returned result (_create_tool_metadata name true retry_count), w1)
        | (Raise e, w1) =>
            let retry_count := retry_count + 1 in
            if retry_count <=? max_retries then
              while_loop fuel' retry_count
                (sleep (retry_delay * inject_Z retry_count)%Q w1)
            else
              (Raised (exhausted e)
                 (_create_tool_metadata name false (retry_count - 1)), w1)
        end
    end
  else (ReturnedNone, w).

Definition _execute_with_retry (w : world) : exec_result A * world :=
  while_loop (Z.to_nat (max_retries + 1)) 0 w.

End ExecuteWithRetry.
End Agent.

(** ** jina_ai_service.py: RateLimiter *)

Module RateLimiter.

(** [a < b] on clock readings. *)
Definition Qltb (a b : Q) : bool :=
  match (a ?= b)%Q with Lt => true | _ => false end.

(** [min(l)]: the first least element; [None] stands for the
    [ValueError] raised on an empty list. *)
Definition py_min (l : list Q) : option Q :=
  match l with
  | [] => None
  | x :: l' => Some (fold_left Qmin l' x)
  end.

(** The limiter object: [self.max_requests], [self.time_window] and
    [self.requests], a [defaultdict(list)] from keys to timestamps. *)
Record t := Limiter {
  max_requests : Z;
  time_window : Z;
  requests : gmap string (list Q)
}.

(** [RateLimiter(max_requests, time_window)] *)
Definition init (max_requests time_window : Z) : t :=
  Limiter max_requests time_window ∅.

(** [self.requests[key]] read from the [defaultdict]. *)
Definition get (l : t) (key : string) : list Q :=
  default [] (requests l !! key).

Definition set (l : t) (key : string) (v : list Q) : t :=
  Limiter (max_requests l) (time_window l) (<[key := v]> (requests l)).

(** The environment of the limiter: the wall clock [time.time()] reads,
    and the log of the suspensions, oldest first. *)
Record env := Env { clock : Q; waits : list Q }.

(** [await asyncio.sleep(wait_time)]: the caller is suspended for
    [wait_time] and resumes [late] seconds after that. *)
Definition suspend (wait_time late : Q) (e : env) : env :=
  Env (clock e + wait_time + late)%Q (waits e ++ [wait_time]).

(** Time passing between two calls. *)
Definition elapse (d : Q) (e : env) : env :=
  Env (clock e + d)%Q (waits e).

(** [[req_time for req_time in l if now - req_time < window]] *)
Definition recent (window : Z) (now : Q) (l : list Q) : list Q :=
  filter (fun req_time => Is_true (Qltb (now - req_time) (inject_Z window))) l.

(** The purge of the timestamps that have left the window. *)
Definition purge (l : t) (key : string) (now : Q) : t :=
  set l key (recent (time_window l) now (get l key)).

Definition acquire (key : string) (late : Q) (l : t) (e : env)
  : outcome unit * t * env :=
  let now := clock e in
  (* Clean old requests *)
  let l1 := purge l key now in
  (* Check if we can make a request *)
  if Z.of_nat (List.length (get l1 key)) >=? max_requests l1 then
    match py_min (get l1 key) with
    | None => (Raise (Exc ValueError "min() arg is an empty sequence"), l1, e)
    | Some oldest_request =>
        let wait_time := (inject_Z (time_window l1) - (now - oldest_request))%Q in
        let e1 := if Qltb 0 wait_time then suspend wait_time late e else e in
        (* Record this request *)
        (Return tt, set l1 key (get l1 key ++ [now]), e1)
    end
  else
    (Return tt, set l1 key (get l1 key ++ [now]), e).

(** *** Callers that interleave

    [acquire] has one point of suspension, [await asyncio.sleep(wait_time)].
    Up to it a call runs without interruption; while it sleeps other
    callers run; and what follows the sleep, the recording of the
    reading taken on entry, runs without interruption again. *)

(** Where a call stands when it has reached the sleep or passed it by:
    it has recorded its request, or it sleeps for [wait_time] with the
    reading [now] taken on entry still to record, or it has failed. *)
Inductive entered :=
| Recorded
| Sleeping (now wait_time : Q)
| Failed (e : exc).

(** [acquire] from its entry, at the clock reading [now], to the
    sleep. *)
Definition acquire_enter (key : string) (l : t) (now : Q) : entered * t :=
  (* Clean old requests *)
  let l1 := purge l key now in
  (* Check if we can make a request *)
  if Z.of_nat (List.length (get l1 key)) >=? max_requests l1 then
    match py_min (get l1 key) with
    | None => (Failed (Exc ValueError "min() arg is an empty sequence"), l1)
    | Some oldest_request =>
        let wait_time := (inject_Z (time_window l1) - (now - oldest_request))%Q in
        if Qltb 0 wait_time then (Sleeping now wait_time, l1)
        else (Recorded, set l1 key (get l1 key ++ [now]))
    end
  else
    (Recorded, set l1 key (get l1 key ++ [now])).

(** [acquire] after the sleep: [self.requests[key].append(now)], on the
    list as the other callers have left it. *)
Definition acquire_resume (key : string) (now : Q) (l : t) : t :=
  set l key (get l key ++ [now]).

(** How many of the timestamps retained for [key] lie within the
    trailing window at the current clock reading. *)
Definition in_window (l : t) (e : env) (key : string) : nat :=
  List.length (recent (time_window l) (clock e) (get l key)).

(** Sequential use of one limiter: calls to [acquire], each begun after
    the one before it has ended, and time passing between them, starting
    from a fresh limiter. *)
Inductive reachable (max_requests time_window : Z) : t -> env -> Prop :=
| reach_init now :
    reachable max_requests time_window (init max_requests time_window) (Env now [])
| reach_elapse l e d :
    reachable max_requests time_window l e ->
    (0 <= d)%Q ->
    reachable max_requests time_window l (elapse d e)
| reach_acquire l e key late r l' e' :
    reachable max_requests time_window l e ->
    (0 <= late)%Q ->
    acquire key late l e = (r, l', e') ->
    reachable max_requests time_window l' e'.

End RateLimiter.

(** ** The part of Python's [re] the detection patterns use

    Patterns are kept as the source writes them and compiled by [parse].
    Matching is by backtracking with Python's priorities: alternatives
    left to right, quantifiers greedy.  A message is matched byte by
    byte; a character outside ASCII is never a word character, and a
    multi-byte character of a pattern is one atom. *)

Module Re.

Local Open Scope char_scope.
Local Open Scope nat_scope.

Inductive item :=
| Single (c : ascii)
| Range (lo hi : ascii)
| Digit
| Space
| Word.

Inductive regex :=
| Empty
| Fail
| Lit (c : ascii)
| Dot
| In (negate : bool) (items : list item)
| Boundary
| Cat (r1 r2 : regex)
| Alt (r1 r2 : regex)
| Repeat (lo : nat) (hi : option nat) (r : regex)
| Group (n : nat) (r : regex).

(** *** Parsing *)

Definition code (c : ascii) : nat := nat_of_ascii c.

Definition is_digit (c : ascii) : bool := (48 <=? code c) && (code c <=? 57).

Definition is_word (c : ascii) : bool :=
  is_digit c || PyStr.is_upper c || PyStr.is_lower c || Ascii.eqb c "_".

Definition is_space (c : ascii) : bool :=
  (code c =? 32) || ((9 <=? code c) && (code c <=? 13)).

Definition cat (r1 r2 : regex) : regex :=
  match r2 with Empty => r1 | _ => Cat r1 r2 end.

(** The item or atom an escape [\c] stands for. *)
Definition escape_item (c : ascii) : item :=
  if Ascii.eqb c "d" then Digit
  else if Ascii.eqb c "s" then Space
  else if Ascii.eqb c "w" then Word
  else Single c.

Definition escape_atom (c : ascii) : regex :=
  if Ascii.eqb c "b" then Boundary else In false [escape_item c].

(** The items of a class, up to its closing bracket. *)
Fixpoint parse_items (s : list ascii) (acc : list item)
  : option (list item * list ascii) :=
  match s with
  | [] => None
  | a :: s1 =>
      if Ascii.eqb a "]" then Some (rev acc, s1)
      else if Ascii.eqb a "\" then
        match s1 with
        | c :: s2 => parse_items s2 (escape_item c :: acc)
        | [] => None
        end
      else
        match s1 with
        | dash :: b :: s3 =>
            if Ascii.eqb dash "-" && negb (Ascii.eqb b "]")
            then parse_items s3 (Range a b :: acc)
            else parse_items s1 (Single a :: acc)
        | _ => parse_items s1 (Single a :: acc)
        end
  end.

Fixpoint parse_number (s : list ascii) (acc : nat) : nat * list ascii :=
  match s with
  | c :: s' => if is_digit c then parse_number s' (10 * acc + (code c - 48)) else (acc, s)
  | [] => (acc, s)
  end.

(** A quantifier after the atom [a], if there is one. *)
Definition parse_quantifier (a : regex) (s : list ascii) : option (regex * list ascii) :=
  match s with
  | c :: s1 =>
      if Ascii.eqb c "*" then Some (Repeat 0 None a, s1)
      else if Ascii.eqb c "+" then Some (Repeat 1 None a, s1)
      else if Ascii.eqb c "?" then Some (Repeat 0 (Some 1) a, s1)
      else if Ascii.eqb c "{" then
        let (lo, s2) := parse_number s1 0 in
        match s2 with
        | d :: s3 =>
            if Ascii.eqb d "}" then Some (Repeat lo (Some lo) a, s3)
            else if Ascii.eqb d "," then
              match s3 with
              | e :: s4 =>
                  if Ascii.eqb e "}" then Some (Repeat lo None a, s4)
                  else
                    let (hi, s5) := parse_number s3 0 in
                    match s5 with
                    | f :: s6 => if Ascii.eqb f "}" then Some (Repeat lo (Some hi) a, s6) else None
                    | [] => None
                    end
              | [] => None
              end
            else None
        | [] => None
        end
      else Some (a, s)
  | [] => Some (a, s)
  end.

(** The continuation bytes of a multi-byte character. *)
Fixpoint continuation (s : list ascii) : list ascii * list ascii :=
  match s with
  | c :: s' =>
      if (128 <=? code c) && (code c <? 192)
      then let (bs, s2) := continuation s' in (c :: bs, s2)
      else ([], s)
  | [] => ([], s)
  end.

Definition literal (c : ascii) (s : list ascii) : regex * list ascii :=
  if 192 <=? code c then
    let (bs, s') := continuation s in
    (fold_right (fun b r => cat (Lit b) r) Empty (c :: bs), s')
  else (Lit c, s).

Definition expect_close (r : option (regex * list ascii * nat))
  : option (regex * list ascii * nat) :=
  match r with
  | Some (body, c :: s', g) => if Ascii.eqb c ")" then Some (body, s', g) else None
  | _ => None
  end.

(** [g] is the number of groups opened so far. *)
Fixpoint parse_alt (fuel : nat) (s : list ascii) (g : nat)
  : option (regex * list ascii * nat) :=
  match fuel with
  | O => None
  | S fuel' =>
      match parse_seq fuel' s g with
      | Some (r1, c :: s1, g1) =>
          if Ascii.eqb c "|" then
            match parse_alt fuel' s1 g1 with
            | Some (r2, s2, g2) => Some (Alt r1 r2, s2, g2)
            | None => None
            end
          else Some (r1, c :: s1, g1)
      | other => other
      end
  end
with parse_seq (fuel : nat) (s : list ascii) (g : nat)
  : option (regex * list ascii * nat) :=
  match fuel with
  | O => None
  | S fuel' =>
      match s with
      | [] => Some (Empty, s, g)
      | c :: _ =>
          if Ascii.eqb c ")" || Ascii.eqb c "|" then Some (Empty, s, g)
          else
            match parse_atom fuel' s g with
            | Some (a, s1, g1) =>
                match parse_quantifier a s1 with
                | Some (q, s2) =>
                    match parse_seq fuel' s2 g1 with
                    | Some (r, s3, g2) => Some (cat q r, s3, g2)
                    | None => None
                    end
                | None => None
                end
            | None => None
            end
      end
  end
with parse_atom (fuel : nat) (s : list ascii) (g : nat)
  : option (regex * list ascii * nat) :=
  match fuel with
  | O => None
  | S fuel' =>
      match s with
      | [] => None
      | c :: s1 =>
          if Ascii.eqb c "(" then
            match s1 with
            | q :: colon :: s3 =>
                if Ascii.eqb q "?" then
                  if Ascii.eqb colon ":" then expect_close (parse_alt fuel' s3 g)
                  else None
                else
                  match expect_close (parse_alt fuel' s1 (S g)) with
                  | Some (body, s', g') => Some (Group (S g) body, s', g')
                  | None => None
                  end
            | _ =>
                match expect_close (parse_alt fuel' s1 (S g)) with
                | Some (body, s', g') => Some (Group (S g) body, s', g')
                | None => None
                end
            end
          else if Ascii.eqb c "[" then
            match s1 with
            | n :: s2 =>
                if Ascii.eqb n "^" then
                  match parse_items s2 [] with
                  | Some (items, s') => Some (In true items, s', g)
                  | None => None
                  end
                else
                  match parse_items s1 [] with
                  | Some (items, s') => Some (In false items, s', g)
                  | None => None
                  end
            | [] => None
            end
          else if Ascii.eqb c "\" then
            match s1 with
            | e :: s2 => Some (escape_atom e, s2, g)
            | [] => None
            end
          else if Ascii.eqb c "." then Some (Dot, s1, g)
          else if Ascii.eqb c "*" || Ascii.eqb c "+" || Ascii.eqb c "?"
                  || Ascii.eqb c "{" || Ascii.eqb c "^" || Ascii.eqb c "$" then None
          else let (a, s') := literal c s1 in Some (a, s', g)
      end
  end.

(** A compiled pattern: the expression and its number of groups. *)
Definition parse (pattern : string) : option (regex * nat) :=
  let s := list_ascii_of_string pattern in
  match parse_alt (4 * List.length s + 4) s 0 with
  | Some (r, [], g) => Some (r, g)
  | _ => None
  end.

(** [re.compile(pattern)]; a pattern that does not parse matches
    nothing. *)
Definition compile (pattern : string) : regex * nat :=
  match parse pattern with
  | Some rg => rg
  | None => (Fail, 0)
  end.

(** *** Matching *)

(** A position in the subject: the character before it, what is left
    of the subject, and the offset. *)
Record cursor := Cursor { prev : option ascii; rest : list ascii; pos : nat }.

Definition advance (c : cursor) : option (ascii * cursor) :=
  match rest c with
  | x :: xs => Some (x, Cursor (Some x) xs (S (pos c)))
  | [] => None
  end.

(** The subject between two cursors, the second at or after the first. *)
Definition between (c c' : cursor) : string :=
  string_of_list_ascii (firstn (pos c' - pos c) (rest c)).

(** The groups that took part in the match: number and text, the
    latest binding first. *)
Definition captures := list (nat * string).

Fixpoint group (caps : captures) (n : nat) : option string :=
  match caps with
  | [] => None
  | (i, txt) :: caps' => if i =? n then Some txt else group caps' n
  end.

Definition item_has (i : item) (x : ascii) : bool :=
  match i with
  | Single c => Ascii.eqb c x
  | Range lo hi => (code lo <=? code x) && (code x <=? code hi)
  | Digit => is_digit x
  | Space => is_space x
  | Word => is_word x
  end.

Definition in_items (items : list item) (x : ascii) : bool :=
  existsb (fun i => item_has i x) items.

Definition word_at (o : option ascii) : bool :=
  match o with Some x => is_word x | None => false end.

Section Match.
(** [re.IGNORECASE] *)
Variable ignorecase : bool.

Definition lit_eq (a x : ascii) : bool :=
  if ignorecase then Ascii.eqb (PyStr.lower_char a) (PyStr.lower_char x)
  else Ascii.eqb a x.

Definition in_class (negate : bool) (items : list item) (x : ascii) : bool :=
  let hit :=
    if ignorecase
    then in_items items x || in_items items (PyStr.lower_char x)
         || in_items items (PyStr.upper_char x)
    else in_items items x in
  if negate then negb hit else hit.

(** One character accepted by [ok]. *)
Definition one {R} (ok : ascii -> bool) (c : cursor) (k : cursor -> option R) : option R :=
  match advance c with
  | Some (x, c') => if ok x then k c' else None
  | None => None
  end.

(** [m r c caps k]: the first way, in Python's order of preference, to
    match [r] at [c] such that the continuation [k] accepts what
    follows. *)
Fixpoint m {R} (r : regex) (c : cursor) (caps : captures)
  (k : cursor -> captures -> option R) {struct r} : option R :=
  match r with
  | Empty => k c caps
  | Fail => None
  | Lit a => one (lit_eq a) c (fun c' => k c' caps)
  | Dot => one (fun x => negb (code x =? 10)) c (fun c' => k c' caps)
  | In negate items => one (in_class negate items) c (fun c' => k c' caps)
  | Boundary =>
      if xorb (word_at (prev c)) (word_at (hd_error (rest c))) then k c caps else None
  | Cat r1 r2 => m r1 c caps (fun c' caps' => m r2 c' caps' k)
  | Alt r1 r2 =>
      match m r1 c caps k with
      | Some x => Some x
      | None => m r2 c caps k
      end
  | Group n r1 => m r1 c caps (fun c' caps' => k c' ((n, between c c') :: caps'))
  | Repeat lo hi r1 =>
      (fix rep (fuel count : nat) (c : cursor) (caps : captures) {struct fuel} : option R :=
         match fuel with
         | O => None
         | S fuel' =>
             let again :=
               if match hi with Some h => count <? h | None => true end then
                 m r1 c caps (fun c' caps' =>
                   if (lo <=? count) && (pos c' =? pos c) then None
                   else rep fuel' (S count) c' caps')
               else None in
             match again with
             | Some x => Some x
             | None => if lo <=? count then k c caps else None
             end
         end) (S (lo + List.length (rest c))) 0 c caps
  end.

(** The leftmost match of [r] at or after the position given: where it
    starts, where it ends, and its groups. *)
Fixpoint search_from (r : regex) (before : option ascii) (s : list ascii) (at_ : nat)
  : option (cursor * cursor * captures) :=
  let c := Cursor before s at_ in
  match m r c [] (fun c' caps => Some (c', caps)) with
  | Some (c', caps) => Some (c, c', caps)
  | None =>
      match s with
      | x :: xs => search_from r (Some x) xs (S at_)
      | [] => None
      end
  end.

(** The matches [re.finditer] walks through, left to right and not
    overlapping. *)
Fixpoint matches (r : regex) (fuel : nat) (c : cursor) : list (string * captures) :=
  match fuel with
  | O => []
  | S fuel' =>
      match search_from r (prev c) (rest c) (pos c) with
      | None => []
      | Some (c0, c1, caps) =>
          (between c0 c1, caps) ::
          (if pos c1 =? pos c0 then
             match advance c1 with
             | Some (_, c2) => matches r fuel' c2
             | None => []
             end
           else matches r fuel' c1)
      end
  end.

End Match.

(** [bool(re.search(pattern, subject, flags))] *)
Definition search (pattern subject : string) (ignorecase : bool) : bool :=
  let s := list_ascii_of_string subject in
  match search_from ignorecase (fst (compile pattern)) None s 0 with
  | Some _ => true
  | None => false
  end.

(** What [re.findall] returns for one match: the match itself when the
    pattern has no group, the group when it has one, and the tuple of
    all groups otherwise; a group that took no part is empty. *)
Inductive found :=
| FoundStr (s : string)
| FoundTuple (groups : list string).

Definition found_of (groups : nat) (whole : string) (caps : captures) : found :=
  let text n := default EmptyString (group caps n) in
  match groups with
  | 0 => FoundStr whole
  | 1 => FoundStr (text 1)
  | _ => FoundTuple (map text (seq 1 groups))
  end.

(** [re.findall(pattern, subject, flags)] *)
Definition findall (pattern subject : string) (ignorecase : bool) : list found :=
  let s := list_ascii_of_string subject in
  let (r, groups) := compile pattern in
  map (fun mc => found_of groups (fst mc) (snd mc))
      (matches ignorecase r (S (List.length s)) (Cursor None s 0)).

End Re.

(** ** tools/content_detection_tool.py: ContentDetectionTool *)

Module ContentDetection.

(** One entry of [self.content_patterns]. *)
Record config := Config {
  cfg_patterns : list string;
  cfg_entities : list string
}.

(** [self.content_patterns], in the order the dictionary is written
    and iterated. *)
Definition content_patterns : list (string * config) :=
  [ ("chart",
     Config
       [ "\b(chart|graph|plot|visualize|visualization)\b";
         "\b(stock price|stock chart|price chart)\b";
         "\b(show.*data|display.*data)\b";
         "\b(trend|trends|trending)\b";
         "\b(analytics|statistics|stats)\b";
         "\b(compare.*data|comparison)\b";
         "\b(financial.*data|market.*data)\b";
         "\b(crypto.*price|cryptocurrency)\b" ]
       [ "\b([A-Z]{2,5})\b";
         "\b(bitcoin|btc|ethereum|eth|crypto)\b";
         "\b(\d+%|\$\d+)\b" ]);
    ("image",
     Config
       [ "\b(generate.*image|create.*image|make.*image)\b";
         "\b(show.*picture|display.*picture)\b";
         "\b(photo|photograph|pic)\b";
         "\b(draw|sketch|illustrate)\b";
         "\b(visual.*representation)\b";
         "\b(image.*of|picture.*of)\b" ]
       [ "\b(of\s+)([^.!?]+)";
         "\b(showing\s+)([^.!?]+)" ]);
    ("video",
     Config
       [ "\b(video|watch|youtube|play)\b";
         "\b(movie|film|clip)\b";
         "\b(tutorial|demo|demonstration)\b";
         "\b(youtube\.com|youtu\.be)\b";
         "\b(stream|streaming)\b" ]
       [ "(https?://(?:www\.)?(?:youtube\.com/watch\?v=|youtu\.be/)[\w-]+)";
         "\b(tutorial.*on|demo.*of|video.*about)\s+([^.!?]+)" ]);
    ("map",
     Config
       [ "\b(map|location|where.*is|directions)\b";
         "\b(address|coordinates|latitude|longitude)\b";
         "\b(route|navigation|distance)\b";
         "\b(city|country|state|region)\b";
         "\b(near.*me|nearby|around)\b";
         "\b(travel.*to|go.*to)\b" ]
       [ "\b(in\s+)([A-Z][a-z]+(?:\s+[A-Z][a-z]+)*)";
         "\b(\d+\.?\d*°?\s*[NS],?\s*\d+\.?\d*°?\s*[EW])" ]) ].

(** One element of [detection_results]. *)
Record detection := Detection {
  det_content_type : string;
  det_confidence : Z;
  det_entities : list string;
  det_pattern_matches : Z
}.

(** The dictionary the tool serialises; [all_detections] and
    [message_length] belong to the regular result, [error] to the one
    built in the exception handler. *)
Record result := Result {
  has_visual_content : bool;
  primary_content_type : string;
  confidence : Z;
  entities : list string;
  all_detections : option (list detection);
  timestamp : string;
  message_length : option Z;
  error : option string
}.

(** The [for pattern in config['patterns']] loop, on the counters
    [(pattern_matches, confidence)]. *)
Definition check_patterns (message_lower : string) (patterns : list string)
  (counters : Z * Z) : Z * Z :=
  fold_left
    (fun '(pattern_matches, confidence) pattern =>
       if Re.search pattern message_lower true
       then (pattern_matches + 1, confidence + 20)
       else (pattern_matches, confidence))
    patterns counters.

(** [match if isinstance(match, str) else match[-1]] *)
Definition entity_of (found : Re.found) : string :=
  match found with
  | Re.FoundStr s => s
  | Re.FoundTuple groups => List.last groups EmptyString
  end.

(** The [for entity_pattern in config.get('entities', [])] loop, on
    [(detected_entities, confidence)]. *)
Definition extract_entities (message : string) (entity_patterns : list string)
  (acc : list string * Z) : list string * Z :=
  fold_left
    (fun '(detected_entities, confidence) entity_pattern =>
       let matches := Re.findall entity_pattern message true in
       match matches with
       | [] => (detected_entities, confidence)
       | _ => ((detected_entities ++ map entity_of matches)%list, confidence + 15)
       end)
    entity_patterns acc.

(** The body of the loop over the content types. *)
Definition analyze_type (message message_lower : string)
  (detection_results : list detection) (entry : string * config) : list detection :=
  let (content_type, cfg) := entry in
  let '(pattern_matches, confidence) :=
    check_patterns message_lower (cfg_patterns cfg) (0, 0) in
  let '(detected_entities, confidence) :=
    extract_entities message (cfg_entities cfg) ([], confidence) in
  if pattern_matches >? 0 then
    (detection_results ++
       [ Detection content_type (Z.min confidence 100)
           (firstn 3 detected_entities) pattern_matches ])%list
  else detection_results.

(** [l.sort(key=lambda x: x['confidence'], reverse=True)]: descending,
    and stable. *)
Fixpoint insert_desc (x : detection) (l : list detection) : list detection :=
  match l with
  | [] => [x]
  | y :: l' =>
      if det_confidence y <=? det_confidence x then x :: y :: l'
      else y :: insert_desc x l'
  end.

Definition sort_desc (l : list detection) : list detection :=
  fold_right insert_desc [] l.

(** The [try] block, for a message that is a string. *)
Definition detect (now : string) (message : string) : result :=
  let message_lower := PyStr.lower message in
  let detection_results :=
    sort_desc (fold_left (analyze_type message message_lower) content_patterns []) in
  let primary_detection :=
    match detection_results with
    | top :: _ => if det_confidence top >=? 40 then Some top else None
    | [] => None
    end in
  {| has_visual_content :=
       match primary_detection with Some _ => true | None => false end;
     primary_content_type :=
       match primary_detection with Some d => det_content_type d | None => "text" end;
     confidence :=
       match primary_detection with Some d => det_confidence d | None => 0 end;
     entities :=
       match primary_detection with Some d => det_entities d | None => [] end;
     all_detections := Some detection_results;
     timestamp := now;
     message_length := Some (Z.of_nat (String.length message));
     error := None |}.

(** What the caller may pass for [message]. *)
Inductive py_value :=
| PyStr_ (s : string)
| PyNone
| PyInt (n : Z).

(** The [try] block: slicing [message[:50]] for the log line raises
    on a value that is not a string. *)
Definition try_detect (now : string) (message : py_value) : outcome result :=
  match message with
  | PyStr_ s => Return (detect now s)
  | PyNone => Raise (Exc TypeError "'NoneType' object is not subscriptable")
  | PyInt _ => Raise (Exc TypeError "'int' object is not subscriptable")
  end.

(** [detect_content_intent(deps, message, context)], before
    [json.dumps]; [now] is [datetime.now().isoformat()] at the call. *)
Definition detect_content_intent (now : string) (message : py_value) : result :=
  match try_detect now message with
  | Return r => r
  | Raise e =>
      {| has_visual_content := false;
         primary_content_type := "text";
         confidence := 0;
         entities := [];
         all_detections := None;
         timestamp := now;
         message_length := None;
         error := Some (str e) |}
  end.

End ContentDetection.

(** ** agent.py: MetatronAgent.run *)

Module MetatronAgent.

(** [OrchestratorOutput]; [rich_content] stays [None] on the paths
    modelled here and is left out. *)
Record OrchestratorOutput := {
  response : string;
  tools_used : list string;
  confidence : option Q;
  reasoning : option string;
  content_type : string;
  requires_canvas : bool;
  streaming_enabled : bool
}.

(** What [run] is written to hand back: the model's own result, the
    stand-in built on a rate limit, or the stand-in built on any other
    error; all three carry [output]. *)
Inductive run_result :=
| AgentRunResult (output : OrchestratorOutput)
| RateLimitResult (output : OrchestratorOutput)
| MockResult (output : OrchestratorOutput).

Definition output (r : run_result) : OrchestratorOutput :=
  match r with
  | AgentRunResult o | RateLimitResult o | MockResult o => o
  end.

Definition rate_limit_response : string :=
  String.concat PyStr.nl
    [ "🚦 **Rate Limit Reached**"; "";
      "I've hit the API rate limit. Please wait a moment and try again."; "";
      "**What happened:** The Gemini 2.5 Pro API has usage limits that help ensure fair access."; "";
      "**Solutions:**";
      "- Wait 1 minute and try again";
      "- Your request will work perfectly once the limit resets"; "";
      "⏰ *Tip: Try again in about 60 seconds*" ].

Definition rate_limit_output : OrchestratorOutput :=
  {| response := rate_limit_response;
     tools_used := [];
     confidence := Some 1%Q;
     reasoning := Some "Rate limit protection activated";
     content_type := "text";
     requires_canvas := false;
     streaming_enabled := false |}.

(** The response the outer handler of [run] sets out to build. *)
Definition fallback_output (e : exc) : OrchestratorOutput :=
  {| response :=
       "I apologize, but I encountered an error processing your request: " +:+ str e;
     tools_used := [];
     confidence := Some 0%Q;
     reasoning := Some "Error occurred during processing";
     content_type := "text";
     requires_canvas := false;
     streaming_enabled := false |}.

(** The inner [try]: the call of the language model, with the rate
    limit handled and every other error raised again. *)
Definition run_model (agent_run : op OrchestratorOutput) : op run_result :=
  fun w =>
    match agent_run w with
    | (Return out, w1) => (Return (AgentRunResult out), w1)
    | (Raise e, w1) =>
        let error_msg := str e in
        if PyStr.contains "429" error_msg || PyStr.contains "RESOURCE_EXHAUSTED" error_msg
        then (Return (RateLimitResult rate_limit_output), w1)
        else (Raise e, w1)
    end.

(** The handler of the outer [try] builds its fallback with
    [OrchestratorOutput(...)].  The statement
    [from .models import OrchestratorOutput] in the branch of the rate
    limit makes that name a local variable of [run], and on the way to
    the outer handler the statement has not been executed: reading the
    name raises [UnboundLocalError] inside the handler, and the error
    leaves [run].  The text is the one of CPython 3.11 and later. *)
Definition unbound_output : exc :=
  Exc UnboundLocalError
    "cannot access local variable 'OrchestratorOutput' where it is not associated with a value".

(** [run(message, deps, message_history)] of an initialised agent: the
    outer handler, entered with what is still raised, raises before it
    has built [fallback_output]. *)
Definition run (agent_run : op OrchestratorOutput) : op run_result :=
  fun w =>
    match run_model agent_run w with
    | (Return r, w1) => (Return r, w1)
    | (Raise e, w1) => (Raise unbound_output, w1)
    end.

End MetatronAgent.

(** ** routes.py: the chat endpoints *)

Module Chat.

Import MetatronAgent.

(** [type(error).__name__] *)
Definition class_name (c : exc_class) : string :=
  match c with
  | Exception_ => "Exception"
  | ConnectionError => "ConnectionError"
  | TimeoutError => "TimeoutError"
  | ValueError => "ValueError"
  | PermissionError => "PermissionError"
  | TypeError => "TypeError"
  | UnboundLocalError => "UnboundLocalError"
  | RetryableError => "RetryableError"
  | NonRetryableError => "NonRetryableError"
  | JinaRetryableError => "JinaRetryableError"
  | JinaNonRetryableError => "JinaNonRetryableError"
  | ModelRetry => "ModelRetry"
  end.

(** The ["error"] entry of what [create_error_response] returns,
    without its clock reading. *)
Record error_response := {
  error_type : string;
  category : string;
  message : string;
  user_message : string;
  context : string
}.

Definition connection_message : string :=
  "I'm having trouble connecting to external services. Please try again in a moment.".
Definition validation_message : string :=
  "There was an issue with the request format. Please check your input and try again.".
Definition permission_message : string :=
  "I don't have permission to access the requested resource.".
Definition rate_limit_message : string :=
  "I'm currently experiencing high demand. Please wait a moment and try again.".
Definition auth_message : string :=
  "There's an authentication issue with external services. Please contact support.".
Definition unknown_message : string :=
  "I encountered an unexpected issue. Please try again or contact support if the problem persists.".
Definition temporary_message : string :=
  "I'm experiencing temporary difficulties. Please try again in a moment.".

(** The taxonomy: category and user message of an error. *)
Definition categorize (error : exc) : string * string :=
  let error_message := str error in
  if isinstance error ConnectionError || isinstance error TimeoutError then
    (connection_message, "connection_error")
  else if isinstance error ValueError then
    (validation_message, "validation_error")
  else if isinstance error PermissionError then
    (permission_message, "permission_error")
  else if PyStr.contains "rate limit" (PyStr.lower error_message) then
    (rate_limit_message, "rate_limit_error")
  else if PyStr.contains "api key" (PyStr.lower error_message)
          || PyStr.contains "authentication" (PyStr.lower error_message) then
    (auth_message, "auth_error")
  else
    (unknown_message, "unknown_error").

Definition create_error_response (error : exc) (ctx : string) : error_response :=
  {| error_type := class_name (exc_type error);
     category := snd (categorize error);
     message := str error;
     user_message := fst (categorize error);
     context := ctx |}.

(** The user messages of the taxonomy. *)
Definition user_messages : list string :=
  [ connection_message; validation_message; permission_message;
    rate_limit_message; auth_message; unknown_message ].

Definition chat_keywords : list string :=
  ["timeout"; "connection"; "network"; "temporary"].

(** [run_chat_with_retry], given what precedes its inner [try] and
    what [agent.run] does.  [get_orchestrator_agent] stands for
    [agent = await get_orchestrator_agent()], which creates and
    initialises the agent anew on every call, and for the construction
    of the dependencies that follows it; what they raise is outside the
    inner [try] and leaves [run_chat_with_retry] as it is. *)
Definition run_chat_with_retry (get_orchestrator_agent : op unit)
  (agent_run : op run_result) : op run_result :=
  fun w =>
    match get_orchestrator_agent w with
    | (Raise e, w0) => (Raise e, w0)
    | (Return _, w0) =>
        match agent_run w0 with
        | (Return result, w1) => (Return result, w1)
        | (Raise e, w1) =>
            if PyStr.any_in chat_keywords (PyStr.lower (str e))
            then (Raise (Exc RetryableError ("Temporary error: " +:+ str e)), w1)
            else (Raise (Exc NonRetryableError ("Permanent error: " +:+ str e)), w1)
        end
    end.

(** The creation of the agent when it succeeds, and when it fails with
    [e], as [initialize] does with a [ValueError] when the
    configuration holds no key for the language model. *)
Definition agent_created : op unit := fun w => (Return tt, w).

Definition creation_fails (e : exc) : op unit := fun w => (Raise e, w).

Record ChatResponse := {
  chat_response : string;
  chat_tools_used : list string;
  workspace : string;
  chat_timestamp : string;
  agent_status : string
}.

Inductive http (A : Type) :=
| Ok (body : A)
| HTTPException (status_code : Z) (detail : string).
Arguments Ok {A} body.
Arguments HTTPException {A} status_code detail.

(** [chat_with_orchestrator], given what the creation of the agent and
    [agent.run] do; [now] is [datetime.now().isoformat()] and [ws] is
    [request.workspace or "default"]. *)
Definition chat_with_orchestrator (get_orchestrator_agent : op unit)
  (agent_run : op run_result) (ws now : string)
  (w : world) : http ChatResponse * world :=
  match Routes.retry_with_backoff
          (run_chat_with_retry get_orchestrator_agent agent_run) 2 1 10 2 w with
  | (Return result, w') =>
      (Ok {| chat_response := response (output result);
             chat_tools_used := tools_used (output result);
             workspace := ws;
             chat_timestamp := now;
             agent_status := "active" |}, w')
  | (Raise e, w') =>
      if isinstance e NonRetryableError then
        (HTTPException 400 (user_message (create_error_response e "chat_processing")), w')
      else if isinstance e RetryableError then
        (HTTPException 503 temporary_message, w')
      else
        (HTTPException 500 (user_message (create_error_response e "chat_processing")), w')
  end.

(** *** The streaming endpoint *)

(** The [data] of the final chunk. *)
Record response_data := {
  rd_response : string;
  rd_tools_used : list string;
  rd_workspace : string;
  rd_timestamp : string;
  rd_agent_status : string
}.

(** The objects [generate_stream] serialises. *)
Inductive chunk :=
| StatusChunk (message : string) (progress : Z)
| ResponseChunk (data : response_data)
| ErrorChunk (message : string) (progress : Z).

(** The value under the ["type"] key. *)
Definition chunk_type (c : chunk) : string :=
  match c with
  | StatusChunk _ _ => "status"
  | ResponseChunk _ => "response"
  | ErrorChunk _ _ => "error"
  end.

(** A line of the event stream: [data: <json>] or [data: [DONE]]. *)
Inductive event :=
| Data (c : chunk)
| Done.

Definition generate_stream (agent_run : op run_result) (now : string) (w : world)
  : list event * world :=
  let first := Data (StatusChunk "🤖 Initializing AI agent..." 10) in
  match agent_run w with
  | (Return result, w1) =>
      ([ first;
         Data (StatusChunk "✅ Processing complete! Formatting response..." 90);
         Data (ResponseChunk
                 {| rd_response := response (output result);
                    rd_tools_used := [];
                    rd_workspace := "orchestrator";
                    rd_timestamp := now;
                    rd_agent_status := "active" |});
         Done ], w1)
  | (Raise e, w1) =>
      ([ first;
         Data (ErrorChunk ("Processing failed: " +:+ str e) 100);
         Done ], w1)
  end.

(** The chunks of a stream, without the sentinel. *)
Definition chunks (events : list event) : list chunk :=
  omap (fun ev => match ev with Data c => Some c | Done => None end) events.

End Chat.

(** ** jina_ai_service.py: JinaAIService.segment_text *)

Module Segmenter.

(** [len(l)] *)
Definition len (l : list ascii) : Z := Z.of_nat (List.length l).

(** The position a slice bound stands for in a sequence of length [n]:
    a negative bound counts from the end, and every bound is clipped. *)
Definition py_index (n i : Z) : Z :=
  if i <? 0 then Z.max (i + n) 0 else Z.min i n.

(** [l[a:b]] *)
Definition slice (l : list ascii) (a b : Z) : list ascii :=
  let a' := py_index (len l) a in
  let b' := py_index (len l) b in
  firstn (Z.to_nat (b' - a')) (skipn (Z.to_nat a') l).

(** [l[a:]] *)
Definition slice_from (l : list ascii) (a : Z) : list ascii :=
  skipn (Z.to_nat (py_index (len l) a)) l.

(** [l.rfind(c)]: the highest index of [c], or -1. *)
Fixpoint rfind_from (c : ascii) (l : list ascii) (i best : Z) : Z :=
  match l with
  | [] => best
  | x :: l' => rfind_from c l' (i + 1) (if Ascii.eqb x c then i else best)
  end.

Definition rfind (c : ascii) (l : list ascii) : Z := rfind_from c l 0 (-1).

(** The dictionary [segment_text] returns. *)
Record segments := {
  chunks : list string;
  total_chunks : Z;
  original_length : Z;
  method : string
}.

Section SegmentText.
Variable text : list ascii.
Variables (max_chunk_length overlap : Z) (preserve_sentences : bool).

(** The [while start < len(text)] loop; [fuel] bounds the number of
    iterations, and [None] stands for a loop that has not ended when the
    fuel has. *)
Fixpoint segment_loop (fuel : nat) (start : Z) (chunks : list (list ascii))
  : option (list (list ascii)) :=
  if start <? len text then
    match fuel with
    | O => None
    | S fuel' =>
        let end_ := Z.min (start + max_chunk_length) (len text) in
        if end_ >=? len text then Some (chunks ++ [slice_from text start])
        else
          let end_ :=
            if preserve_sentences && (end_ <? len text) then
              let chunk := slice text start end_ in
              let last_period := rfind "."%char chunk in
              let last_exclamation := rfind "!"%char chunk in
              let last_question := rfind "?"%char chunk in
              let sentence_end :=
                Z.max (Z.max last_period last_exclamation) last_question in
              if sentence_end >? 0 then start + sentence_end + 1 else end_
            else end_ in
          let chunks := chunks ++ [slice text start end_] in
          let new_start :=
            if overlap >? 0 then Z.max (end_ - overlap) (start + 1) else end_ in
          let new_start := if new_start <=? start then start + 1 else new_start in
          segment_loop fuel' new_start chunks
    end
  else Some chunks.

End SegmentText.

(** [segment_text(text, max_chunk_length, overlap, preserve_sentences)];
    every iteration moves [start] forward, so the length of the text is
    fuel enough. *)
Definition segment_text (text : string) (max_chunk_length overlap : Z)
  (preserve_sentences : bool) : option segments :=
  let t := list_ascii_of_string text in
  match segment_loop t max_chunk_length overlap preserve_sentences
          (List.length t) 0 [] with
  | Some chunks =>
      Some {| chunks := map string_of_list_ascii chunks;
              total_chunks := Z.of_nat (List.length chunks);
              original_length := len t;
              method := "local_segmentation" |}
  | None => None
  end.

End Segmenter.

(** ** jina_ai_service.py: JinaAIService._make_request and
    _make_request_with_retry *)

Module JinaService.

(** [s.upper()] *)
Fixpoint upper (s : string) : string :=
  match s with
  | EmptyString => EmptyString
  | String c s' => String (PyStr.upper_char c) (upper s')
  end.

(** What the HTTP client does with one request: a response that
    [raise_for_status] lets pass, with its content type, its text, its
    status and what [response.json()] gives for it; a response that
    [raise_for_status] rejects; a timeout; a failure to connect; or any
    other exception. *)
Inductive http_result :=
| HttpOk (content_type text : string) (status_code : Z) (json : outcome string)
| HttpStatusError (status_code : Z) (error_text : string)
| HttpTimeout
| HttpConnectError
| HttpFailed (e : exc).

(** What [_make_request] returns: the decoded JSON, or the text and
    status of a response of another content type. *)
Inductive payload :=
| JsonBody (json : string)
| Content (content : string) (status_code : Z).

Definition service_error (e : exc) : exc :=
  Exc JinaNonRetryableError ("Jina AI service error: " +:+ str e).

Definition http_error (cls : exc_class) (status_code : Z) (error_text : string) : exc :=
  Exc cls ("HTTP " +:+ Agent.str_of_Z status_code +:+ ": " +:+ error_text).

Definition in_list (x : Z) (l : list Z) : bool := existsb (Z.eqb x) l.

(** The handlers of [_make_request], applied to what the client did. *)
Definition handle (r : http_result) : outcome payload :=
  match r with
  | HttpOk content_type text status_code json =>
      if PyStr.contains "application/json" content_type then
        match json with
        | Return j => Return (JsonBody j)
        | Raise e => Raise (service_error e)
        end
      else Return (Content text status_code)
  | HttpStatusError status_code error_text =>
      if in_list status_code [429; 502; 503; 504] then
        Raise (http_error JinaRetryableError status_code error_text)
      else if in_list status_code [400; 401; 403; 404] then
        Raise (http_error JinaNonRetryableError status_code error_text)
      else
        Raise (http_error JinaRetryableError status_code error_text)
  | HttpTimeout => Raise (Exc JinaRetryableError "Request timeout to Jina AI API")
  | HttpConnectError => Raise (Exc JinaRetryableError "Connection error to Jina AI API")
  | HttpFailed e => Raise (service_error e)
  end.

(** [_make_request(method, url, ...)]: [client n] is what the HTTP
    client does with the request numbered [n].  A method other than GET
    and POST raises inside the [try] block before any request is made,
    and the last handler wraps what was raised. *)
Definition _make_request (method : string) (client : nat -> http_result) : op payload :=
  fun w =>
    if String.eqb (upper method) "GET" || String.eqb (upper method) "POST" then
      match call (fun n => Return (client n)) w with
      | (Return r, w1) => (handle r, w1)
      | (Raise e, w1) => (Raise e, w1)
      end
    else
      (Raise (service_error
                (Exc JinaNonRetryableError ("Unsupported HTTP method: " +:+ method))), w).

(** What a request runs in: the rate limiter of the service and its
    clock, and the world of the retries. *)
Record state := State {
  rate_limiter : RateLimiter.t;
  limiter_env : RateLimiter.env;
  retry_world : world
}.

(** [JinaAIService(api_key)] sets up a limiter of 100 requests per
    minute. *)
Definition new_state (now : Q) : state :=
  State (RateLimiter.init 100 60) (RateLimiter.Env now []) world0.

(** [_make_request_with_retry(method, url, ...)]: one call of
    [self.rate_limiter.acquire()] on the default key, then
    [retry_jina_request] around [_make_request] with three retries, a
    base delay of one second and a cap of thirty. *)
Definition _make_request_with_retry (method : string) (client : nat -> http_result)
  (late : Q) (st : state) : outcome payload * state :=
  match RateLimiter.acquire "default" late (rate_limiter st) (limiter_env st) with
  | (Raise e, l, e') => (Raise e, State l e' (retry_world st))
  | (Return _, l, e') =>
      let (r, w) := Jina.retry_jina_request (_make_request method client)
                      3 1 30 2 (retry_world st) in
      (r, State l e' w)
  end.

End JinaService.

(** ** jina_ai_service.py: EnhancedSearchResponse *)

Module Citations.

Record EnhancedCitation := {
  number : Z;
  title : string;
  url : string;
  snippet : string;
  domain : string
}.

(** An element of [self.sources]. *)
Record source := {
  source_title : string;
  source_url : string;
  source_domain : string
}.

Record EnhancedSearchResponse := {
  query : string;
  answer : string;
  citations : list EnhancedCitation;
  sources : list source;
  related_topics : list string;
  search_time : Q;
  total_sources : Z
}.

(** [EnhancedSearchResponse(query)] *)
Definition new (q : string) : EnhancedSearchResponse :=
  {| query := q; answer := ""; citations := []; sources := [];
     related_topics := []; search_time := 0; total_sources := 0 |}.

Section AddCitation.
(** [urlparse(url).netloc] *)
Variable netloc : string -> string.

(** [add_citation(title, url, snippet)]: the number of the citation and
    the response after the call. *)
Definition add_citation (r : EnhancedSearchResponse) (t u s : string)
  : Z * EnhancedSearchResponse :=
  let citation_num := Z.of_nat (List.length (citations r)) + 1 in
  let d := netloc u in
  let citation := {| number := citation_num; title := t; url := u;
                     snippet := s; domain := d |} in
  (citation_num,
   {| query := query r; answer := answer r;
      citations := citations r ++ [citation];
      sources := sources r ++ [{| source_title := t; source_url := u;
                                  source_domain := d |}];
      related_topics := related_topics r;
      search_time := search_time r;
      total_sources := total_sources r |}).

(** Calls of [add_citation] one after another, with the numbers they
    return. *)
Fixpoint add_citations (r : EnhancedSearchResponse) (args : list (string * string * string))
  : list Z * EnhancedSearchResponse :=
  match args with
  | [] => ([], r)
  | (t, u, s) :: rest =>
      let (n, r1) := add_citation r t u s in
      let (ns, r2) := add_citations r1 rest in
      (n :: ns, r2)
  end.

End AddCitation.
End Citations.

(** ** routes.py: _determine_content_routing *)

Module Routing.

(** The keys [_determine_content_routing] reads from the detection
    result, with values of the types the detection tool gives them; a
    key the dictionary lacks is [None]. *)
Record detection_result := {
  dr_has_visual_content : option bool;
  dr_primary_content_type : option string;
  dr_confidence : option Z;
  dr_entities : option (list string)
}.

(** The result of the detection tool, as such a dictionary. *)
Definition of_detection (r : ContentDetection.result) : detection_result :=
  {| dr_has_visual_content := Some (ContentDetection.has_visual_content r);
     dr_primary_content_type := Some (ContentDetection.primary_content_type r);
     dr_confidence := Some (ContentDetection.confidence r);
     dr_entities := Some (ContentDetection.entities r) |}.

Record content_data := {
  cd_entities : list string;
  cd_confidence : Z;
  cd_detection_details : detection_result
}.

Record content_metadata := {
  content_type : string;
  display_mode : string;
  data : option content_data;
  has_visual_content : bool
}.

(** [content_metadata.update({'content_type': t, 'display_mode':
    'content_area', 'has_visual_content': True})] *)
Definition to_content_area (t : string) (m : content_metadata) : content_metadata :=
  {| content_type := t; display_mode := "content_area";
     data := data m; has_visual_content := true |}.

(** The detection result, when there is one, is visual and confident. *)
Definition from_detection (detection : option detection_result) (m : content_metadata)
  : content_metadata :=
  match detection with
  | None => m
  | Some d =>
      let has_visual := default false (dr_has_visual_content d) in
      let primary_type := default "text" (dr_primary_content_type d) in
      let confidence := default 0 (dr_confidence d) in
      let entities := default [] (dr_entities d) in
      if has_visual && (confidence >=? 40) then
        {| content_type := primary_type;
           display_mode :=
             if negb (String.eqb primary_type "text") then "content_area" else "chat_area";
           data := Some {| cd_entities := entities; cd_confidence := confidence;
                           cd_detection_details := d |};
           has_visual_content := true |}
      else m
  end.

(** The branch of the loop over [tools_used] the name of a tool
    selects, as the content type it sets. *)
Definition tool_content_type (tool_name : string) : option string :=
  let name := PyStr.lower tool_name in
  if PyStr.any_in ["financial"; "stock"; "chart"; "mermaid"] name then Some "chart"
  else if PyStr.any_in ["image"; "creative_studio"; "generate"] name then Some "image"
  else if PyStr.any_in ["video"; "youtube"; "media"] name then Some "video"
  else None.

(** The body of the loop over [tools_used], on the name of the tool. *)
Definition from_tool (m : content_metadata) (tool_name : string) : content_metadata :=
  match tool_content_type tool_name with
  | Some t => to_content_area t m
  | None => m
  end.

(** The branch of the chain over the response text the indicators
    select, as the content type it stands for. *)
Definition response_content_type (response_text : string) : option string :=
  let response_lower := PyStr.lower response_text in
  if PyStr.any_in ["chart"; "graph"; "visualization"; "stock price"] response_lower then
    Some "chart"
  else if PyStr.any_in ["image generated"; "picture created"; "visual created"]
            response_lower then
    Some "image"
  else if PyStr.any_in ["youtube.com"; "youtu.be"; "video link"] response_lower then
    Some "video"
  else if PyStr.any_in ["map"; "location"; "coordinates"; "address"] response_lower then
    Some "map"
  else None.

(** The indicators looked for in the response text: they count only
    while the content type is still "text". *)
Definition from_response (response_text : string) (m : content_metadata)
  : content_metadata :=
  match response_content_type response_text with
  | Some t => if String.eqb (content_type m) "text" then to_content_area t m else m
  | None => m
  end.

Definition default_metadata : content_metadata :=
  {| content_type := "text"; display_mode := "chat_area";
     data := None; has_visual_content := false |}.

(** [_determine_content_routing(response_text, content_detection_result,
    tools_used)], with every tool given by its name. *)
Definition _determine_content_routing (response_text : string)
  (content_detection_result : option detection_result) (tools_used : list string)
  : content_metadata :=
  from_response response_text
    (fold_left from_tool tools_used
       (from_detection content_detection_result default_metadata)).

(** The invariant of the metadata: the display mode follows the content
    type, and content that is not text is marked as visual. *)
Definition routed (m : content_metadata) : Prop :=
  display_mode m
  = (if String.eqb (content_type m) "text" then "chat_area" else "content_area") /\
  (content_type m <> "text" -> has_visual_content m = true).

End Routing.

(** ** agent.py: MetatronAgent._prepare_tools *)

Module Tools.

Definition available_tools : list string :=
  [ "search_memory"; "use_creative_studio"; "manage_social_media";
    "deep_research"; "browse_web"; "search_wikipedia"; "search_reddit";
    "research_news"; "process_document"; "analyze_youtube";
    "understand_media"; "detect_content_intent"; "nano_perplexity_search" ].

(** [_prepare_tools(context)]; the context is a dictionary of strings. *)
Definition _prepare_tools (context : gmap string string) : list string :=
  let workspace := default "default" (context !! "workspace") in
  if String.eqb workspace "research" then
    ["deep_research"; "nano_perplexity_search"; "search_wikipedia"; "research_news"]
      ++ available_tools
  else if String.eqb workspace "creative" then
    ["use_creative_studio"; "understand_media"] ++ available_tools
  else available_tools.

End Tools.


(** ** The vocabulary of the specification

    Predicates that follow the words of the specification rather than
    the code, to compare the code with. *)

Module Spec.

Definition exc_eqb (a b : exc) : bool :=
  exc_class_eqb (exc_type a) (exc_type b) && String.eqb (exc_msg a) (exc_msg b).

(** "A terminal error that wraps the last underlying exception and
    carries the tool/operation name and the attempt count": an error
    of its own, whose message holds the message of the last error, the
    name and the count. *)
Definition exhausted_retries_error (name : string) (attempts : Z)
  (last raised : exc) : bool :=
  negb (exc_eqb raised last)
  && PyStr.contains (str last) (str raised)
  && PyStr.contains name (str raised)
  && PyStr.contains (Agent.str_of_Z attempts) (str raised).

(** "Ends with exactly one complete chunk": the number of chunks of a
    type in a stream. *)
Definition count_type (type : string) (cs : list Chat.chunk) : nat :=
  List.length (List.filter (fun c => String.eqb (Chat.chunk_type c) type) cs).

(** "Per content type (chart, image, video, map)." *)
Definition content_types : list string := ["chart"; "image"; "video"; "map"].

(** The classifier, as the specification words it. *)
Section Classifier.
Import ContentDetection.
Variable message : string.

(** "The trigger patterns that match the lowercased message." *)
Definition triggers_matched (cfg : config) : list string :=
  List.filter (fun pattern => Re.search pattern (PyStr.lower message) true)
    (cfg_patterns cfg).

(** "Each entity pattern that yields at least one match", run
    against the message as it is. *)
Definition entity_patterns_hit (cfg : config) : list string :=
  List.filter
    (fun pattern =>
       match Re.findall pattern message true with [] => false | _ => true end)
    (cfg_entities cfg).

(** "Captured groups": the groups a match of an entity pattern has
    captured, in the order of the pattern; a pattern without a group
    captures the match itself. *)
Definition captured_groups (found : Re.found) : list string :=
  match found with
  | Re.FoundStr s => [s]
  | Re.FoundTuple groups => groups
  end.

(** The captured groups of a content type: those of every match of
    every entity pattern, run against the message as it is. *)
Definition all_captured (cfg : config) : list string :=
  concat (map (fun pattern =>
                 concat (map captured_groups (Re.findall pattern message true)))
              (cfg_entities cfg)).

(** The entity a match stands for: its captured group, and the last one
    where the pattern has several, which is the group after the
    keyword in "of <entity>", "showing <entity>" and "in <Place>". *)
Definition entity (found : Re.found) : string :=
  List.last (captured_groups found) EmptyString.

(** The entities captured for a content type, pattern after pattern
    and match after match. *)
Definition captured (cfg : config) : list string :=
  concat (map (fun pattern => map entity (Re.findall pattern message true))
              (cfg_entities cfg)).

(** "+20 per trigger pattern, +15 per entity pattern, capped at
    100." *)
Definition score (cfg : config) : Z :=
  Z.min (20 * Z.of_nat (List.length (triggers_matched cfg))
         + 15 * Z.of_nat (List.length (entity_patterns_hit cfg))) 100.

Definition expected (entry : string * config) : detection :=
  Detection (fst entry) (score (snd entry))
    (firstn 3 (captured (snd entry)))
    (Z.of_nat (List.length (triggers_matched (snd entry)))).

(** "A content type is only included if at least one trigger
    pattern matched." *)
Definition included (table : list (string * config)) : list (string * config) :=
  List.filter
    (fun entry => negb (Nat.eqb (List.length (triggers_matched (snd entry))) 0))
    table.
End Classifier.

(** "Sorted by descending confidence." *)
Definition descending (d1 d2 : ContentDetection.detection) : Prop :=
  ContentDetection.det_confidence d2 <= ContentDetection.det_confidence d1.

End Spec.

(** ** What the chunks of a segmentation are to the text *)

Module Tiling.

(** [tiles text limit overlap start chunks]: the chunks are windows of
    the text taken from left to right, the first starting at [start];
    each holds between one and [limit] characters, each but the last is
    followed by a window that starts after it does and no later than it
    ends (where it ends, when there is no overlap), and the last one
    reaches the end of the text. *)
Inductive tiles (text : list ascii) (limit overlap : Z) : Z -> list (list ascii) -> Prop :=
| tiles_last start :
    0 <= start < Segmenter.len text ->
    Segmenter.len text - start <= limit ->
    tiles text limit overlap start [skipn (Z.to_nat start) text]
| tiles_next start stop next rest :
    0 <= start < stop ->
    stop - start <= limit ->
    stop < Segmenter.len text ->
    start < next <= stop ->
    (overlap <= 0 -> next = stop) ->
    tiles text limit overlap next rest ->
    tiles text limit overlap start
      (firstn (Z.to_nat (stop - start)) (skipn (Z.to_nat start) text) :: rest).

End Tiling.

(** * Properties *)

(** ** Retry executors *)

Section RetryFacts.
Context {A : Type}.

(** An outside that fails on every call, with the errors [errs]. *)
Variable errs : nat -> exc.
Let answers : nat -> outcome A := fun n => Raise (errs n).

Variables (base_delay max_delay backoff_factor : Q).
Let delay (i : nat) : Q :=
  backoff_delay base_delay max_delay backoff_factor (Z.of_nat i).

Lemma routes_loop_exhausts (k a : nat) (last : option exc) (w : world) :
  (forall n, isinstance (errs n) NonRetryableError = false) ->
  Routes.retry_loop (call answers) (Z.of_nat (a + k)) base_delay max_delay backoff_factor
    (map Z.of_nat (seq a (S k))) last w
  = (Raise (errs (calls w + k)%nat),
     World (calls w + S k)%nat (slept w ++ map delay (seq a k))).
Proof.
  intros Hretry. revert a last w.
  induction k as [|k IH]; intros a last w.
  - cbn [seq map Routes.retry_loop call answers]. rewrite Hretry.
    rewrite Nat.add_0_r, Z.eqb_refl. cbn.
    by rewrite Nat.add_0_r, Nat.add_1_r, app_nil_r.
  - change (seq a (S (S k))) with (a :: seq (S a) (S k)).
    change (seq a (S k)) with (a :: seq (S a) k).
    rewrite !map_cons.
    cbn [Routes.retry_loop call answers]. rewrite Hretry.
    destruct (Z.eqb_spec (Z.of_nat a) (Z.of_nat (a + S k))) as [Heq|_]; [lia|].
    replace (a + S k)%nat with (S a + k)%nat by lia.
    rewrite (IH (S a)). cbn [sleep calls slept].
    f_equal; [do 2 f_equal; lia|].
    f_equal; [lia|]. by rewrite <- app_assoc.
Qed.

Lemma jina_loop_exhausts (k a : nat) (last : option exc) (w : world) :
  (forall n, isinstance (errs n) JinaNonRetryableError = false) ->
  (forall n, PyStr.any_in Jina.retry_keywords (PyStr.lower (str (errs n))) = true) ->
  Jina.retry_loop (call answers) (Z.of_nat (a + k)) base_delay max_delay backoff_factor
    (map Z.of_nat (seq a (S k))) last w
  = (Raise (Jina.request_failed (errs (calls w + k)%nat)),
     World (calls w + S k)%nat (slept w ++ map delay (seq a k))).
Proof.
  intros Hclass Hkey. revert a last w.
  induction k as [|k IH]; intros a last w.
  - cbn [seq map Jina.retry_loop call answers]. rewrite Hclass, Hkey.
    rewrite Nat.add_0_r, Z.ltb_irrefl. cbn.
    by rewrite Nat.add_0_r, Nat.add_1_r, app_nil_r.
  - change (seq a (S (S k))) with (a :: seq (S a) (S k)).
    change (seq a (S k)) with (a :: seq (S a) k).
    rewrite !map_cons.
    cbn [Jina.retry_loop call answers]. rewrite Hclass, Hkey.
    destruct (Z.ltb_spec (Z.of_nat a) (Z.of_nat (a + S k))) as [_|Hge]; [|lia].
    replace (a + S k)%nat with (S a + k)%nat by lia.
    rewrite (IH (S a)). cbn [sleep calls slept].
    f_equal; [do 3 f_equal; lia|].
    f_equal; [lia|]. by rewrite <- app_assoc.
Qed.

Variables (name : string) (retry_delay : Q).
Let linear (i : nat) : Q := (retry_delay * inject_Z (Z.of_nat i))%Q.

Lemma agent_loop_exhausts (k a fuel : nat) (w : world) :
  (k < fuel)%nat ->
  Agent.while_loop (call answers) name (Z.of_nat (a + k)) retry_delay fuel (Z.of_nat a) w
  = (Agent.Raised
       (Agent.exhausted name (Z.of_nat (a + k)) (errs (calls w + k)%nat))
       (Agent._create_tool_metadata name false (Z.of_nat (a + k))),
     World (calls w + S k)%nat (slept w ++ map linear (seq (S a) k))).
Proof.
  revert a fuel w.
  induction k as [|k IH]; intros a fuel w Hfuel;
    (destruct fuel as [|fuel]; [lia|]); cbn [Agent.while_loop call answers].
  - destruct (Z.leb_spec (Z.of_nat a) (Z.of_nat (a + 0))) as [_|?]; [|lia].
    destruct (Z.leb_spec (Z.of_nat a + 1) (Z.of_nat (a + 0))) as [?|_]; [lia|].
    cbn [seq map]. rewrite !Nat.add_0_r, Nat.add_1_r, app_nil_r.
    do 3 f_equal. lia.
  - destruct (Z.leb_spec (Z.of_nat a) (Z.of_nat (a + S k))) as [_|?]; [|lia].
    destruct (Z.leb_spec (Z.of_nat a + 1) (Z.of_nat (a + S k))) as [_|?]; [|lia].
    replace (Z.of_nat a + 1) with (Z.of_nat (S a)) by lia.
    replace (a + S k)%nat with (S a + k)%nat by lia.
    rewrite (IH (S a)) by lia. cbn [sleep calls slept].
    change (seq (S a) (S k)) with (S a :: seq (S (S a)) k). rewrite map_cons.
    f_equal; [do 3 f_equal; lia|].
    f_equal; [lia|]. by rewrite <- app_assoc.
Qed.

End RetryFacts.

(** [py_range] is the list of the attempt numbers. *)
Lemma py_range_S (n : Z) :
  0 <= n -> py_range (n + 1) = map Z.of_nat (seq 0 (S (Z.to_nat n))).
Proof.
  intros Hn. unfold py_range. by replace (Z.to_nat (n + 1)) with (S (Z.to_nat n)) by lia.
Qed.

Lemma retry_with_backoff_exhausts {A} (errs : nat -> exc)
  (max_retries : Z) (base_delay max_delay backoff_factor : Q) (w : world) :
  0 <= max_retries ->
  (forall n, isinstance (errs n) NonRetryableError = false) ->
  Routes.retry_with_backoff (A:=A) (call (fun n => Raise (errs n)))
    max_retries base_delay max_delay backoff_factor w
  = (Raise (errs (calls w + Z.to_nat max_retries)%nat),
     World (calls w + S (Z.to_nat max_retries))%nat
       (slept w ++ map (backoff_delay base_delay max_delay backoff_factor)
                       (py_range max_retries))).
Proof.
  intros Hmax Hretry. unfold Routes.retry_with_backoff.
  rewrite py_range_S by done.
  pose proof (routes_loop_exhausts (A:=A) errs base_delay max_delay backoff_factor
                (Z.to_nat max_retries) 0 None w Hretry) as H.
  cbn [Nat.add] in H. rewrite Z2Nat.id in H by done. rewrite H.
  unfold py_range. by rewrite map_map.
Qed.

Lemma retry_jina_request_exhausts {A} (errs : nat -> exc)
  (max_retries : Z) (base_delay max_delay backoff_factor : Q) (w : world) :
  0 <= max_retries ->
  (forall n, isinstance (errs n) JinaNonRetryableError = false) ->
  (forall n, PyStr.any_in Jina.retry_keywords (PyStr.lower (str (errs n))) = true) ->
  Jina.retry_jina_request (A:=A) (call (fun n => Raise (errs n)))
    max_retries base_delay max_delay backoff_factor w
  = (Raise (Jina.request_failed (errs (calls w + Z.to_nat max_retries)%nat)),
     World (calls w + S (Z.to_nat max_retries))%nat
       (slept w ++ map (backoff_delay base_delay max_delay backoff_factor)
                       (py_range max_retries))).
Proof.
  intros Hmax Hclass Hkey. unfold Jina.retry_jina_request.
  rewrite py_range_S by done.
  pose proof (jina_loop_exhausts (A:=A) errs base_delay max_delay backoff_factor
                (Z.to_nat max_retries) 0 None w Hclass Hkey) as H.
  cbn [Nat.add] in H. rewrite Z2Nat.id in H by done. rewrite H.
  unfold py_range. by rewrite map_map.
Qed.

Lemma execute_with_retry_exhausts {A} (errs : nat -> exc) (name : string)
  (max_retries : Z) (retry_delay : Q) (w : world) :
  0 <= max_retries ->
  Agent._execute_with_retry (A:=A) (call (fun n => Raise (errs n)))
    name max_retries retry_delay w
  = (Agent.Raised
       (Agent.exhausted name max_retries (errs (calls w + Z.to_nat max_retries)%nat))
       (Agent._create_tool_metadata name false max_retries),
     World (calls w + S (Z.to_nat max_retries))%nat
       (slept w ++ map (fun n => (retry_delay * inject_Z n)%Q)
                       (map (Z.add 1) (py_range max_retries)))).
Proof.
  intros Hmax. unfold Agent._execute_with_retry.
  pose proof (agent_loop_exhausts (A:=A) errs name retry_delay
                (Z.to_nat max_retries) 0 (Z.to_nat (max_retries + 1)) w) as H.
  cbn [Nat.add] in H. change (Z.of_nat 0) with 0 in H.
  rewrite Z2Nat.id in H by done.
  rewrite H by lia. do 3 f_equal.
  unfold py_range. rewrite !map_map, <- seq_shift, map_map.
  apply map_ext. intros i. do 2 f_equal. lia.
Qed.

(** The fuel of the [while] loop is enough for every operation. *)
Lemma while_loop_has_fuel {A} (operation : op A) (name : string)
  (max_retries : Z) (retry_delay : Q) (fuel : nat) (retry_count : Z) (w : world) :
  max_retries + 1 - retry_count <= Z.of_nat fuel ->
  fst (Agent.while_loop operation name max_retries retry_delay fuel retry_count w)
  <> Agent.OutOfFuel.
Proof.
  revert retry_count w. induction fuel as [|fuel IH]; intros retry_count w Hfuel;
    cbn [Agent.while_loop].
  - destruct (Z.leb_spec retry_count max_retries); [lia | discriminate].
  - destruct (Z.leb_spec retry_count max_retries); [|discriminate].
    destruct (operation w) as [[result|e] w1]; [discriminate|].
    destruct (Z.leb_spec (retry_count + 1) max_retries); [|discriminate].
    apply IH. lia.
Qed.

Lemma execute_with_retry_has_fuel {A} (operation : op A) (name : string)
  (max_retries : Z) (retry_delay : Q) (w : world) :
  fst (Agent._execute_with_retry operation name max_retries retry_delay w)
  <> Agent.OutOfFuel.
Proof. apply while_loop_has_fuel. lia. Qed.

(** Whatever the wrapped operation answers, the delays of
    [retry_with_backoff] are the first terms of the capped geometric
    sequence: the retry numbered [N] waits for
    [min(base_delay * backoff_factor ** (N - 1), max_delay)]. *)
Lemma routes_loop_delays {A} (answers : nat -> outcome A)
  (base_delay max_delay backoff_factor : Q) (k a : nat) (last : option exc) (w : world) :
  let w' := snd (Routes.retry_loop (call answers) (Z.of_nat (a + k))
                   base_delay max_delay backoff_factor
                   (map Z.of_nat (seq a (S k))) last w) in
  exists j, (j <= k)%nat /\
    calls w' = (calls w + S j)%nat /\
    slept w' = slept w ++ map (fun i => backoff_delay base_delay max_delay backoff_factor
                                           (Z.of_nat i)) (seq a j).
Proof.
  revert a last w. induction k as [|k IH]; intros a last w.
  - exists 0%nat. cbn [seq map Routes.retry_loop call].
    destruct (answers (calls w)) as [v|e]; cbn [snd calls slept].
    + split; [lia|]. split; [lia|]. by rewrite app_nil_r.
    + destruct (isinstance e NonRetryableError); cbn [snd calls slept].
      * split; [lia|]. split; [lia|]. by rewrite app_nil_r.
      * rewrite Nat.add_0_r, Z.eqb_refl. cbn [snd calls slept].
        split; [lia|]. split; [lia|]. by rewrite app_nil_r.
  - change (seq a (S (S k))) with (a :: seq (S a) (S k)). rewrite map_cons.
    cbn [Routes.retry_loop call].
    destruct (answers (calls w)) as [v|e].
    + exists 0%nat. cbn [snd calls slept seq map].
      split; [lia|]. split; [lia|]. by rewrite app_nil_r.
    + destruct (isinstance e NonRetryableError).
      * exists 0%nat. cbn [snd calls slept seq map].
        split; [lia|]. split; [lia|]. by rewrite app_nil_r.
      * destruct (Z.eqb_spec (Z.of_nat a) (Z.of_nat (a + S k))) as [Heq|_]; [lia|].
        replace (a + S k)%nat with (S a + k)%nat by lia.
        destruct (IH (S a) (Some e)
                    (sleep (backoff_delay base_delay max_delay backoff_factor (Z.of_nat a))
                       (World (S (calls w)) (slept w)))) as (j & Hj & Hc & Hs).
        exists (S j). split; [lia|].
        rewrite Hc, Hs. cbn [sleep calls slept seq map].
        split; [lia|]. by rewrite <- app_assoc.
Qed.

Lemma retry_with_backoff_delays {A} (answers : nat -> outcome A)
  (max_retries : Z) (base_delay max_delay backoff_factor : Q) (w : world) :
  0 <= max_retries ->
  let w' := snd (Routes.retry_with_backoff (call answers)
                   max_retries base_delay max_delay backoff_factor w) in
  exists retries, 0 <= retries <= max_retries /\
    calls w' = (calls w + S (Z.to_nat retries))%nat /\
    slept w' = slept w ++ map (backoff_delay base_delay max_delay backoff_factor)
                              (py_range retries).
Proof.
  intros Hmax. unfold Routes.retry_with_backoff.
  rewrite py_range_S by done.
  pose proof (routes_loop_delays answers base_delay max_delay backoff_factor
                (Z.to_nat max_retries) 0 None w) as H.
  cbn [Nat.add] in H. cbn zeta in H. rewrite Z2Nat.id in H by done.
  destruct H as (j & Hj & Hc & Hs).
  exists (Z.of_nat j). cbn zeta.
  rewrite Hc, Hs. rewrite Nat2Z.id. split; [lia|]. split; [done|].
  unfold py_range. by rewrite Nat2Z.id, map_map.
Qed.

(** The retry wrappers of [routes.py] and of the Jina service, with the
    parameters of the backoff property and three retries: the delays are
    1, 2 and 4 seconds, and four attempts are made. *)
Lemma retry_with_backoff_three_retries (e : exc) :
  isinstance e NonRetryableError = false ->
  Routes.retry_with_backoff (A:=unit) (call (fun _ => Raise e)) 3 1 60 2 world0
  = (Raise e, World 4 [1; 2; 4]%Q).
Proof.
  intros He.
  by rewrite (retry_with_backoff_exhausts (fun _ => e)) by (done || lia).
Qed.

Lemma retry_jina_request_three_retries (e : exc) :
  isinstance e JinaNonRetryableError = false ->
  PyStr.any_in Jina.retry_keywords (PyStr.lower (str e)) = true ->
  Jina.retry_jina_request (A:=unit) (call (fun _ => Raise e)) 3 1 60 2 world0
  = (Raise (Jina.request_failed e), World 4 [1; 2; 4]%Q).
Proof.
  intros He Hk.
  by rewrite (retry_jina_request_exhausts (fun _ => e)) by (done || lia).
Qed.

(** C1. The delay before the retry numbered N is claimed to be
    min(1.0 * 2^(N-1), 60.0).  [_execute_with_retry], run with its
    default delay of one second and three retries on an operation that
    always fails, makes four attempts and three delayed retries, but the
    delays are 1, 2 and 3 seconds: the third is not the 4 seconds of the
    capped geometric sequence. *)
Theorem execute_with_retry_delays_are_linear (e : exc) (name : string) :
  let w := snd (Agent._execute_with_retry (A:=unit) (call (fun _ => Raise e))
                  name 3 1 world0) in
  calls w = 4%nat /\
  slept w = [1; 2; 3]%Q /\
  nth_error (slept w) 2 = Some 3%Q /\
  ~ (3 == backoff_delay 1 60 2 2)%Q.
Proof.
  cbn zeta. rewrite (execute_with_retry_exhausts (fun _ => e)) by lia.
  repeat split. intros H. vm_compute in H. discriminate.
Qed.

(** C5. A terminal error that wraps the last exception and carries the
    operation name and the attempt count is not what [retry_with_backoff]
    raises: after three retries of an operation that keeps failing with
    "boom" it raises that very exception again. *)
Lemma retry_with_backoff_raises_last_itself :
  let boom := Exc Exception_ "boom" in
  fst (Routes.retry_with_backoff (A:=unit) (call (fun _ => Raise boom)) 3 1 60 2 world0)
  = Raise boom /\
  Spec.exhausted_retries_error "" 3 boom boom = false.
Proof. split; vm_compute; reflexivity. Qed.

(** Nor is it what [retry_jina_request] raises: the error wraps the
    message of the last one, "Request timeout", without the count. *)
Lemma retry_jina_request_error_has_no_count :
  let timeout := Exc Exception_ "Request timeout" in
  fst (Jina.retry_jina_request (A:=unit) (call (fun _ => Raise timeout)) 3 1 60 2 world0)
  = Raise (Jina.request_failed timeout) /\
  Spec.exhausted_retries_error "" 3 timeout (Jina.request_failed timeout) = false.
Proof. split; vm_compute; reflexivity. Qed.

(** C5, as the code has it.  When every attempt fails retryably and the
    retries are exhausted, [_execute_with_retry] raises a [ModelRetry]
    whose message names the tool, the number of retries and the last
    error, and builds metadata with [success = False] and
    [retry_count = max_retries]; [retry_with_backoff] raises the last
    exception itself; [retry_jina_request] raises a
    [JinaNonRetryableError] holding the message of the last error
    only. *)
Theorem exhausted_retries_errors {A} (errs : nat -> exc) (name : string)
  (max_retries : Z) (base_delay max_delay backoff_factor retry_delay : Q) (w : world) :
  0 <= max_retries ->
  (forall n, isinstance (errs n) NonRetryableError = false) ->
  (forall n, isinstance (errs n) JinaNonRetryableError = false) ->
  (forall n, PyStr.any_in Jina.retry_keywords (PyStr.lower (str (errs n))) = true) ->
  let failing : op A := call (fun n => Raise (errs n)) in
  let last := errs (calls w + Z.to_nat max_retries)%nat in
  fst (Agent._execute_with_retry failing name max_retries retry_delay w)
  = Agent.Raised
      (Exc ModelRetry
         ("Tool " +:+ name +:+ " failed after " +:+ Agent.str_of_Z max_retries +:+
          " retries: " +:+ str last))
      {| Agent.tool_name := name; Agent.success := false;
         Agent.retry_count := max_retries; Agent.source := "orchestrator" |} /\
  fst (Routes.retry_with_backoff failing max_retries base_delay max_delay backoff_factor w)
  = Raise last /\
  fst (Jina.retry_jina_request failing max_retries base_delay max_delay backoff_factor w)
  = Raise (Exc JinaNonRetryableError ("Jina AI request failed: " +:+ str last)).
Proof.
  intros Hmax Hroutes Hjina Hkey. cbn zeta.
  rewrite execute_with_retry_exhausts, retry_with_backoff_exhausts,
    retry_jina_request_exhausts by done.
  done.
Qed.

Lemma exhausted_retries_errors_witness :
  let timeout := Exc Exception_ "Request timeout" in
  let failing : op unit := call (fun _ => Raise timeout) in
  fst (Agent._execute_with_retry failing "deep_research" 3 1 world0)
  = Agent.Raised
      (Exc ModelRetry "Tool deep_research failed after 3 retries: Request timeout")
      {| Agent.tool_name := "deep_research"; Agent.success := false;
         Agent.retry_count := 3; Agent.source := "orchestrator" |} /\
  fst (Routes.retry_with_backoff failing 3 1 60 2 world0) = Raise timeout /\
  fst (Jina.retry_jina_request failing 3 1 60 2 world0)
  = Raise (Exc JinaNonRetryableError "Jina AI request failed: Request timeout").
Proof.
  apply (exhausted_retries_errors (A:=unit) (fun _ => Exc Exception_ "Request timeout")
           "deep_research" 3 1 60 2 1 world0).
  - lia.
  - intros _. reflexivity.
  - intros _. reflexivity.
  - intros _. vm_compute. reflexivity.
Defined.

(** C7. An error outside the taxonomy is claimed to be retried up to the
    configured count.  The chat endpoint is configured with two retries;
    an "unknown_error" raised by [agent.run] is answered after one
    attempt and no delay. *)
Lemma chat_unknown_error_is_not_retried :
  let boom := Exc Exception_ "boom" in
  snd (Chat.categorize boom) = "unknown_error" /\
  Chat.chat_with_orchestrator Chat.agent_created (call (fun _ => Raise boom))
    "default" "now" world0
  = (Chat.HTTPException 400 Chat.unknown_message, World 1 []).
Proof. split; vm_compute; reflexivity. Qed.

Lemma retry_loop_ext {A} (f g : op A) (max_retries : Z)
  (base_delay max_delay backoff_factor : Q) (attempts : list Z) last w :
  (forall w, f w = g w) ->
  Routes.retry_loop f max_retries base_delay max_delay backoff_factor attempts last w
  = Routes.retry_loop g max_retries base_delay max_delay backoff_factor attempts last w.
Proof.
  intros Hfg. revert last w. induction attempts as [|attempt rest IH]; intros last w.
  - reflexivity.
  - cbn [Routes.retry_loop]. rewrite Hfg.
    destruct (g w) as [[v|e] w1]; [done|].
    destruct (isinstance e NonRetryableError); [done|].
    destruct (attempt =? max_retries); [done|]. apply IH.
Qed.

(** C7, as the code has it.  An error of [agent.run] whose lower-cased
    message holds none of the retry keywords is permanent: the chat
    endpoint answers it with status 400 and the user message of the
    taxonomy after one attempt and no delay; and [retry_jina_request],
    given an error that is of neither Jina class and holds none of its
    keywords, raises after one attempt and no delay.  An error of
    [agent.run] whose message holds a keyword is retried: the chat
    endpoint makes its three attempts, one and two seconds apart, and
    answers with status 503.  An error raised before [agent.run], by
    the creation of the agent, is not classified at all: whatever its
    text it is retried twice, [agent.run] is never called, and the
    endpoint answers with status 500. *)
Theorem unknown_errors_fail_at_once (e : exc)
  (agent_run : op MetatronAgent.run_result) (ws now : string)
  (max_retries : Z) (base_delay max_delay backoff_factor : Q) (w : world) :
  0 <= max_retries ->
  isinstance e JinaNonRetryableError = false ->
  isinstance e JinaRetryableError = false ->
  (PyStr.any_in Chat.chat_keywords (PyStr.lower (str e)) = false ->
   Chat.chat_with_orchestrator Chat.agent_created (call (fun _ => Raise e)) ws now w
   = (Chat.HTTPException 400
        (Chat.user_message
           (Chat.create_error_response
              (Exc NonRetryableError ("Permanent error: " +:+ str e)) "chat_processing")),
      World (S (calls w)) (slept w))) /\
  (PyStr.any_in Jina.retry_keywords (PyStr.lower (str e)) = false ->
   Jina.retry_jina_request (A:=unit) (call (fun _ => Raise e))
     max_retries base_delay max_delay backoff_factor w
   = (Raise (Jina.request_failed e), World (S (calls w)) (slept w))) /\
  (PyStr.any_in Chat.chat_keywords (PyStr.lower (str e)) = true ->
   Chat.chat_with_orchestrator Chat.agent_created (call (fun _ => Raise e)) ws now w
   = (Chat.HTTPException 503 Chat.temporary_message,
      World (calls w + 3)%nat (slept w ++ [1; 2]%Q))) /\
  (isinstance e NonRetryableError = false ->
   isinstance e RetryableError = false ->
   Chat.chat_with_orchestrator (Chat.creation_fails e) agent_run ws now w
   = (Chat.HTTPException 500
        (Chat.user_message (Chat.create_error_response e "chat_processing")),
      World (calls w) (slept w ++ [1; 2]%Q))).
Proof.
  intros Hmax Hclass _. repeat split.
  - intros Hkey. unfold Chat.chat_with_orchestrator, Routes.retry_with_backoff.
    change (py_range (2 + 1)) with [0; 1; 2].
    cbn [Routes.retry_loop Chat.run_chat_with_retry Chat.agent_created call].
    rewrite Hkey. reflexivity.
  - intros Hkey. unfold Jina.retry_jina_request.
    rewrite py_range_S by done.
    change (seq 0 (S (Z.to_nat max_retries))) with (0%nat :: seq 1 (Z.to_nat max_retries)).
    rewrite map_cons.
    cbn [Jina.retry_loop call]. by rewrite Hclass, Hkey.
  - intros Hkey. unfold Chat.chat_with_orchestrator, Routes.retry_with_backoff.
    rewrite (retry_loop_ext _
               (call (fun _ => Raise (Exc RetryableError ("Temporary error: " +:+ str e)))))
      by (intros w0; cbn [Chat.run_chat_with_retry Chat.agent_created call];
          by rewrite Hkey).
    pose proof (retry_with_backoff_exhausts (A:=MetatronAgent.run_result)
                  (fun _ => Exc RetryableError ("Temporary error: " +:+ str e))
                  2 1 10 2 w) as H.
    unfold Routes.retry_with_backoff in H. rewrite H by done.
    reflexivity.
  - intros Hnon Hretry. unfold Chat.chat_with_orchestrator, Routes.retry_with_backoff.
    change (py_range (2 + 1)) with [0; 1; 2].
    cbn [Routes.retry_loop Chat.run_chat_with_retry Chat.creation_fails].
    rewrite !Hnon. cbn [Z.eqb Pos.eqb Routes.raise_last sleep calls slept].
    rewrite Hnon, Hretry. unfold sleep. cbn [calls slept].
    by rewrite <- app_assoc.
Qed.

Lemma unknown_errors_fail_at_once_witness :
  Chat.chat_with_orchestrator Chat.agent_created
    (call (fun _ => Raise (Exc Exception_ "boom"))) "default" "now" world0
  = (Chat.HTTPException 400 Chat.unknown_message, World 1 []) /\
  Jina.retry_jina_request (A:=unit) (call (fun _ => Raise (Exc Exception_ "boom")))
    3 1 30 2 world0
  = (Raise (Exc JinaNonRetryableError "Jina AI request failed: boom"), World 1 []) /\
  Chat.chat_with_orchestrator Chat.agent_created
    (call (fun _ => Raise (Exc Exception_ "Connection reset"))) "default" "now" world0
  = (Chat.HTTPException 503 Chat.temporary_message, World 3 [1; 2]%Q) /\
  Chat.chat_with_orchestrator
    (Chat.creation_fails (Exc ValueError "Gemini API key not found in configuration"))
    (call (fun _ => Raise (Exc Exception_ "boom"))) "default" "now" world0
  = (Chat.HTTPException 500 Chat.validation_message, World 0 [1; 2]%Q).
Proof.
  pose proof (unknown_errors_fail_at_once (Exc Exception_ "boom")
                (call (fun _ => Raise (Exc Exception_ "boom")))
                "default" "now" 3 1 30 2 world0) as Hboom.
  pose proof (unknown_errors_fail_at_once (Exc Exception_ "Connection reset")
                (call (fun _ => Raise (Exc Exception_ "boom")))
                "default" "now" 3 1 30 2 world0) as Hreset.
  pose proof (unknown_errors_fail_at_once
                (Exc ValueError "Gemini API key not found in configuration")
                (call (fun _ => Raise (Exc Exception_ "boom")))
                "default" "now" 3 1 30 2 world0) as Hkey.
  destruct Hboom as (Hchat & Hjina & _ & _); [lia | reflexivity | reflexivity |].
  destruct Hreset as (_ & _ & Hretried & _); [lia | reflexivity | reflexivity |].
  destruct Hkey as (_ & _ & _ & Hcreation); [lia | reflexivity | reflexivity |].
  split; [apply Hchat; vm_compute; reflexivity|].
  split; [apply Hjina; vm_compute; reflexivity|].
  split; [apply Hretried; vm_compute; reflexivity|].
  apply Hcreation; reflexivity.
Defined.

(** ** The agent and the chat endpoints *)


(** A model error that [run] does not take for a rate limit leaves
    [run] as the [UnboundLocalError] of its outer handler. *)
Lemma run_raises_unbound (answers : nat -> outcome MetatronAgent.OrchestratorOutput)
  (e : exc) (w : world) :
  answers (calls w) = Raise e ->
  PyStr.contains "429" (str e) = false ->
  PyStr.contains "RESOURCE_EXHAUSTED" (str e) = false ->
  MetatronAgent.run (call answers) w
  = (Raise MetatronAgent.unbound_output, World (S (calls w)) (slept w)).
Proof.
  intros Hraise H429 Hquota.
  unfold MetatronAgent.run, MetatronAgent.run_model, call.
  by rewrite Hraise, H429, Hquota.
Qed.

(** An error of [agent.run] without a retry keyword is answered with
    status 400 after one attempt. *)
Lemma chat_permanent_error (agent_run : op MetatronAgent.run_result)
  (ws now : string) (w w1 : world) (e : exc) :
  agent_run w = (Raise e, w1) ->
  PyStr.any_in Chat.chat_keywords (PyStr.lower (str e)) = false ->
  Chat.chat_with_orchestrator Chat.agent_created agent_run ws now w
  = (Chat.HTTPException 400
       (Chat.user_message
          (Chat.create_error_response
             (Exc NonRetryableError ("Permanent error: " +:+ str e)) "chat_processing")),
     w1).
Proof.
  intros Hrun Hkey. unfold Chat.chat_with_orchestrator, Routes.retry_with_backoff.
  change (py_range (2 + 1)) with [0; 1; 2].
  cbn [Routes.retry_loop Chat.run_chat_with_retry Chat.agent_created].
  by rewrite Hrun, Hkey.
Qed.




(** C4. A stream is claimed to end with exactly one complete chunk.  The
    stream of a session whose agent returns holds two status chunks and
    a response chunk, and no chunk of type "complete". *)
Lemma stream_has_no_complete_chunk :
  let out := MetatronAgent.AgentRunResult MetatronAgent.rate_limit_output in
  let events := fst (Chat.generate_stream (call (fun _ => Return out)) "now" world0) in
  map Chat.chunk_type (Chat.chunks events) = ["status"; "status"; "response"] /\
  Spec.count_type "complete" (Chat.chunks events) = 0%nat.
Proof. split; vm_compute; reflexivity. Qed.

(** C4, as the code has it.  Every stream starts with a status chunk and
    ends with the [DONE] sentinel, which occurs once; no chunk has the
    type "complete".  When the agent returns, the chunks are two status
    chunks and then one response chunk, the last before the sentinel;
    when it raises, they are one status chunk and then one error chunk,
    and there is no response chunk. *)
Theorem stream_shape (agent_run : op MetatronAgent.run_result) (now : string) (w : world) :
  let events := fst (Chat.generate_stream agent_run now w) in
  (exists message progress rest,
     events = Chat.Data (Chat.StatusChunk message progress) :: rest) /\
  (exists before, events = before ++ [Chat.Done] /\ ~ In Chat.Done before) /\
  Spec.count_type "complete" (Chat.chunks events) = 0%nat /\
  match fst (agent_run w) with
  | Return _ =>
      map Chat.chunk_type (Chat.chunks events) = ["status"; "status"; "response"]
  | Raise _ =>
      map Chat.chunk_type (Chat.chunks events) = ["status"; "error"] /\
      Spec.count_type "response" (Chat.chunks events) = 0%nat
  end.
Proof.
  cbn zeta. unfold Chat.generate_stream.
  destruct (agent_run w) as [[result|e] w1]; cbn [fst].
  - split; [by eexists _, _, _|].
    split; [|by split].
    eexists [_; _; _]. split; [reflexivity|].
    cbn [In]. intros [H|[H|[H|[]]]]; discriminate H.
  - split; [by eexists _, _, _|].
    split; [|by split].
    eexists [_; _]. split; [reflexivity|].
    cbn [In]. intros [H|[H|[]]]; discriminate H.
Qed.

(** The user message of the taxonomy is one of six fixed texts. *)
Lemma categorize_user_message (e : exc) :
  In (fst (Chat.categorize e)) Chat.user_messages.
Proof.
  unfold Chat.categorize, Chat.user_messages.
  repeat match goal with
         | |- context [if ?b then _ else _] => destruct b
         end; cbn [fst In]; tauto.
Qed.

(** The chat endpoint does keep the text of the exception away from the
    user: the detail of every error it answers with is a fixed text. *)
Lemma chat_error_detail_is_fixed (get_orchestrator_agent : op unit)
  (agent_run : op MetatronAgent.run_result)
  (ws now : string) (w w' : world) (status_code : Z) (detail : string) :
  Chat.chat_with_orchestrator get_orchestrator_agent agent_run ws now w
  = (Chat.HTTPException status_code detail, w') ->
  In detail (Chat.temporary_message :: Chat.user_messages).
Proof.
  unfold Chat.chat_with_orchestrator.
  destruct (Routes.retry_with_backoff _ _ _ _ _ _) as [[result|e] w1]; [discriminate|].
  destruct (isinstance e NonRetryableError);
    [|destruct (isinstance e RetryableError)];
    intros [= _ <- _]; cbn [Chat.create_error_response Chat.user_message].
  - right. apply categorize_user_message.
  - by left.
  - right. apply categorize_user_message.
Qed.

(** C10. The user is claimed to see the mapped user message only.  When
    the language model raises an error that is not taken for a rate
    limit, [MetatronAgent.run] raises the [UnboundLocalError] of its
    outer handler, and the stream shows it to the user: the error chunk
    reads "Processing failed: " followed by the text of that exception,
    which is none of the user messages of the taxonomy.  The same holds
    of whatever [agent.run] raises: the error chunk holds the text of
    the exception. *)
Theorem error_paths_show_exception_text
  (answers : nat -> outcome MetatronAgent.OrchestratorOutput) (e : exc)
  (now : string) (w : world) :
  answers (calls w) = Raise e ->
  PyStr.contains "429" (str e) = false ->
  PyStr.contains "RESOURCE_EXHAUSTED" (str e) = false ->
  let agent_run := MetatronAgent.run (call answers) in
  let raised :=
    Exc UnboundLocalError
      "cannot access local variable 'OrchestratorOutput' where it is not associated with a value" in
  let shown :=
    "Processing failed: cannot access local variable 'OrchestratorOutput' where it is not associated with a value" in
  fst (agent_run w) = Raise raised /\
  fst (Chat.generate_stream agent_run now w)
  = [ Chat.Data (Chat.StatusChunk "🤖 Initializing AI agent..." 10);
      Chat.Data (Chat.ErrorChunk shown 100);
      Chat.Done ] /\
  ~ In shown (Chat.temporary_message :: Chat.user_messages) /\
  PyStr.contains (str raised) shown = true /\
  (forall (failing : op MetatronAgent.run_result) (e' : exc) (w1 : world),
     failing w = (Raise e', w1) ->
     fst (Chat.generate_stream failing now w)
     = [ Chat.Data (Chat.StatusChunk "🤖 Initializing AI agent..." 10);
         Chat.Data (Chat.ErrorChunk ("Processing failed: " +:+ str e') 100);
         Chat.Done ]).
Proof.
  intros Hraise H429 Hquota. cbn zeta.
  pose proof (run_raises_unbound answers e w Hraise H429 Hquota) as Hrun.
  split; [by rewrite Hrun|]. split.
  { unfold Chat.generate_stream. by rewrite Hrun. }
  split.
  { cbn [In]. intros H.
    repeat (destruct H as [H|H]; [discriminate H|]). destruct H. }
  split; [vm_compute; reflexivity|].
  intros failing e' w1 Hfailing. unfold Chat.generate_stream. by rewrite Hfailing.
Qed.

Lemma error_paths_show_exception_text_witness :
  let agent_run := MetatronAgent.run (call (fun _ => Raise (Exc Exception_ "boom"))) in
  fst (Chat.generate_stream agent_run "now" world0)
  = [ Chat.Data (Chat.StatusChunk "🤖 Initializing AI agent..." 10);
      Chat.Data
        (Chat.ErrorChunk
           "Processing failed: cannot access local variable 'OrchestratorOutput' where it is not associated with a value"
           100);
      Chat.Done ].
Proof.
  apply (error_paths_show_exception_text (fun _ => Raise (Exc Exception_ "boom"))
           (Exc Exception_ "boom") "now" world0); reflexivity.
Defined.

(** ** Content detection *)

Section DetectionFacts.
Import ContentDetection.
Variable message : string.

Lemma check_patterns_counts (patterns : list string) (pattern_matches confidence : Z) :
  check_patterns (PyStr.lower message) patterns (pattern_matches, confidence)
  = let n := Z.of_nat (List.length (Spec.triggers_matched message (Config patterns []))) in
    (pattern_matches + n, confidence + 20 * n).
Proof.
  unfold check_patterns, Spec.triggers_matched. cbn [cfg_patterns].
  revert pattern_matches confidence.
  induction patterns as [|p ps IH]; intros pm c; cbn [fold_left List.filter].
  - cbn. f_equal; lia.
  - destruct (Re.search p (PyStr.lower message) true); rewrite IH; cbn zeta;
      cbn [List.length]; f_equal; lia.
Qed.

(** The entity the code takes from a match is the one the specification
    names. *)
Lemma entity_of_entity (found : Re.found) : entity_of found = Spec.entity found.
Proof. by destruct found. Qed.

Lemma extract_entities_counts (entity_patterns ents : list string) (confidence : Z) :
  extract_entities message entity_patterns (ents, confidence)
  = (ents ++ Spec.captured message (Config [] entity_patterns),
     confidence
     + 15 * Z.of_nat (List.length
                        (Spec.entity_patterns_hit message (Config [] entity_patterns)))).
Proof.
  unfold extract_entities, Spec.captured, Spec.entity_patterns_hit. cbn [cfg_entities].
  revert ents confidence.
  induction entity_patterns as [|p ps IH]; intros ents c;
    cbn [fold_left List.filter map concat].
  - rewrite app_nil_r. f_equal. cbn. lia.
  - destruct (Re.findall p message true) as [|f fs]; rewrite IH.
    + cbn [map app]. done.
    + rewrite (map_ext _ _ entity_of_entity).
      cbn [List.length]. rewrite <- app_assoc. f_equal. lia.
Qed.

Lemma analyze_type_expected (acc : list detection) (entry : string * config) :
  analyze_type message (PyStr.lower message) acc entry
  = if negb (Nat.eqb (List.length (Spec.triggers_matched message (snd entry))) 0)
    then acc ++ [Spec.expected message entry]
    else acc.
Proof.
  destruct entry as [content_type [patterns entity_patterns]].
  unfold analyze_type. rewrite check_patterns_counts. cbv beta iota zeta.
  rewrite extract_entities_counts.
  unfold Spec.expected, Spec.score, Spec.triggers_matched, Spec.captured,
    Spec.entity_patterns_hit.
  cbn [fst snd cfg_patterns cfg_entities app].
  set (n := List.length (List.filter _ patterns)).
  rewrite !Z.add_0_l.
  destruct n as [|n]; cbn [Nat.eqb negb].
  - reflexivity.
  - destruct (Z.gtb_spec (Z.of_nat (S n)) 0) as [_|?]; [reflexivity|lia].
Qed.

Lemma fold_analyze_type (table : list (string * config)) (acc : list detection) :
  fold_left (analyze_type message (PyStr.lower message)) table acc
  = acc ++ map (Spec.expected message) (Spec.included message table).
Proof.
  revert acc. induction table as [|entry table IH]; intros acc.
  - cbn. by rewrite app_nil_r.
  - cbn [fold_left Spec.included List.filter]. rewrite IH, analyze_type_expected.
    fold (Spec.included message table).
    destruct (negb _); cbn [map]; [by rewrite <- app_assoc | done].
Qed.

End DetectionFacts.

Section SortFacts.
Import ContentDetection.

Lemma insert_desc_perm (x : detection) (l : list detection) :
  Permutation (insert_desc x l) (x :: l).
Proof.
  induction l as [|y l IH]; cbn [insert_desc]; [done|].
  destruct (det_confidence y <=? det_confidence x); [done|].
  rewrite IH. apply perm_swap.
Qed.

Lemma sort_desc_perm (l : list detection) : Permutation (sort_desc l) l.
Proof.
  induction l as [|x l IH]; cbn [sort_desc fold_right]; [done|].
  fold (sort_desc l). rewrite insert_desc_perm. by constructor.
Qed.

Lemma insert_desc_hd (x y : detection) (l : list detection) :
  Spec.descending y x -> HdRel Spec.descending y l ->
  HdRel Spec.descending y (insert_desc x l).
Proof.
  intros Hyx Hl. destruct l as [|z l]; cbn [insert_desc]; [by constructor|].
  destruct (det_confidence z <=? det_confidence x); constructor; [done|].
  by inversion Hl.
Qed.

Lemma insert_desc_sorted (x : detection) (l : list detection) :
  Sorted Spec.descending l -> Sorted Spec.descending (insert_desc x l).
Proof.
  induction 1 as [|y l Hl IH Hhd]; cbn [insert_desc].
  - by repeat constructor.
  - destruct (Z.leb_spec (det_confidence y) (det_confidence x)) as [Hle|Hlt].
    + constructor; [by constructor|]. by constructor.
    + constructor; [done|]. apply insert_desc_hd; [|done].
      unfold Spec.descending. lia.
Qed.

Lemma sort_desc_sorted (l : list detection) : Sorted Spec.descending (sort_desc l).
Proof.
  induction l as [|x l IH]; cbn [sort_desc fold_right]; [constructor|].
  by apply insert_desc_sorted.
Qed.

Lemma descending_trans : Relations_1.Transitive Spec.descending.
Proof. intros a b c. unfold Spec.descending. lia. Qed.

End SortFacts.

(** The matcher on the patterns of the chart entities: without regard
    to case the stock-symbol pattern finds every short word, with regard
    to case it finds none. *)
Example findall_stock_symbols_ignorecase :
  Re.findall "\b([A-Z]{2,5})\b" "show me a chart of bitcoin price trends" true
  = [Re.FoundStr "show"; Re.FoundStr "me"; Re.FoundStr "chart";
     Re.FoundStr "of"; Re.FoundStr "price"].
Proof. vm_compute. reflexivity. Qed.

Example findall_stock_symbols_case :
  Re.findall "\b([A-Z]{2,5})\b" "show me a chart of bitcoin price trends" false = [].
Proof. vm_compute. reflexivity. Qed.

Example findall_two_groups :
  Re.findall "\b(in\s+)([A-Z][a-z]+(?:\s+[A-Z][a-z]+)*)" "Hotels in New York. go" true
  = [Re.FoundTuple ["in "; "New York"]].
Proof. vm_compute. reflexivity. Qed.

Example findall_urls :
  Re.findall "(https?://(?:www\.)?(?:youtube\.com/watch\?v=|youtu\.be/)[\w-]+)"
    "see https://www.youtube.com/watch?v=abc-12_3&t=1 and http://youtu.be/XyZ!" true
  = [Re.FoundStr "https://www.youtube.com/watch?v=abc-12_3";
     Re.FoundStr "http://youtu.be/XyZ"].
Proof. vm_compute. reflexivity. Qed.

Example search_trends :
  Re.search "\b(trend|trends|trending)\b" "show me a chart of bitcoin price trends" true
  = true /\
  Re.search "\b(show.*data|display.*data)\b" "show me a chart of bitcoin price trends" true
  = false.
Proof. split; vm_compute; reflexivity. Qed.

(** Every pattern of the table is one [parse] compiles. *)
Lemma content_patterns_compile :
  Forall (fun entry =>
            Forall (fun pattern => Re.parse pattern <> None)
              (ContentDetection.cfg_patterns (snd entry)
               ++ ContentDetection.cfg_entities (snd entry)))
    ContentDetection.content_patterns.
Proof.
  repeat constructor; vm_compute; discriminate.
Qed.

(** A match found by [findall] has captured at least one group, the
    match itself where the pattern has none. *)
Lemma findall_captured_groups (pattern subject : string) (ignorecase : bool)
  (found : Re.found) :
  In found (Re.findall pattern subject ignorecase) -> Spec.captured_groups found <> [].
Proof.
  unfold Re.findall. destruct (Re.compile pattern) as [r groups].
  intros Hin. apply in_map_iff in Hin as (mc & <- & _).
  unfold Re.found_of. destruct groups as [|[|n]]; [done | done |].
  change (seq 1 (S (S n))) with (1%nat :: seq 2 (S n)).
  by cbn [map Spec.captured_groups].
Qed.

Lemma entity_is_captured (found : Re.found) :
  Spec.captured_groups found <> [] ->
  In (Spec.entity found) (Spec.captured_groups found).
Proof.
  unfold Spec.entity. intros Hsome.
  rewrite (app_removelast_last EmptyString Hsome) at 2.
  apply in_or_app. right. by left.
Qed.

(** Every entity captured for a type is one of its captured groups. *)
Lemma captured_in_all (message : string) (cfg : ContentDetection.config) (e : string) :
  In e (Spec.captured message cfg) -> In e (Spec.all_captured message cfg).
Proof.
  unfold Spec.captured, Spec.all_captured. rewrite !List.in_concat.
  intros (l & Hl & He). apply in_map_iff in Hl as (p & <- & Hp).
  apply in_map_iff in He as (f & <- & Hf).
  exists (concat (map Spec.captured_groups (Re.findall p message true))). split.
  - apply in_map_iff. by exists p.
  - apply List.in_concat. exists (Spec.captured_groups f).
    split; [by apply in_map|].
    apply entity_is_captured. by apply (findall_captured_groups p message true).
Qed.

(** C3. The content types of the classifier are chart, image, video and
    map.  For every message the detections reported are, up to their
    order, the content types with at least one trigger pattern that
    matches the lowercased message, each with confidence
    min(20 * triggers + 15 * entity patterns hit, 100) and, as its
    entities, the first three of the entities captured by the entity
    patterns from the message as it is, each of them a captured group;
    they are in descending order of confidence, so the first has the
    top score; and the primary detection is the first one when its
    confidence is at least 40, and plain text with confidence 0
    otherwise. *)
Theorem detection_scores_and_primary (now message : string) :
  let r := ContentDetection.detect_content_intent now (ContentDetection.PyStr_ message) in
  map fst ContentDetection.content_patterns = Spec.content_types /\
  exists detections,
    ContentDetection.all_detections r = Some detections /\
    Permutation detections
      (map (Spec.expected message)
           (Spec.included message ContentDetection.content_patterns)) /\
    StronglySorted Spec.descending detections /\
    Forall (fun d => 0 <= ContentDetection.det_confidence d <= 100 /\
                     (List.length (ContentDetection.det_entities d) <= 3)%nat /\
                     0 < ContentDetection.det_pattern_matches d /\
                     In (ContentDetection.det_content_type d) Spec.content_types /\
                     exists cfg,
                       In (ContentDetection.det_content_type d, cfg)
                          ContentDetection.content_patterns /\
                       ContentDetection.det_entities d
                       = firstn 3 (Spec.captured message cfg) /\
                       Forall (fun e => In e (Spec.all_captured message cfg))
                              (ContentDetection.det_entities d)) detections /\
    (forall top rest, detections = top :: rest ->
       40 <= ContentDetection.det_confidence top ->
       ContentDetection.has_visual_content r = true /\
       ContentDetection.primary_content_type r = ContentDetection.det_content_type top /\
       ContentDetection.confidence r = ContentDetection.det_confidence top /\
       ContentDetection.entities r = ContentDetection.det_entities top) /\
    ((detections = [] \/
      exists top rest, detections = top :: rest /\
                       ContentDetection.det_confidence top < 40) ->
       ContentDetection.has_visual_content r = false /\
       ContentDetection.primary_content_type r = "text" /\
       ContentDetection.confidence r = 0 /\
       ContentDetection.entities r = []).
Proof.
  cbn zeta. split; [reflexivity|].
  unfold ContentDetection.detect_content_intent, ContentDetection.try_detect,
    ContentDetection.detect. cbv zeta.
  rewrite fold_analyze_type. cbn [app].
  set (wanted := map (Spec.expected message) _).
  set (detections := ContentDetection.sort_desc wanted).
  exists detections. cbn [ContentDetection.all_detections].
  assert (Hperm : Permutation detections wanted) by apply sort_desc_perm.
  split; [done|]. split; [done|]. split.
  { apply Sorted_StronglySorted; [apply descending_trans | apply sort_desc_sorted]. }
  split.
  { apply List.Forall_forall. intros d Hd.
    apply (Permutation_in _ Hperm) in Hd.
    apply in_map_iff in Hd as (entry & <- & Hentry).
    apply filter_In in Hentry as [Htable Hentry].
    unfold Spec.expected, Spec.score.
    cbn [ContentDetection.det_confidence ContentDetection.det_entities
           ContentDetection.det_pattern_matches ContentDetection.det_content_type].
    split; [lia|]. split; [rewrite length_firstn; lia|].
    split; [destruct (List.length _); [discriminate Hentry | lia]|].
    split.
    { change Spec.content_types with (map fst ContentDetection.content_patterns).
      by apply in_map. }
    exists (snd entry). split; [by destruct entry|]. split; [done|].
    apply List.Forall_forall. intros e He. apply captured_in_all.
    rewrite <- (firstn_skipn 3 (Spec.captured message (snd entry))).
    apply in_or_app. by left. }
  cbn [ContentDetection.has_visual_content ContentDetection.primary_content_type
         ContentDetection.confidence ContentDetection.entities].
  split.
  - intros top rest -> Htop.
    destruct (Z.geb_spec (ContentDetection.det_confidence top) 40) as [_|?]; [done|lia].
  - intros [->|(top & rest & -> & Htop)]; [done|].
    destruct (Z.geb_spec (ContentDetection.det_confidence top) 40) as [?|_]; [lia|done].
Qed.

(** C6. The message "show me a chart of bitcoin price trends" is
    classified as a chart with confidence 70, but the entities reported
    are "show", "me" and "chart": the stock-symbol pattern, matched
    without regard to case, captures every word of two to five letters,
    and "bitcoin" comes sixth in a list cut after three.  The message
    "what is the capital of France" is classified as text with
    confidence 0. *)
Theorem bitcoin_message_entities (now : string) :
  let chart := ContentDetection.detect_content_intent now
                 (ContentDetection.PyStr_ "show me a chart of bitcoin price trends") in
  let text := ContentDetection.detect_content_intent now
                (ContentDetection.PyStr_ "what is the capital of France") in
  ContentDetection.primary_content_type chart = "chart" /\
  ContentDetection.confidence chart = 70 /\
  ContentDetection.entities chart = ["show"; "me"; "chart"] /\
  (forall token, In token ["bitcoin"; "btc"; "ethereum"; "eth"; "crypto"] ->
                 ~ In token (ContentDetection.entities chart)) /\
  Spec.captured "show me a chart of bitcoin price trends"
    (ContentDetection.Config []
       ["\b([A-Z]{2,5})\b"; "\b(bitcoin|btc|ethereum|eth|crypto)\b"; "\b(\d+%|\$\d+)\b"])
  = ["show"; "me"; "chart"; "of"; "price"; "bitcoin"] /\
  ContentDetection.primary_content_type text = "text" /\
  ContentDetection.confidence text = 0.
Proof.
  cbn zeta.
  assert (Hents : ContentDetection.entities
                    (ContentDetection.detect_content_intent now
                       (ContentDetection.PyStr_ "show me a chart of bitcoin price trends"))
                  = ["show"; "me"; "chart"]) by (vm_compute; reflexivity).
  split; [vm_compute; reflexivity|].
  split; [vm_compute; reflexivity|].
  split; [exact Hents|].
  split.
  { rewrite Hents. cbn [In]. intros token Htoken Hin.
    repeat (destruct Htoken as [<-|Htoken]; [intuition discriminate|]).
    destruct Htoken. }
  split; [vm_compute; reflexivity|].
  split; vm_compute; reflexivity.
Qed.

(** C9. Two invocations on the same message are claimed to return
    identical results.  The result carries the time of the call: two
    calls on "hello", a second apart, return different results. *)
Lemma detection_results_differ_by_timestamp :
  ContentDetection.detect_content_intent "2024-01-01T00:00:00"
    (ContentDetection.PyStr_ "hello")
  <> ContentDetection.detect_content_intent "2024-01-01T00:00:01"
       (ContentDetection.PyStr_ "hello").
Proof.
  intros H. apply (f_equal ContentDetection.timestamp) in H.
  vm_compute in H. discriminate H.
Qed.

(** C9, as the code has it.  Two invocations on the same message return
    results that agree on every field but [timestamp], which is the time
    of the call; the tool returns a result for every input; and whenever
    its body raises, as it does on a message that is not a string, the
    result is the text default: not visual, "text", confidence 0, no
    entities, and the text of the error. *)
Theorem detection_is_deterministic_up_to_timestamp
  (now1 now2 : string) (message : ContentDetection.py_value) :
  let r1 := ContentDetection.detect_content_intent now1 message in
  let r2 := ContentDetection.detect_content_intent now2 message in
  (ContentDetection.has_visual_content r1 = ContentDetection.has_visual_content r2 /\
   ContentDetection.primary_content_type r1 = ContentDetection.primary_content_type r2 /\
   ContentDetection.confidence r1 = ContentDetection.confidence r2 /\
   ContentDetection.entities r1 = ContentDetection.entities r2 /\
   ContentDetection.all_detections r1 = ContentDetection.all_detections r2 /\
   ContentDetection.message_length r1 = ContentDetection.message_length r2 /\
   ContentDetection.error r1 = ContentDetection.error r2) /\
  ContentDetection.timestamp r1 = now1 /\
  (forall e, ContentDetection.try_detect now1 message = Raise e ->
     ContentDetection.has_visual_content r1 = false /\
     ContentDetection.primary_content_type r1 = "text" /\
     ContentDetection.confidence r1 = 0 /\
     ContentDetection.entities r1 = [] /\
     ContentDetection.error r1 = Some (str e)) /\
  (match message with
   | ContentDetection.PyStr_ _ => exists r, ContentDetection.try_detect now1 message = Return r
   | _ => exists e, ContentDetection.try_detect now1 message = Raise e
   end).
Proof.
  cbn zeta. split; [by destruct message|].
  split; [by destruct message|].
  split.
  - intros e He. unfold ContentDetection.detect_content_intent. by rewrite He.
  - destruct message; cbn [ContentDetection.try_detect]; by eexists.
Qed.

(** ** Rate limiter *)

Section LimiterFacts.
Import RateLimiter.
Local Open Scope Q_scope.

Lemma Qltb_lt (a b : Q) : Qltb a b = true <-> a < b.
Proof.
  unfold Qltb. rewrite Qlt_alt. destruct (a ?= b); split; congruence.
Qed.

Lemma Qltb_Is_true (a b : Q) : Is_true (Qltb a b) <-> a < b.
Proof. rewrite <- Qltb_lt. destruct (Qltb a b); cbn; intuition congruence. Qed.

(** [min] of two readings is one of them. *)
Lemma Qmin_l_eq (x y : Q) : x <= y -> Qmin x y = x.
Proof.
  intros Hle. unfold Qmin, GenericMinMax.gmin.
  destruct (x ?= y) eqn:Hc; try reflexivity.
  apply Qgt_alt in Hc. lra.
Qed.

Lemma fold_Qmin_In (l : list Q) (x : Q) : In (fold_left Qmin l x) (x :: l).
Proof.
  revert x. induction l as [|y l IH]; intros x; cbn [fold_left]; [by left|].
  destruct (IH (Qmin x y)) as [H|H]; [|by right; right].
  rewrite <- H. unfold Qmin, GenericMinMax.gmin.
  destruct (x ?= y); [by left | by left | by right; left].
Qed.

Lemma py_min_In (l : list Q) (o : Q) : py_min l = Some o -> In o l.
Proof.
  destruct l as [|x l]; cbn [py_min]; [discriminate|].
  intros [= <-]. apply fold_Qmin_In.
Qed.

Lemma recent_cons (window : Z) (now t : Q) (l : list Q) :
  recent window now (t :: l)
  = if Qltb (now - t) (inject_Z window)
    then t :: recent window now l else recent window now l.
Proof.
  unfold recent. rewrite filter_cons.
  destruct (Qltb (now - t) (inject_Z window)); by case_decide.
Qed.

Lemma recent_app (window : Z) (now : Q) (l1 l2 : list Q) :
  recent window now (l1 ++ l2) = recent window now l1 ++ recent window now l2.
Proof. apply filter_app. Qed.

Lemma recent_length (window : Z) (now : Q) (l : list Q) :
  (List.length (recent window now l) <= List.length l)%nat.
Proof.
  induction l as [|t l IH]; [done|]. rewrite recent_cons.
  destruct (Qltb _ _); cbn [List.length]; lia.
Qed.

(** As time passes the window holds fewer of the timestamps. *)
Lemma recent_later (window : Z) (now later : Q) (l : list Q) :
  now <= later ->
  (List.length (recent window later l) <= List.length (recent window now l))%nat.
Proof.
  intros Hle. induction l as [|t l IH]; [done|]. rewrite !recent_cons.
  destruct (Qltb (later - t) _) eqn:Hl; destruct (Qltb (now - t) _) eqn:Hn;
    cbn [List.length]; try lia.
  apply Qltb_lt in Hl. apply not_true_iff_false in Hn. rewrite Qltb_lt in Hn.
  exfalso. apply Hn. lra.
Qed.

(** A timestamp that has left the window is not counted. *)
Lemma recent_drops (window : Z) (later o : Q) (l : list Q) :
  In o l -> ~ later - o < inject_Z window ->
  (S (List.length (recent window later l)) <= List.length l)%nat.
Proof.
  intros Hin Hout. induction l as [|t l IH]; [destruct Hin|].
  rewrite recent_cons. destruct Hin as [->|Hin].
  - destruct (Qltb (later - o) _) eqn:Hl; [by apply Qltb_lt in Hl|].
    pose proof (recent_length window later l). cbn [List.length]. lia.
  - specialize (IH Hin). destruct (Qltb _ _); cbn [List.length]; lia.
Qed.

Lemma recent_all (window : Z) (now : Q) (l : list Q) :
  Forall (fun t => now - t < inject_Z window) l -> recent window now l = l.
Proof.
  induction 1 as [|t l Ht _ IH]; [done|]. rewrite recent_cons, IH.
  apply Qltb_lt in Ht. by rewrite Ht.
Qed.

Lemma recent_In (window : Z) (now t : Q) (l : list Q) :
  In t (recent window now l) -> now - t < inject_Z window.
Proof.
  induction l as [|x l IH]; [done|]. rewrite recent_cons.
  destruct (Qltb (now - x) _) eqn:Hx; [|done].
  intros [<-|Hin]; [by apply Qltb_lt | by apply IH].
Qed.

Lemma get_set (l : t) (key k : string) (v : list Q) :
  get (set l key v) k = if decide (key = k) then v else get l k.
Proof.
  unfold get, set. cbn [requests]. rewrite lookup_insert. by case_decide.
Qed.

Lemma in_window_recent (l : t) (e : env) (k : string) :
  in_window l e k = List.length (recent (time_window l) (clock e) (get l k)).
Proof. reflexivity. Qed.

(** What a call of [acquire] does, case by case: it admits the request
    at once, or fails on a limit that admits nothing, or suspends the
    caller until the oldest timestamp of the window has left it. *)
Lemma acquire_cases (key : string) (late : Q) (l : t) (e : env)
  (r : outcome unit) (l' : t) (e' : env) :
  acquire key late l e = (r, l', e') ->
  let now := clock e in
  let kept := recent (time_window l) now (get l key) in
  (Z.of_nat (List.length kept) < max_requests l)%Z /\
    r = Return tt /\ l' = set (purge l key now) key (kept ++ [now]) /\ e' = e
  \/ (max_requests l <= Z.of_nat (List.length kept))%Z /\ kept = [] /\
    (exists err, r = Raise err) /\ l' = purge l key now /\ e' = e
  \/ (max_requests l <= Z.of_nat (List.length kept))%Z /\
    exists oldest, In oldest kept /\ r = Return tt /\
      l' = set (purge l key now) key (kept ++ [now]) /\
      e' = suspend (inject_Z (time_window l) - (now - oldest)) late e.
Proof.
  cbn zeta. unfold acquire.
  assert (Hget : get (purge l key (clock e)) key
                 = recent (time_window l) (clock e) (get l key)).
  { unfold purge. rewrite get_set. by case_decide. }
  rewrite !Hget. change (max_requests (purge l key (clock e))) with (max_requests l).
  change (time_window (purge l key (clock e))) with (time_window l).
  set (kept := recent (time_window l) (clock e) (get l key)).
  destruct (Z.geb_spec (Z.of_nat (List.length kept)) (max_requests l)) as [Hfull|Hroom].
  - destruct (py_min kept) as [oldest|] eqn:Hmin.
    + intros [= <- <- <-]. right; right. split; [done|].
      exists oldest. apply py_min_In in Hmin. split; [done|].
      pose proof (recent_In _ _ _ _ Hmin) as Hrecent.
      assert (Hwait : Qltb 0 (inject_Z (time_window l) - (clock e - oldest)) = true)
        by (apply Qltb_lt; lra).
      by rewrite Hwait.
    + intros [= <- <- <-]. right; left.
      destruct kept; [|discriminate Hmin]. split; [done|]. split; [done|].
      split; [by eexists | done].
  - intros [= <- <- <-]. left. split; [lia | done].
Qed.

(** A call that runs from its entry to its end while no other caller
    runs is the entry followed by the recording. *)
Lemma acquire_enter_resume (key : string) (late : Q) (l : t) (e : env) :
  acquire key late l e
  = match acquire_enter key l (clock e) with
    | (Recorded, l') => (Return tt, l', e)
    | (Sleeping now wait_time, l1) =>
        (Return tt, acquire_resume key now l1, suspend wait_time late e)
    | (Failed err, l1) => (Raise err, l1, e)
    end.
Proof.
  unfold acquire, acquire_enter, acquire_resume.
  destruct (_ >=? _)%Z; [|done].
  destruct (py_min _); [|done].
  by destruct (Qltb _ _).
Qed.

(** The invariant of sequential use: for every key the window holds
    no more timestamps than the limit. *)
Lemma reachable_bound (M W : Z) (l : t) (e : env) :
  reachable M W l e ->
  max_requests l = M /\ time_window l = W /\
  forall k, (Z.of_nat (in_window l e k) <= Z.max 0 M)%Z.
Proof.
  induction 1 as [now | l e d _ (HM & HW & IH) Hd
                 | l e key late r l' e' _ (HM & HW & IH) Hlate Hacq].
  - split; [done|]. split; [done|]. intros k.
    unfold in_window, get, init. cbn [requests]. rewrite lookup_empty. cbn. lia.
  - split; [done|]. split; [done|]. intros k.
    specialize (IH k). rewrite in_window_recent in *.
    pose proof (recent_later (time_window l) (clock e) (clock (elapse d e)) (get l k)) as H.
    cbn [elapse clock] in *. assert (clock e <= clock e + d) by lra.
    specialize (H ltac:(done)). lia.
  - apply acquire_cases in Hacq. cbn zeta in Hacq.
    pose proof (IH key) as Hkey. rewrite in_window_recent in Hkey.
    set (now := clock e) in *. set (kept := recent (time_window l) now (get l key)) in *.
    assert (Hother : forall k later, key <> k -> now <= later ->
              (Z.of_nat (List.length (recent (time_window l) later (get l k)))
               <= Z.max 0 M)%Z).
    { intros k later _ Hle. specialize (IH k). rewrite in_window_recent in IH.
      fold now in IH. pose proof (recent_later (time_window l) now later (get l k) Hle). lia. }
    destruct Hacq as [(Hroom & -> & -> & ->)
                     | [(Hfull & Hnil & _ & -> & ->)
                       | (Hfull & oldest & Hin & -> & -> & ->)]].
    + split; [done|]. split; [done|]. intros k. rewrite in_window_recent.
      cbn [time_window set purge]. rewrite get_set. case_decide as Hk.
      * fold now. rewrite recent_app, length_app.
        pose proof (recent_length (time_window l) now kept).
        pose proof (recent_length (time_window l) now [now]).
        cbn [List.length] in *. lia.
      * unfold purge. rewrite get_set. case_decide; [done|].
        apply Hother; [done | fold now; lra].
    + split; [done|]. split; [done|]. intros k. rewrite in_window_recent.
      cbn [time_window purge set]. unfold purge. rewrite get_set. case_decide as Hk.
      * fold now kept. rewrite Hnil. cbn. lia.
      * apply Hother; [done | fold now; lra].
    + split; [done|]. split; [done|]. intros k. rewrite in_window_recent.
      cbn [time_window set purge suspend clock]. rewrite get_set. case_decide as Hk.
      * fold now. rewrite recent_app, length_app.
        pose proof (recent_In _ _ _ _ Hin) as Hrecent.
        pose proof (recent_drops (time_window l)
                      (now + (inject_Z (time_window l) - (now - oldest)) + late)
                      oldest kept Hin) as Hdrop.
        pose proof (recent_length (time_window l)
                      (now + (inject_Z (time_window l) - (now - oldest)) + late) [now]).
        cbn [List.length] in *.
        assert (~ now + (inject_Z (time_window l) - (now - oldest)) + late - oldest
                  < inject_Z (time_window l)) as Hout by lra.
        specialize (Hdrop Hout). lia.
      * unfold purge. rewrite get_set. case_decide; [done|].
        pose proof (recent_In _ _ _ _ Hin) as Hrecent.
        apply Hother; [done|]. fold now. lra.
Qed.

(** After a call that returns, the window holds at most
    [max_requests] timestamps of any key. *)
Lemma acquire_bound (M W : Z) (l : t) (e : env) (key : string) (late : Q)
  (l' : t) (e' : env) :
  reachable M W l e -> 0 <= late ->
  acquire key late l e = (Return tt, l', e') ->
  forall k, (Z.of_nat (in_window l' e' k) <= M)%Z.
Proof.
  intros Hreach Hlate Hacq k.
  destruct (reachable_bound M W l e Hreach) as (HM & _ & Hbefore).
  destruct (reachable_bound M W l' e' (reach_acquire M W l e key late _ l' e'
                                         Hreach Hlate Hacq)) as (_ & _ & Hafter).
  specialize (Hafter k). specialize (Hbefore key). rewrite in_window_recent in Hbefore.
  apply acquire_cases in Hacq. cbn zeta in Hacq.
  destruct Hacq as [(Hroom & _) | [(_ & _ & (err & Herr) & _)
                                  | (_ & oldest & Hin & _)]].
  - lia.
  - discriminate Herr.
  - destruct (recent _ _ _); [destruct Hin|]. cbn [List.length] in Hbefore. lia.
Qed.

Lemma fold_Qmin_least (ts : list Q) (o : Q) :
  Forall (fun t => o <= t) ts -> fold_left Qmin ts o = o.
Proof.
  induction 1 as [|t ts Ht _ IH]; [done|].
  cbn [fold_left]. by rewrite Qmin_l_eq.
Qed.

(** A call that finds room in the window returns at once. *)
Lemma acquire_admits (key : string) (late : Q) (l : t) (e : env) (ts : list Q) :
  get l key = ts ->
  Forall (fun t => clock e - t < inject_Z (time_window l)) ts ->
  (Z.of_nat (List.length ts) < max_requests l)%Z ->
  exists l',
    acquire key late l e = (Return tt, l', e) /\
    get l' key = ts ++ [clock e] /\
    max_requests l' = max_requests l /\ time_window l' = time_window l.
Proof.
  intros Hget Hall Hroom.
  exists (set (purge l key (clock e)) key (ts ++ [clock e])). unfold acquire.
  assert (Hkept : get (purge l key (clock e)) key = ts).
  { unfold purge. rewrite get_set, Hget, recent_all by done. by case_decide. }
  rewrite !Hkept. change (max_requests (purge l key (clock e))) with (max_requests l).
  destruct (Z.geb_spec (Z.of_nat (List.length ts)) (max_requests l)); [lia|].
  split; [reflexivity|]. rewrite get_set. split; [by case_decide | done].
Qed.

(** A call that finds the window full, its oldest timestamp first,
    suspends the caller until that timestamp has left the window. *)
Lemma acquire_suspends (key : string) (late : Q) (l : t) (e : env)
  (o : Q) (ts : list Q) :
  get l key = o :: ts ->
  Forall (fun t => clock e - t < inject_Z (time_window l)) (o :: ts) ->
  Forall (fun t => o <= t) ts ->
  (max_requests l <= Z.of_nat (List.length (o :: ts)))%Z ->
  exists l',
    acquire key late l e
    = (Return tt, l', suspend (inject_Z (time_window l) - (clock e - o)) late e) /\
    get l' key = (o :: ts) ++ [clock e] /\
    max_requests l' = max_requests l /\ time_window l' = time_window l.
Proof.
  intros Hget Hall Hleast Hfull.
  exists (set (purge l key (clock e)) key ((o :: ts) ++ [clock e])). unfold acquire.
  assert (Hkept : get (purge l key (clock e)) key = o :: ts).
  { unfold purge. rewrite get_set, Hget, recent_all by done. by case_decide. }
  rewrite !Hkept. change (max_requests (purge l key (clock e))) with (max_requests l).
  change (time_window (purge l key (clock e))) with (time_window l).
  destruct (Z.geb_spec (Z.of_nat (List.length (o :: ts))) (max_requests l)); [|lia].
  cbn [py_min]. rewrite fold_Qmin_least by done.
  assert (Hwait : Qltb 0 (inject_Z (time_window l) - (clock e - o)) = true).
  { apply Qltb_lt. inversion Hall; subst. lra. }
  rewrite Hwait. split; [reflexivity|]. rewrite get_set. split; [by case_decide | done].
Qed.

End LimiterFacts.

(** C2. After any call of [acquire] that returns, the window of the key
    is claimed to hold at most [max_requests] timestamps.  With one
    request per sixty seconds and three callers that arrive at the
    seconds 0, 1 and 2, the first is admitted, the second sleeps for 59
    seconds and the third for 58; both wake up at second 60, record
    the readings they took on entry, and return: the window of the key
    then holds two timestamps, twice the limit. *)
Lemma interleaved_callers_exceed_max_requests :
  let l0 := RateLimiter.init 1 60 in
  let '(first, l1) := RateLimiter.acquire_enter "default" l0 0 in
  let '(second, l2) := RateLimiter.acquire_enter "default" l1 1 in
  let '(third, l3) := RateLimiter.acquire_enter "default" l2 2 in
  let l4 := RateLimiter.acquire_resume "default" 1 l3 in
  let l5 := RateLimiter.acquire_resume "default" 2 l4 in
  first = RateLimiter.Recorded /\
  second = RateLimiter.Sleeping 1 59 /\
  third = RateLimiter.Sleeping 2 58 /\
  (1 + 59 == 60)%Q /\ (2 + 58 == 60)%Q /\
  RateLimiter.get l5 "default" = [0; 1; 2]%Q /\
  RateLimiter.in_window l5 (RateLimiter.Env 60 []) "default" = 2%nat /\
  RateLimiter.max_requests l5 = 1.
Proof. vm_compute. repeat split. Qed.

(** C2, as the code has it.  In sequential use, where a call of
    [acquire] begins after the one before it has returned, after every
    call that returns the timestamps retained for any key hold at most
    [max_requests] within the trailing window, and at no time more than
    that.  With
    three requests per sixty seconds, of four calls on one key in less
    than sixty seconds the first three return at once and the fourth is
    suspended for what is left of the sixty seconds since the first,
    resuming when the first timestamp has left the window; the list then
    retains four timestamps, of which at most three lie within the
    window. *)
Theorem rate_window_holds_at_most_max_requests :
  (forall (M W : Z) (l : RateLimiter.t) (e : RateLimiter.env),
     RateLimiter.reachable M W l e ->
     (forall k, Z.of_nat (RateLimiter.in_window l e k) <= Z.max 0 M) /\
     (forall key late l' e',
        (0 <= late)%Q ->
        RateLimiter.acquire key late l e = (Return tt, l', e') ->
        forall k, Z.of_nat (RateLimiter.in_window l' e' k) <= M)) /\
  (forall (key : string) (t0 g1 g2 g3 late : Q),
     (0 <= g1)%Q -> (0 <= g2)%Q -> (0 <= g3)%Q -> (g1 + g2 + g3 < 60)%Q ->
     (0 <= late)%Q ->
     let e0 := RateLimiter.Env t0 [] in
     let '(r1, l1, e1) := RateLimiter.acquire key 0 (RateLimiter.init 3 60) e0 in
     let '(r2, l2, e2) := RateLimiter.acquire key 0 l1 (RateLimiter.elapse g1 e1) in
     let '(r3, l3, e3) := RateLimiter.acquire key 0 l2 (RateLimiter.elapse g2 e2) in
     let '(r4, l4, e4) := RateLimiter.acquire key late l3 (RateLimiter.elapse g3 e3) in
     (r1 = Return tt /\ r2 = Return tt /\ r3 = Return tt /\ r4 = Return tt) /\
     RateLimiter.waits e3 = [] /\
     (exists wait, RateLimiter.waits e4 = [wait] /\
                   (wait == 60 - (g1 + g2 + g3))%Q /\ (0 < wait)%Q) /\
     (RateLimiter.clock e4 == t0 + 60 + late)%Q /\
     ~ (RateLimiter.clock e4 - t0 < 60)%Q /\
     List.length (RateLimiter.get l4 key) = 4%nat /\
     (RateLimiter.in_window l4 e4 key <= 3)%nat).
Proof.
  split.
  - intros M W l e Hreach. split.
    + apply (reachable_bound M W l e Hreach).
    + intros key late l' e' Hlate Hacq. by apply (acquire_bound M W l e key late).
  - intros key t0 g1 g2 g3 late Hg1 Hg2 Hg3 Hsum Hlate. cbn zeta.
    set (e0 := RateLimiter.Env t0 []).
    pose proof (RateLimiter.reach_init 3 60 t0) as R0. fold e0 in R0.
    destruct (acquire_admits key 0 (RateLimiter.init 3 60) e0 [])
      as (l1 & H1 & G1 & M1 & W1); [done | constructor | done |].
    cbn [RateLimiter.init RateLimiter.time_window RateLimiter.max_requests] in M1, W1.
    rewrite H1.
    pose proof (RateLimiter.reach_acquire 3 60 _ _ key 0%Q _ _ _ R0 ltac:(done) H1) as R1.
    apply (RateLimiter.reach_elapse 3 60 _ _ g1) in R1; [|done].
    set (e1 := RateLimiter.elapse g1 e0) in *.
    destruct (acquire_admits key 0 l1 e1 [t0])
      as (l2 & H2 & G2 & M2 & W2); [done | | rewrite M1; done |].
    { rewrite W1. change (inject_Z 60) with 60%Q. repeat constructor. cbn. lra. }
    rewrite M1 in M2. rewrite W1 in W2. rewrite H2.
    pose proof (RateLimiter.reach_acquire 3 60 _ _ key 0%Q _ _ _ R1 ltac:(done) H2) as R2.
    apply (RateLimiter.reach_elapse 3 60 _ _ g2) in R2; [|done].
    set (e2 := RateLimiter.elapse g2 e1) in *.
    destruct (acquire_admits key 0 l2 e2 [t0; (t0 + g1)%Q])
      as (l3 & H3 & G3 & M3 & W3); [done | | rewrite M2; done |].
    { rewrite W2. change (inject_Z 60) with 60%Q. repeat constructor; cbn; lra. }
    rewrite M2 in M3. rewrite W2 in W3. rewrite H3.
    pose proof (RateLimiter.reach_acquire 3 60 _ _ key 0%Q _ _ _ R2 ltac:(done) H3) as R3.
    apply (RateLimiter.reach_elapse 3 60 _ _ g3) in R3; [|done].
    set (e3 := RateLimiter.elapse g3 e2) in *.
    destruct (acquire_suspends key late l3 e3 t0 [(t0 + g1)%Q; (t0 + g1 + g2)%Q])
      as (l4 & H4 & G4 & M4 & W4); [done | | | rewrite M3; done |].
    { rewrite W3. change (inject_Z 60) with 60%Q. repeat constructor; cbn; lra. }
    { repeat constructor; lra. }
    rewrite H4.
    pose proof (acquire_bound 3 60 _ _ key late _ _ R3 Hlate H4 key) as Hbound.
    repeat match goal with |- _ /\ _ => split end; try done; try lia.
    all: try (rewrite W3; change (inject_Z 60) with 60%Q;
              cbn [RateLimiter.suspend RateLimiter.elapse RateLimiter.clock
                     RateLimiter.waits app e3 e2 e1 e0]).
    + eexists. split; [reflexivity|]. split; lra.
    + lra.
    + lra.
    + by rewrite G4.
Qed.

Lemma rate_window_holds_at_most_max_requests_witness :
  (forall k, Z.of_nat (RateLimiter.in_window (RateLimiter.init 3 60)
                         (RateLimiter.Env 1000 []) k) <= Z.max 0 3) /\
  (let '(r1, l1, e1) := RateLimiter.acquire "default" 0 (RateLimiter.init 3 60)
                          (RateLimiter.Env 1000 []) in
   let '(r2, l2, e2) := RateLimiter.acquire "default" 0 l1 (RateLimiter.elapse 1 e1) in
   let '(r3, l3, e3) := RateLimiter.acquire "default" 0 l2 (RateLimiter.elapse 1 e2) in
   let '(r4, l4, e4) := RateLimiter.acquire "default" 0 l3 (RateLimiter.elapse 1 e3) in
   (r1 = Return tt /\ r2 = Return tt /\ r3 = Return tt /\ r4 = Return tt) /\
   RateLimiter.waits e3 = [] /\
   (exists wait, RateLimiter.waits e4 = [wait] /\
                 (wait == 60 - (1 + 1 + 1))%Q /\ (0 < wait)%Q) /\
   (RateLimiter.clock e4 == 1000 + 60 + 0)%Q /\
   ~ (RateLimiter.clock e4 - 1000 < 60)%Q /\
   List.length (RateLimiter.get l4 "default") = 4%nat /\
   (RateLimiter.in_window l4 e4 "default" <= 3)%nat).
Proof.
  split.
  - apply (proj1 rate_window_holds_at_most_max_requests 3 60 _ _
             (RateLimiter.reach_init 3 60 1000%Q)).
  - apply (proj2 rate_window_holds_at_most_max_requests "default" 1000%Q 1%Q 1%Q 1%Q 0%Q);
      lra.
Defined.

(** * Further properties of the code *)

(** ** Text segmentation *)

Section SegmenterFacts.
Import Segmenter.

Lemma py_index_inside (n i : Z) : 0 <= i <= n -> py_index n i = i.
Proof. intros H. unfold py_index. destruct (Z.ltb_spec i 0); lia. Qed.

Lemma slice_inside (l : list ascii) (a b : Z) :
  0 <= a <= b -> b <= len l ->
  slice l a b = firstn (Z.to_nat (b - a)) (skipn (Z.to_nat a) l).
Proof.
  intros Hab Hb. unfold slice. cbn zeta. by rewrite !py_index_inside by lia.
Qed.

Lemma slice_from_inside (l : list ascii) (a : Z) :
  0 <= a <= len l -> slice_from l a = skipn (Z.to_nat a) l.
Proof. intros Ha. unfold slice_from. by rewrite py_index_inside. Qed.

Lemma slice_length (l : list ascii) (a b : Z) :
  0 <= a <= b -> b <= len l ->
  len (firstn (Z.to_nat (b - a)) (skipn (Z.to_nat a) l)) = b - a.
Proof.
  intros Hab Hb. unfold len in *. rewrite length_firstn, length_skipn. lia.
Qed.

Lemma rfind_from_bound (c : ascii) (l : list ascii) (i best : Z) :
  best < i -> rfind_from c l i best < i + len l.
Proof.
  revert i best. induction l as [|x l IH]; intros i best Hbest; cbn [rfind_from].
  - unfold len. cbn. lia.
  - pose proof (IH (i + 1) (if Ascii.eqb x c then i else best)
                  ltac:(destruct (Ascii.eqb x c); lia)) as H.
    unfold len in *. cbn [List.length]. lia.
Qed.

Lemma rfind_bound (c : ascii) (l : list ascii) : rfind c l < len l.
Proof. unfold rfind. pose proof (rfind_from_bound c l 0 (-1)). lia. Qed.

Variable text : list ascii.
Variables (max_chunk_length overlap : Z) (preserve_sentences : bool).


(** Every iteration moves [start] forward: the loop ends within the
    fuel, having added no more chunks than it had characters left. *)
Lemma segment_loop_ends (fuel : nat) (start : Z) (acc : list (list ascii)) :
  (Z.to_nat (len text - start) <= fuel)%nat ->
  exists new,
    segment_loop text max_chunk_length overlap preserve_sentences fuel start acc
    = Some (acc ++ new) /\
    (List.length new <= Z.to_nat (len text - start))%nat.
Proof.
  revert start acc.
  induction fuel as [|fuel IH]; intros start acc Hfuel; cbn [segment_loop].
  - destruct (Z.ltb_spec start (len text)); [lia|].
    exists []. rewrite app_nil_r. split; [done | cbn; lia].
  - destruct (Z.ltb_spec start (len text)) as [Hlt|Hge].
    2:{ exists []. rewrite app_nil_r. split; [done | cbn; lia]. }
    destruct (Z.geb_spec (Z.min (start + max_chunk_length) (len text)) (len text)).
    { eexists [_]. split; [done | cbn; lia]. }
    match goal with
    | |- context [segment_loop _ _ _ _ fuel ?next (acc ++ [?chunk])] =>
        set (new_start := next); set (c := chunk)
    end.
    assert (Hnext : start < new_start).
    { subst new_start.
      match goal with
      | |- context [Z.leb ?a start] => destruct (Z.leb_spec a start); lia
      end. }
    destruct (IH new_start (acc ++ [c]) ltac:(lia)) as (new & Hnew & Hlen).
    exists (c :: new). rewrite Hnew, <- app_assoc. split; [done|].
    cbn [List.length]. lia.
Qed.

Hypothesis limit_positive : 1 <= max_chunk_length.

(** With a positive limit the chunks tile the text. *)
Lemma segment_loop_tiles (fuel : nat) (start : Z) (acc : list (list ascii)) :
  0 <= start < len text ->
  (Z.to_nat (len text - start) <= fuel)%nat ->
  exists new,
    segment_loop text max_chunk_length overlap preserve_sentences fuel start acc
    = Some (acc ++ new) /\
    Tiling.tiles text max_chunk_length overlap start new.
Proof.
  revert start acc.
  induction fuel as [|fuel IH]; intros start acc Hstart Hfuel; [lia|].
  cbn [segment_loop].
  destruct (Z.ltb_spec start (len text)) as [_|?]; [|lia].
  destruct (Z.geb_spec (Z.min (start + max_chunk_length) (len text)) (len text))
    as [Hend|Hend].
  { eexists [_]. split; [done|].
    rewrite slice_from_inside by lia. apply Tiling.tiles_last; lia. }
  rewrite Z.min_l in * by lia.
  set (end0 := start + max_chunk_length) in *.
  destruct (Z.ltb_spec end0 (len text)) as [_|?]; [|lia].
  rewrite andb_true_r.
  set (stop := if preserve_sentences then _ else end0).
  assert (Hstop : start < stop <= end0).
  { subst stop. destruct preserve_sentences; [|lia].
    rewrite slice_inside by lia.
    set (chunk := firstn _ _).
    assert (Hlen : len chunk = end0 - start) by (apply slice_length; lia).
    pose proof (rfind_bound "."%char chunk).
    pose proof (rfind_bound "!"%char chunk).
    pose proof (rfind_bound "?"%char chunk).
    destruct (Z.gtb_spec (Z.max (Z.max (rfind "."%char chunk) (rfind "!"%char chunk))
                            (rfind "?"%char chunk)) 0); lia. }
  rewrite (slice_inside text start stop) by lia.
  match goal with
  | |- context [segment_loop _ _ _ _ fuel ?next _] => set (new_start := next)
  end.
  assert (Hnext : start < new_start <= stop /\ (overlap <= 0 -> new_start = stop)).
  { subst new_start. destruct (Z.gtb_spec overlap 0);
      match goal with
      | |- context [Z.leb ?a start] => destruct (Z.leb_spec a start); lia
      end. }
  destruct (IH new_start
              (acc ++ [firstn (Z.to_nat (stop - start)) (skipn (Z.to_nat start) text)])
              ltac:(lia) ltac:(lia)) as (new & Hnew & Htiles).
  eexists (_ :: new). rewrite Hnew, <- app_assoc. split; [done|].
  apply (Tiling.tiles_next text max_chunk_length overlap start stop new_start);
    [lia | lia | lia | apply Hnext | apply Hnext | done].
Qed.

End SegmenterFacts.

Section TilingFacts.
Import Segmenter.
Variable text : list ascii.
Variables (limit overlap : Z).

Lemma tiles_sizes (start : Z) (cs : list (list ascii)) :
  Tiling.tiles text limit overlap start cs ->
  Forall (fun c => 1 <= len c <= limit) cs.
Proof.
  induction 1 as [start Hstart Hlimit | start stop next rest Hs Hl Hstop Hn Ho _ IH].
  - repeat constructor; unfold len in *; rewrite length_skipn; lia.
  - constructor; [|done].
    unfold len in *. rewrite length_firstn, length_skipn. lia.
Qed.

Lemma tiles_concat (start : Z) (cs : list (list ascii)) :
  overlap <= 0 ->
  Tiling.tiles text limit overlap start cs ->
  concat cs = skipn (Z.to_nat start) text.
Proof.
  intros Hoverlap.
  induction 1 as [start Hstart Hlimit | start stop next rest Hs Hl Hstop Hn Ho _ IH].
  - cbn. by rewrite app_nil_r.
  - cbn [concat]. rewrite IH, (Ho Hoverlap).
    symmetry. etransitivity;
      [symmetry; apply (firstn_skipn (Z.to_nat (stop - start)))|].
    f_equal. rewrite skipn_skipn. f_equal. lia.
Qed.

End TilingFacts.

Lemma append_cons (a : ascii) (s t : string) :
  String a s +:+ t = String a (s +:+ t).
Proof. reflexivity. Qed.

Lemma string_of_list_ascii_append (a b : list ascii) :
  string_of_list_ascii (a ++ b)
  = (string_of_list_ascii a +:+ string_of_list_ascii b).
Proof.
  induction a as [|x a IH]; [done|].
  cbn [app string_of_list_ascii]. by rewrite append_cons, IH.
Qed.

Lemma append_empty (s : string) : s +:+ "" = s.
Proof. induction s as [|a s IH]; [done|]. by rewrite append_cons, IH. Qed.

Lemma concat_strings (cs : list (list ascii)) :
  String.concat "" (map string_of_list_ascii cs) = string_of_list_ascii (concat cs).
Proof.
  induction cs as [|c cs IH]; [done|].
  cbn [map concat]. rewrite string_of_list_ascii_append, <- IH.
  destruct cs as [|c' cs]; [|done].
  cbn [map String.concat]. by rewrite append_empty.
Qed.

Lemma string_of_list_ascii_length (l : list ascii) :
  String.length (string_of_list_ascii l) = List.length l.
Proof. induction l as [|x l IH]; [done|]. cbn. by rewrite IH. Qed.

(** X1. [segment_text] ends on every input, whatever the limit and the
    overlap: the loop moves forward by at least one character in each
    round, so it returns at most as many chunks as the text has
    characters; [total_chunks] is their number and [original_length] the
    length of the text. *)
Theorem segment_text_ends (text : string) (max_chunk_length overlap : Z)
  (preserve_sentences : bool) :
  exists s,
    Segmenter.segment_text text max_chunk_length overlap preserve_sentences = Some s /\
    Segmenter.total_chunks s = Z.of_nat (List.length (Segmenter.chunks s)) /\
    Segmenter.total_chunks s <= Segmenter.original_length s /\
    Segmenter.original_length s = Z.of_nat (String.length text).
Proof.
  unfold Segmenter.segment_text. cbn zeta.
  set (t := list_ascii_of_string text).
  destruct (segment_loop_ends t max_chunk_length overlap preserve_sentences
              (List.length t) 0 []) as (cs & Hcs & Hlen).
  { unfold Segmenter.len. lia. }
  rewrite Hcs. eexists. split; [reflexivity|].
  cbn [Segmenter.total_chunks Segmenter.chunks Segmenter.original_length app].
  rewrite length_map. split; [done|].
  unfold Segmenter.len in *. split; [lia|].
  subst t. rewrite <- (string_of_list_ascii_length (list_ascii_of_string text)).
  by rewrite string_of_list_ascii_of_string.
Qed.

(** X2. With a limit of at least one character no chunk is empty and
    none is longer than the limit. *)
Theorem segment_text_chunk_sizes (text : string) (max_chunk_length overlap : Z)
  (preserve_sentences : bool) :
  1 <= max_chunk_length ->
  exists s,
    Segmenter.segment_text text max_chunk_length overlap preserve_sentences = Some s /\
    Forall (fun chunk => 1 <= Z.of_nat (String.length chunk) <= max_chunk_length)
      (Segmenter.chunks s).
Proof.
  intros Hlimit. unfold Segmenter.segment_text. cbn zeta.
  set (t := list_ascii_of_string text).
  destruct t as [|a t'] eqn:Ht.
  { cbn. eexists. split; [reflexivity|]. constructor. }
  rewrite <- Ht.
  destruct (segment_loop_tiles t max_chunk_length overlap preserve_sentences Hlimit
              (List.length t) 0 []) as (cs & Hcs & Htiles).
  { rewrite Ht. unfold Segmenter.len. cbn [List.length]. lia. }
  { unfold Segmenter.len. lia. }
  rewrite Hcs. eexists. split; [reflexivity|].
  cbn [Segmenter.chunks app]. apply Forall_map.
  eapply Forall_impl; [apply (tiles_sizes _ _ _ _ _ Htiles)|].
  intros c Hc. cbn beta in *. rewrite string_of_list_ascii_length. exact Hc.
Qed.

Lemma segment_text_chunk_sizes_witness :
  exists s,
    Segmenter.segment_text "Hello world. This is a test! And more." 20 5 true = Some s /\
    Forall (fun chunk => 1 <= Z.of_nat (String.length chunk) <= 20) (Segmenter.chunks s).
Proof.
  apply (segment_text_chunk_sizes "Hello world. This is a test! And more." 20 5 true).
  lia.
Defined.

(** X3. Without overlap, and with a limit of at least one character, the
    chunks joined together are the text again, whether or not the cuts
    are moved back to the ends of sentences. *)
Theorem segment_text_join (text : string) (max_chunk_length overlap : Z)
  (preserve_sentences : bool) :
  1 <= max_chunk_length -> overlap <= 0 ->
  exists s,
    Segmenter.segment_text text max_chunk_length overlap preserve_sentences = Some s /\
    String.concat "" (Segmenter.chunks s) = text.
Proof.
  intros Hlimit Hoverlap. unfold Segmenter.segment_text. cbn zeta.
  set (t := list_ascii_of_string text).
  assert (Htext : string_of_list_ascii t = text) by apply string_of_list_ascii_of_string.
  destruct t as [|a t'] eqn:Ht.
  { cbn. eexists. split; [reflexivity|]. by rewrite <- Htext. }
  rewrite <- Ht in *.
  destruct (segment_loop_tiles t max_chunk_length overlap preserve_sentences Hlimit
              (List.length t) 0 []) as (cs & Hcs & Htiles).
  { rewrite Ht. unfold Segmenter.len. cbn [List.length]. lia. }
  { unfold Segmenter.len. lia. }
  rewrite Hcs. eexists. split; [reflexivity|].
  cbn [Segmenter.chunks app].
  by rewrite concat_strings, (tiles_concat _ _ _ _ _ Hoverlap Htiles).
Qed.

Lemma segment_text_join_witness :
  exists s,
    Segmenter.segment_text "Hello world. This is a test! And more." 20 0 true = Some s /\
    String.concat "" (Segmenter.chunks s) = "Hello world. This is a test! And more.".
Proof.
  apply (segment_text_join "Hello world. This is a test! And more." 20 0 true); lia.
Defined.

(** X4. With a limit of at least one character the chunks of a text
    that is not empty tile it, whatever the overlap: each chunk is a
    window of the text that starts after the one before it starts and no
    later than that one ends, and the last chunk reaches the end of the
    text, so that no character is left out. *)
Theorem segment_text_tiles (text : string) (max_chunk_length overlap : Z)
  (preserve_sentences : bool) :
  1 <= max_chunk_length -> text <> "" ->
  exists s windows,
    Segmenter.segment_text text max_chunk_length overlap preserve_sentences = Some s /\
    Segmenter.chunks s = map string_of_list_ascii windows /\
    Tiling.tiles (list_ascii_of_string text) max_chunk_length overlap 0 windows.
Proof.
  intros Hlimit Htext. unfold Segmenter.segment_text. cbn zeta.
  set (t := list_ascii_of_string text).
  assert (Ht : (0 < List.length t)%nat).
  { destruct text; [done|]. subst t. cbn. lia. }
  destruct (segment_loop_tiles t max_chunk_length overlap preserve_sentences Hlimit
              (List.length t) 0 []) as (cs & Hcs & Htiles).
  { unfold Segmenter.len. lia. }
  { unfold Segmenter.len. lia. }
  rewrite Hcs. eexists _, cs. split; [reflexivity|]. by split.
Qed.

Lemma segment_text_tiles_witness :
  exists s windows,
    Segmenter.segment_text "Hello world. This is a test! And more." 20 5 true = Some s /\
    Segmenter.chunks s = map string_of_list_ascii windows /\
    Tiling.tiles (list_ascii_of_string "Hello world. This is a test! And more.")
      20 5 0 windows.
Proof.
  apply (segment_text_tiles "Hello world. This is a test! And more." 20 5 true).
  - lia.
  - discriminate.
Defined.

Lemma segment_loop_zero_limit (text : list ascii) (overlap : Z)
  (preserve_sentences : bool) (fuel : nat) (start : Z) (acc : list (list ascii)) :
  0 <= start <= Segmenter.len text ->
  (Z.to_nat (Segmenter.len text - start) <= fuel)%nat ->
  Segmenter.segment_loop text 0 overlap preserve_sentences fuel start acc
  = Some (acc ++ repeat [] (Z.to_nat (Segmenter.len text - start))).
Proof.
  revert start acc. induction fuel as [|fuel IH]; intros start acc Hstart Hfuel;
    cbn [Segmenter.segment_loop].
  - destruct (Z.ltb_spec start (Segmenter.len text)); [lia|].
    replace (Z.to_nat (Segmenter.len text - start)) with 0%nat by lia.
    cbn. by rewrite app_nil_r.
  - destruct (Z.ltb_spec start (Segmenter.len text)) as [Hlt|Hge].
    2:{ replace (Z.to_nat (Segmenter.len text - start)) with 0%nat by lia.
        cbn. by rewrite app_nil_r. }
    rewrite Z.add_0_r, Z.min_l by lia.
    destruct (Z.geb_spec start (Segmenter.len text)); [lia|].
    destruct (Z.ltb_spec start (Segmenter.len text)); [|lia].
    rewrite andb_true_r.
    assert (Hempty : Segmenter.slice text start start = []).
    { rewrite slice_inside by lia. by rewrite Z.sub_diag. }
    rewrite Hempty. cbn [Segmenter.rfind Segmenter.rfind_from].
    change (Z.max (Z.max (-1) (-1)) (-1) >? 0) with false. cbv iota.
    assert (Hsame : (if preserve_sentences then start else start) = start)
      by (by destruct preserve_sentences).
    rewrite !Hsame, Hempty.
    assert (Hnext : (if (if overlap >? 0 then Z.max (start - overlap) (start + 1)
                         else start) <=? start
                     then start + 1
                     else if overlap >? 0 then Z.max (start - overlap) (start + 1)
                          else start) = start + 1).
    { destruct (Z.gtb_spec overlap 0).
      - rewrite Z.max_r by lia. destruct (Z.leb_spec (start + 1) start); lia.
      - destruct (Z.leb_spec start start); lia. }
    rewrite Hnext, IH by lia.
    rewrite <- app_assoc. do 2 f_equal.
    replace (Z.to_nat (Segmenter.len text - start))
      with (S (Z.to_nat (Segmenter.len text - (start + 1)))) by lia.
    reflexivity.
Qed.

(** X5. With a limit of zero [segment_text] returns one empty chunk for
    every character of the text. *)
Theorem segment_text_zero_limit (text : string) (overlap : Z) (preserve_sentences : bool) :
  Segmenter.segment_text text 0 overlap preserve_sentences
  = Some {| Segmenter.chunks := repeat "" (String.length text);
            Segmenter.total_chunks := Z.of_nat (String.length text);
            Segmenter.original_length := Z.of_nat (String.length text);
            Segmenter.method := "local_segmentation" |}.
Proof.
  unfold Segmenter.segment_text. cbn zeta.
  set (t := list_ascii_of_string text).
  assert (Hlen : List.length t = String.length text).
  { subst t. rewrite <- (string_of_list_ascii_length (list_ascii_of_string text)).
    by rewrite string_of_list_ascii_of_string. }
  rewrite segment_loop_zero_limit by (unfold Segmenter.len; lia).
  cbn [app]. unfold Segmenter.len. rewrite Z.sub_0_r, Nat2Z.id, Hlen.
  f_equal. f_equal.
  - clear. induction (String.length text) as [|n IH]; [done|]. cbn. by rewrite IH.
  - by rewrite repeat_length.
Qed.

(** ** More on the retry executors *)

Section RetryMore.
Context {A : Type}.
Variable answers : nat -> outcome A.
Variables (max_retries : Z) (base_delay max_delay backoff_factor : Q).

(** The attempt that ends the retries of [retry_with_backoff]: one that
    returns, or one that raises a [NonRetryableError]. *)
Lemma routes_loop_decided (k a extra : nat) (last : option exc) (w : world) :
  Z.of_nat (a + k) <= max_retries ->
  (forall i, (i < k)%nat ->
     exists e, answers (calls w + i) = Raise e /\ isinstance e NonRetryableError = false) ->
  match answers (calls w + k) with
  | Return _ => True
  | Raise e => isinstance e NonRetryableError = true
  end ->
  Routes.retry_loop (call answers) max_retries base_delay max_delay backoff_factor
    (map Z.of_nat (seq a (S (k + extra)))) last w
  = (answers (calls w + k)%nat,
     World (calls w + S k)
       (slept w ++ map (fun i => backoff_delay base_delay max_delay backoff_factor
                                   (Z.of_nat i)) (seq a k))).
Proof.
  revert a last w. induction k as [|k IH]; intros a last w Hmax Hfail Hend.
  - change (seq a (S (0 + extra))) with (a :: seq (S a) extra). rewrite map_cons.
    cbn [Routes.retry_loop call]. rewrite Nat.add_0_r in *.
    cbn [seq map]. rewrite app_nil_r, Nat.add_1_r.
    destruct (answers (calls w)) as [v|e]; [done|]. by rewrite Hend.
  - change (seq a (S (S k + extra))) with (a :: seq (S a) (S (k + extra))).
    rewrite map_cons. cbn [Routes.retry_loop call].
    destruct (Hfail 0%nat ltac:(lia)) as (e & He & Hclass).
    rewrite Nat.add_0_r in He. rewrite He, Hclass.
    destruct (Z.eqb_spec (Z.of_nat a) max_retries) as [?|_]; [lia|].
    rewrite (IH (S a)); cbn [sleep calls slept].
    + replace (S (calls w) + k)%nat with (calls w + S k)%nat by lia.
      f_equal. f_equal; [lia|].
      change (seq a (S k)) with (a :: seq (S a) k). cbn [map].
      by rewrite <- app_assoc.
    + lia.
    + intros i Hi. destruct (Hfail (S i) ltac:(lia)) as (e' & He' & Hc').
      exists e'. split; [|done]. rewrite <- He'. f_equal. lia.
    + replace (S (calls w) + k)%nat with (calls w + S k)%nat by lia. exact Hend.
Qed.

Variables (name : string) (retry_delay : Q).

(** The attempt that ends the retries of [_execute_with_retry]: one that
    returns. *)
Lemma agent_loop_returns (k a fuel : nat) (w : world) (v : A) :
  (k < fuel)%nat ->
  Z.of_nat (a + k) <= max_retries ->
  (forall i, (i < k)%nat -> exists e, answers (calls w + i) = Raise e) ->
  answers (calls w + k) = Return v ->
  Agent.while_loop (call answers) name max_retries retry_delay fuel (Z.of_nat a) w
  = (Agent.Returned v (Agent._create_tool_metadata name true (Z.of_nat (a + k))),
     World (calls w + S k)
       (slept w ++ map (fun i => (retry_delay * inject_Z (Z.of_nat i))%Q)
                       (seq (S a) k))).
Proof.
  revert a fuel w. induction k as [|k IH]; intros a fuel w Hfuel Hmax Hfail Hend;
    (destruct fuel as [|fuel]; [lia|]); cbn [Agent.while_loop call].
  - destruct (Z.leb_spec (Z.of_nat a) max_retries); [|lia].
    rewrite Nat.add_0_r in *. rewrite Hend. cbn [seq map].
    by rewrite app_nil_r, Nat.add_1_r.
  - destruct (Z.leb_spec (Z.of_nat a) max_retries); [|lia].
    destruct (Hfail 0%nat ltac:(lia)) as (e & He).
    rewrite Nat.add_0_r in He. rewrite He.
    destruct (Z.leb_spec (Z.of_nat a + 1) max_retries); [|lia].
    replace (Z.of_nat a + 1) with (Z.of_nat (S a)) by lia.
    rewrite (IH (S a)); cbn [sleep calls slept].
    + replace (S a + k)%nat with (a + S k)%nat by lia.
      f_equal. f_equal; [lia|].
      change (seq (S a) (S k)) with (S a :: seq (S (S a)) k). cbn [map].
      by rewrite <- app_assoc.
    + lia.
    + lia.
    + intros i Hi. destruct (Hfail (S i) ltac:(lia)) as (e' & He').
      exists e'. rewrite <- He'. f_equal. lia.
    + rewrite <- Hend. f_equal. lia.
Qed.

End RetryMore.

(** X6. [retry_with_backoff] stops at the first attempt that returns or
    raises a [NonRetryableError]: after [k] failures of other classes,
    with [k] at most [max_retries], it gives back what the attempt
    numbered [k] gave, result or error as it is, having slept the first
    [k] delays and made no further attempt.  For [k = 0]: an operation
    that raises [NonRetryableError] at once is called once and nothing
    is slept. *)
Theorem retry_with_backoff_stops_at_decision {A} (answers : nat -> outcome A)
  (max_retries : Z) (base_delay max_delay backoff_factor : Q) (k : nat) (w : world) :
  Z.of_nat k <= max_retries ->
  (forall i, (i < k)%nat ->
     exists e, answers (calls w + i)%nat = Raise e /\
               isinstance e NonRetryableError = false) ->
  match answers (calls w + k)%nat with
  | Return _ => True
  | Raise e => isinstance e NonRetryableError = true
  end ->
  Routes.retry_with_backoff (call answers) max_retries base_delay max_delay
    backoff_factor w
  = (answers (calls w + k)%nat,
     World (calls w + S k)
       (slept w ++ map (backoff_delay base_delay max_delay backoff_factor)
                       (py_range (Z.of_nat k)))).
Proof.
  intros Hk Hfail Hend. unfold Routes.retry_with_backoff.
  rewrite py_range_S by lia.
  replace (S (Z.to_nat max_retries)) with (S (k + (Z.to_nat max_retries - k))) by lia.
  rewrite (routes_loop_decided answers max_retries base_delay max_delay backoff_factor
             k 0 _ None w) by (done || (cbn [Nat.add]; lia)).
  unfold py_range. by rewrite Nat2Z.id, map_map.
Qed.

Lemma retry_with_backoff_stops_at_decision_witness :
  Routes.retry_with_backoff (A:=string)
    (call (fun n => match n with
                    | 0%nat => Raise (Exc Exception_ "timeout")
                    | 1%nat => Raise (Exc ConnectionError "reset")
                    | _ => Raise (Exc NonRetryableError "bad request")
                    end)) 3 1 60 2 world0
  = (Raise (Exc NonRetryableError "bad request"), World 3 [1; 2]%Q).
Proof.
  apply (retry_with_backoff_stops_at_decision (A:=string)
           (fun n => match n with
                     | 0%nat => Raise (Exc Exception_ "timeout")
                     | 1%nat => Raise (Exc ConnectionError "reset")
                     | _ => Raise (Exc NonRetryableError "bad request")
                     end) 3 1 60 2 2 world0).
  - lia.
  - intros [|[|i]] Hi; [by eexists | by eexists | lia].
  - reflexivity.
Defined.

(** X7. Whatever the operation answers, [retry_with_backoff] calls it at
    most [max_retries + 1] times, sleeps once between two calls, and
    never sleeps longer than [max_delay] at a time. *)
Theorem retry_with_backoff_is_bounded {A} (answers : nat -> outcome A)
  (max_retries : Z) (base_delay max_delay backoff_factor : Q) (w : world) :
  0 <= max_retries ->
  let w' := snd (Routes.retry_with_backoff (call answers)
                   max_retries base_delay max_delay backoff_factor w) in
  exists delays,
    slept w' = slept w ++ delays /\
    calls w' = (calls w + List.length delays + 1)%nat /\
    Z.of_nat (List.length delays) <= max_retries /\
    Forall (fun d => (d <= max_delay)%Q) delays.
Proof.
  intros Hmax. cbn zeta.
  destruct (retry_with_backoff_delays answers max_retries base_delay max_delay
              backoff_factor w Hmax) as (retries & Hr & Hcalls & Hslept).
  eexists. split; [exact Hslept|].
  rewrite length_map. unfold py_range. rewrite length_map, length_seq.
  split; [lia|]. split; [lia|].
  apply Forall_map, Forall_forall. intros attempt _.
  unfold backoff_delay. apply Q.le_min_r.
Qed.

Lemma retry_with_backoff_is_bounded_witness :
  let w' := snd (Routes.retry_with_backoff (A:=unit)
                   (call (fun _ => Raise (Exc Exception_ "boom"))) 8 1 60 2 world0) in
  exists delays,
    slept w' = slept world0 ++ delays /\
    calls w' = (calls world0 + List.length delays + 1)%nat /\
    Z.of_nat (List.length delays) <= 8 /\
    Forall (fun d => (d <= 60)%Q) delays.
Proof.
  apply (retry_with_backoff_is_bounded (A:=unit)
           (fun _ => Raise (Exc Exception_ "boom")) 8 1 60 2 world0).
  lia.
Defined.

Lemma isinstance_class (e : exc) (cls : exc_class) :
  cls <> Exception_ -> isinstance e cls = true -> exc_type e = cls.
Proof.
  destruct e as [c msg]. destruct cls, c; cbn; congruence.
Qed.

(** X8. Whatever the operation does, an error that leaves
    [retry_jina_request] is a [JinaNonRetryableError]: the error the
    operation raised when it is one, and a new one holding the text of
    the last error otherwise. *)
Theorem retry_jina_request_raises_non_retryable {A} (func : op A) (max_retries : Z)
  (base_delay max_delay backoff_factor : Q) (w : world) (e : exc) :
  fst (Jina.retry_jina_request func max_retries base_delay max_delay backoff_factor w)
  = Raise e ->
  exc_type e = JinaNonRetryableError.
Proof.
  unfold Jina.retry_jina_request.
  generalize (py_range (max_retries + 1)) (@None exc).
  intros attempts. revert w.
  induction attempts as [|attempt rest IH]; intros w last; cbn [Jina.retry_loop].
  - by intros [= <-].
  - destruct (func w) as [[v|e1] w1]; [discriminate|].
    destruct (isinstance e1 JinaNonRetryableError) eqn:Hclass.
    { intros [= <-]. by apply isinstance_class. }
    destruct (PyStr.any_in _ _); [destruct (attempt <? max_retries)|].
    + apply IH.
    + by intros [= <-].
    + by intros [= <-].
Qed.

Lemma retry_jina_request_raises_non_retryable_witness :
  exc_type (Jina.request_failed (Exc TimeoutError "Request timeout"))
  = JinaNonRetryableError.
Proof.
  apply (retry_jina_request_raises_non_retryable (A:=unit)
           (call (fun _ => Raise (Exc TimeoutError "Request timeout"))) 3 1 30 2 world0).
  vm_compute. reflexivity.
Defined.

(** X9. With a negative [max_retries] none of the three executors calls
    the operation: [retry_with_backoff] raises the [TypeError] of
    raising [None], [retry_jina_request] raises "Max retries exceeded:
    None", and [_execute_with_retry] returns [None]. *)
Theorem negative_max_retries {A} (func : op A) (name : string) (max_retries : Z)
  (base_delay max_delay backoff_factor retry_delay : Q) (w : world) :
  max_retries < 0 ->
  Routes.retry_with_backoff func max_retries base_delay max_delay backoff_factor w
  = (Raise (Exc TypeError "exceptions must derive from BaseException"), w) /\
  Jina.retry_jina_request func max_retries base_delay max_delay backoff_factor w
  = (Raise (Exc JinaNonRetryableError "Max retries exceeded: None"), w) /\
  Agent._execute_with_retry func name max_retries retry_delay w
  = (Agent.ReturnedNone, w).
Proof.
  intros Hneg.
  unfold Routes.retry_with_backoff, Jina.retry_jina_request, Agent._execute_with_retry,
    py_range.
  replace (Z.to_nat (max_retries + 1)) with 0%nat by lia.
  cbn [seq map Routes.retry_loop Jina.retry_loop Agent.while_loop].
  destruct (Z.leb_spec 0 max_retries); [lia|]. done.
Qed.

Lemma negative_max_retries_witness :
  let func : op unit := call (fun _ => Return tt) in
  Routes.retry_with_backoff func (-1) 1 60 2 world0
  = (Raise (Exc TypeError "exceptions must derive from BaseException"), world0) /\
  Jina.retry_jina_request func (-1) 1 60 2 world0
  = (Raise (Exc JinaNonRetryableError "Max retries exceeded: None"), world0) /\
  Agent._execute_with_retry func "tool" (-1) 1 world0 = (Agent.ReturnedNone, world0).
Proof.
  apply (negative_max_retries (A:=unit) (call (fun _ => Return tt)) "tool" (-1)
           1 60 2 1 world0).
  lia.
Defined.

(** X10. [_execute_with_retry] retries every exception, whatever its
    class: when the operation fails [k] times, [k] at most
    [max_retries], and then returns, the executor returns that result
    with metadata holding [success = True] and [retry_count = k], having
    slept [retry_delay], twice [retry_delay], and so on up to [k] times
    [retry_delay]. *)
Theorem execute_with_retry_recovers {A} (answers : nat -> outcome A) (name : string)
  (max_retries : Z) (retry_delay : Q) (k : nat) (v : A) (w : world) :
  Z.of_nat k <= max_retries ->
  (forall i, (i < k)%nat -> exists e, answers (calls w + i)%nat = Raise e) ->
  answers (calls w + k)%nat = Return v ->
  Agent._execute_with_retry (call answers) name max_retries retry_delay w
  = (Agent.Returned v
       {| Agent.tool_name := name; Agent.success := true;
          Agent.retry_count := Z.of_nat k; Agent.source := "orchestrator" |},
     World (calls w + S k)
       (slept w ++ map (fun n => (retry_delay * inject_Z n)%Q)
                       (map (Z.add 1) (py_range (Z.of_nat k))))).
Proof.
  intros Hk Hfail Hend. unfold Agent._execute_with_retry.
  pose proof (agent_loop_returns answers max_retries name retry_delay k 0
                (Z.to_nat (max_retries + 1)) w v) as H.
  cbn [Nat.add] in H. change (Z.of_nat 0) with 0 in H.
  rewrite H by (done || lia). do 3 f_equal.
  unfold py_range. rewrite Nat2Z.id, !map_map, <- seq_shift, map_map.
  apply map_ext. intros i. do 2 f_equal. lia.
Qed.

Lemma execute_with_retry_recovers_witness :
  Agent._execute_with_retry
    (call (fun n => match n with
                    | 0%nat => Raise (Exc NonRetryableError "bad request")
                    | 1%nat => Raise (Exc TimeoutError "timeout")
                    | _ => Return "found"
                    end)) "deep_research" 2 1 world0
  = (Agent.Returned "found"
       {| Agent.tool_name := "deep_research"; Agent.success := true;
          Agent.retry_count := 2; Agent.source := "orchestrator" |},
     World 3 [1; 2]%Q).
Proof.
  apply (execute_with_retry_recovers
           (fun n => match n with
                     | 0%nat => Raise (Exc NonRetryableError "bad request")
                     | 1%nat => Raise (Exc TimeoutError "timeout")
                     | _ => Return "found"
                     end) "deep_research" 2 1 2 "found" world0).
  - lia.
  - intros [|[|i]] Hi; [by eexists | by eexists | lia].
  - reflexivity.
Defined.

(** ** The requests of the Jina service *)

Lemma jina_loop_ext {A} (f g : op A) (max_retries : Z)
  (base_delay max_delay backoff_factor : Q) (attempts : list Z) last w :
  (forall w, f w = g w) ->
  Jina.retry_loop f max_retries base_delay max_delay backoff_factor attempts last w
  = Jina.retry_loop g max_retries base_delay max_delay backoff_factor attempts last w.
Proof.
  intros Hfg. revert last w. induction attempts as [|attempt rest IH]; intros last w.
  - reflexivity.
  - cbn [Jina.retry_loop]. rewrite Hfg.
    destruct (g w) as [[v|e] w1]; [done|].
    destruct (isinstance e JinaNonRetryableError); [done|].
    destruct (PyStr.any_in _ _); [|done].
    destruct (attempt <? max_retries); [|done]. apply IH.
Qed.

(** With GET or POST, [_make_request] is one call of the client, handled. *)
Lemma make_request_is_call (method : string) (client : nat -> JinaService.http_result)
  (w : world) :
  JinaService.upper method = "GET" \/ JinaService.upper method = "POST" ->
  JinaService._make_request method client w
  = call (fun n => JinaService.handle (client n)) w.
Proof.
  intros Hm. unfold JinaService._make_request, call.
  by destruct Hm as [-> | ->].
Qed.

Lemma make_request_unsupported (method : string) (client : nat -> JinaService.http_result)
  (w : world) :
  JinaService.upper method <> "GET" -> JinaService.upper method <> "POST" ->
  JinaService._make_request method client w
  = (Raise (JinaService.service_error
              (Exc JinaNonRetryableError ("Unsupported HTTP method: " +:+ method))), w).
Proof.
  intros Hget Hpost. unfold JinaService._make_request.
  apply String.eqb_neq in Hget, Hpost. by rewrite Hget, Hpost.
Qed.

Lemma jina_loop_delays {A} (answers : nat -> outcome A)
  (base_delay max_delay backoff_factor : Q) (k a : nat) (last : option exc) (w : world) :
  let w' := snd (Jina.retry_loop (call answers) (Z.of_nat (a + k))
                   base_delay max_delay backoff_factor
                   (map Z.of_nat (seq a (S k))) last w) in
  exists j, (j <= k)%nat /\
    calls w' = (calls w + S j)%nat /\
    slept w' = slept w ++ map (fun i => backoff_delay base_delay max_delay backoff_factor
                                           (Z.of_nat i)) (seq a j).
Proof.
  revert a last w. induction k as [|k IH]; intros a last w.
  - exists 0%nat. cbn [seq map Jina.retry_loop call].
    rewrite Nat.add_0_r, Z.ltb_irrefl.
    destruct (answers (calls w)) as [v|e]; cbn [snd calls slept].
    + split; [lia|]. split; [lia|]. by rewrite app_nil_r.
    + destruct (isinstance e JinaNonRetryableError); [|destruct (PyStr.any_in _ _)];
        cbn [snd calls slept]; (split; [lia|]; split; [lia|]; by rewrite app_nil_r).
  - change (seq a (S (S k))) with (a :: seq (S a) (S k)). rewrite map_cons.
    cbn [Jina.retry_loop call].
    destruct (answers (calls w)) as [v|e].
    + exists 0%nat. cbn [snd calls slept seq map].
      split; [lia|]. split; [lia|]. by rewrite app_nil_r.
    + destruct (isinstance e JinaNonRetryableError);
        [|destruct (PyStr.any_in _ _)].
      * exists 0%nat. cbn [snd calls slept seq map].
        split; [lia|]. split; [lia|]. by rewrite app_nil_r.
      * destruct (Z.ltb_spec (Z.of_nat a) (Z.of_nat (a + S k))) as [_|?]; [|lia].
        replace (a + S k)%nat with (S a + k)%nat by lia.
        destruct (IH (S a) (Some e)
                    (sleep (backoff_delay base_delay max_delay backoff_factor (Z.of_nat a))
                       (World (S (calls w)) (slept w)))) as (j & Hj & Hc & Hs).
        exists (S j). cbn zeta in Hc, Hs. rewrite Hc, Hs. cbn [sleep calls slept].
        split; [lia|]. split; [lia|].
        change (seq a (S j)) with (a :: seq (S a) j). cbn [map].
        by rewrite <- app_assoc.
      * exists 0%nat. cbn [snd calls slept seq map].
        split; [lia|]. split; [lia|]. by rewrite app_nil_r.
Qed.

(** A limiter that admits at least one request per window never makes
    [acquire] fail. *)
Lemma acquire_returns (key : string) (late : Q) (l : RateLimiter.t) (e : RateLimiter.env) :
  1 <= RateLimiter.max_requests l ->
  exists e',
    RateLimiter.acquire key late l e
    = (Return tt,
       RateLimiter.set (RateLimiter.purge l key (RateLimiter.clock e)) key
         (RateLimiter.recent (RateLimiter.time_window l) (RateLimiter.clock e)
            (RateLimiter.get l key) ++ [RateLimiter.clock e]),
       e').
Proof.
  intros Hmax.
  destruct (RateLimiter.acquire key late l e) as [[r l'] e'] eqn:Hacq.
  exists e'. apply acquire_cases in Hacq. cbn zeta in Hacq.
  destruct Hacq as [(_ & -> & -> & _) | [(Hfull & Hnil & _) | (_ & o & _ & -> & -> & _)]];
    [done | | done].
  rewrite Hnil in Hfull. cbn [List.length] in Hfull. lia.
Qed.

(** The text of a transient failure, as [_make_request] words it, holds
    one of the keywords [retry_jina_request] looks for. *)
Lemma transient_status_keyword (status_code : Z) (error_text : string) :
  JinaService.in_list status_code [429; 502; 503; 504] = true ->
  PyStr.any_in Jina.retry_keywords
    (PyStr.lower (str (JinaService.http_error JinaRetryableError status_code error_text)))
  = true.
Proof.
  unfold JinaService.in_list. cbn [existsb]. rewrite !orb_true_iff.
  intros [H|[H|[H|[H|H]]]]; try discriminate; apply Z.eqb_eq in H; subst status_code;
    unfold PyStr.any_in; apply existsb_exists.
  - exists "429". split; [cbn; tauto | vm_compute; reflexivity].
  - exists "502". split; [cbn; tauto | vm_compute; reflexivity].
  - exists "503". split; [cbn; tauto | vm_compute; reflexivity].
  - exists "504". split; [cbn; tauto | vm_compute; reflexivity].
Qed.

Section JinaRequests.
Variable client : nat -> JinaService.http_result.
Variable method : string.
Variable late : Q.
Variable st : JinaService.state.


Lemma make_request_with_retry_admitted :
  1 <= RateLimiter.max_requests (JinaService.rate_limiter st) ->
  exists l' e',
    RateLimiter.acquire "default" late (JinaService.rate_limiter st)
      (JinaService.limiter_env st) = (Return tt, l', e') /\
    RateLimiter.get l' "default"
    = RateLimiter.recent (RateLimiter.time_window (JinaService.rate_limiter st))
        (RateLimiter.clock (JinaService.limiter_env st))
        (RateLimiter.get (JinaService.rate_limiter st) "default")
      ++ [RateLimiter.clock (JinaService.limiter_env st)] /\
    (JinaService._make_request_with_retry method client late st)
    = (fst (Jina.retry_jina_request (JinaService._make_request method client)
              3 1 30 2 (JinaService.retry_world st)),
       JinaService.State l' e'
         (snd (Jina.retry_jina_request (JinaService._make_request method client)
                 3 1 30 2 (JinaService.retry_world st)))).
Proof.
  intros Hmax.
  destruct (acquire_returns "default" late _ (JinaService.limiter_env st) Hmax)
    as (e' & Hacq).
  eexists _, e'. split; [exact Hacq|]. split.
  - rewrite get_set. by case_decide.
  - unfold JinaService._make_request_with_retry. rewrite Hacq.
    by destruct (Jina.retry_jina_request _ _ _ _ _ _).
Qed.

(** X11. A request whose every attempt meets a timeout, a failure to
    connect, or one of the statuses 429, 502, 503 and 504 is attempted
    four times, one, two and four seconds apart, and then fails with a
    [JinaNonRetryableError] that holds the text of the last failure. *)
Theorem transient_failures_are_retried :
  1 <= RateLimiter.max_requests (JinaService.rate_limiter st) ->
  JinaService.upper method = "GET" \/ JinaService.upper method = "POST" ->
  (forall n, client n = JinaService.HttpTimeout \/
             client n = JinaService.HttpConnectError \/
             exists status_code error_text,
               client n = JinaService.HttpStatusError status_code error_text /\
               In status_code [429; 502; 503; 504]) ->
  exists last,
    JinaService.handle (client (calls (JinaService.retry_world st) + 3)%nat) = Raise last /\
    fst (JinaService._make_request_with_retry method client late st)
    = Raise (Jina.request_failed last) /\
    JinaService.retry_world (snd (JinaService._make_request_with_retry
         method client late st))
    = World (calls (JinaService.retry_world st) + 4)
        (slept (JinaService.retry_world st) ++ [1; 2; 4]%Q).
Proof.
  intros Hmax Hmethod Hclient.
  destruct (make_request_with_retry_admitted Hmax) as (l' & e' & _ & _ & ->).
  cbn [fst snd JinaService.retry_world].
  assert (Herr : forall n, exists e,
             JinaService.handle (client n) = Raise e /\
             isinstance e JinaNonRetryableError = false /\
             PyStr.any_in Jina.retry_keywords (PyStr.lower (str e)) = true).
  { intros n. destruct (Hclient n) as [-> | [-> | (code & text & -> & Hcode)]].
    - eexists. split; [reflexivity|]. split; vm_compute; reflexivity.
    - eexists. split; [reflexivity|]. split; vm_compute; reflexivity.
    - assert (Hin : JinaService.in_list code [429; 502; 503; 504] = true).
      { unfold JinaService.in_list. apply existsb_exists. exists code.
        split; [done | apply Z.eqb_refl]. }
      cbn [JinaService.handle]. rewrite Hin. eexists. split; [reflexivity|].
      split; [reflexivity | by apply transient_status_keyword]. }
  set (errs := fun n => match JinaService.handle (client n) with
                        | Raise e => e
                        | Return _ => Exc Exception_ ""
                        end).
  assert (Hcall : forall w0, JinaService._make_request method client w0
                             = call (fun n => Raise (errs n)) w0).
  { intros w0. rewrite make_request_is_call by done. unfold call, errs.
    by destruct (Herr (calls w0)) as (e & -> & _). }
  unfold Jina.retry_jina_request.
  rewrite (jina_loop_ext _ _ _ _ _ _ _ _ _ Hcall).
  pose proof (retry_jina_request_exhausts (A:=JinaService.payload) errs 3 1 30 2
                (JinaService.retry_world st)) as H.
  unfold Jina.retry_jina_request in H. rewrite H.
  - destruct (Herr (calls (JinaService.retry_world st) + 3)%nat) as (e & He & _).
    exists e. split; [done|]. cbn [fst snd]. unfold errs.
    change (Z.to_nat 3) with 3%nat. rewrite He. split; [done|].
    try (f_equal; lia).
  - lia.
  - intros n. unfold errs. by destruct (Herr n) as (e & -> & ? & _).
  - intros n. unfold errs. by destruct (Herr n) as (e & -> & _ & ?).
Qed.

(** X12. A request answered with status 400, 401, 403 or 404 is not
    attempted again: the [JinaNonRetryableError] of [_make_request],
    with its text "HTTP <status>: <body>", leaves
    [_make_request_with_retry] as it is, after one attempt and no
    delay. *)
Theorem client_errors_fail_at_once (status_code : Z) (error_text : string) :
  1 <= RateLimiter.max_requests (JinaService.rate_limiter st) ->
  JinaService.upper method = "GET" \/ JinaService.upper method = "POST" ->
  client (calls (JinaService.retry_world st))
  = JinaService.HttpStatusError status_code error_text ->
  In status_code [400; 401; 403; 404] ->
  fst (JinaService._make_request_with_retry method client late st)
  = Raise (Exc JinaNonRetryableError
             ("HTTP " +:+ Agent.str_of_Z status_code +:+ ": " +:+ error_text)) /\
  JinaService.retry_world (snd (JinaService._make_request_with_retry
         method client late st))
  = World (calls (JinaService.retry_world st) + 1) (slept (JinaService.retry_world st)).
Proof.
  intros Hmax Hmethod Hclient Hcode.
  destruct (make_request_with_retry_admitted Hmax) as (l' & e' & _ & _ & ->).
  cbn [fst snd JinaService.retry_world].
  unfold Jina.retry_jina_request.
  change (py_range (3 + 1)) with [0; 1; 2; 3]. cbn [Jina.retry_loop].
  rewrite make_request_is_call by done. unfold call. rewrite Hclient.
  cbn [JinaService.handle].
  assert (JinaService.in_list status_code [429; 502; 503; 504] = false) as ->.
  { cbn [In] in Hcode. by destruct Hcode as [<-|[<-|[<-|[<-|[]]]]]. }
  assert (JinaService.in_list status_code [400; 401; 403; 404] = true) as ->.
  { cbn [In] in Hcode. by destruct Hcode as [<-|[<-|[<-|[<-|[]]]]]. }
  cbn. by rewrite Nat.add_1_r.
Qed.

(** X13. A response of status 500 is raised by [_make_request] as a
    [JinaRetryableError], yet it is attempted again only if its body
    holds one of the retry keywords: with a body that holds none, the
    request fails after one attempt and no delay, with the error
    "Jina AI request failed: HTTP 500: <body>". *)
Theorem server_error_without_keyword_is_not_retried (error_text : string) :
  1 <= RateLimiter.max_requests (JinaService.rate_limiter st) ->
  JinaService.upper method = "GET" \/ JinaService.upper method = "POST" ->
  client (calls (JinaService.retry_world st)) = JinaService.HttpStatusError 500 error_text ->
  PyStr.any_in Jina.retry_keywords (PyStr.lower error_text) = false ->
  JinaService.handle (client (calls (JinaService.retry_world st)))
  = Raise (Exc JinaRetryableError ("HTTP 500: " +:+ error_text)) /\
  fst (JinaService._make_request_with_retry method client late st)
  = Raise (Exc JinaNonRetryableError
             ("Jina AI request failed: HTTP 500: " +:+ error_text)) /\
  JinaService.retry_world (snd (JinaService._make_request_with_retry
         method client late st))
  = World (calls (JinaService.retry_world st) + 1) (slept (JinaService.retry_world st)).
Proof.
  intros Hmax Hmethod Hclient Hkey.
  destruct (make_request_with_retry_admitted Hmax) as (l' & e' & _ & _ & ->).
  cbn [fst snd JinaService.retry_world].
  split; [by rewrite Hclient|].
  unfold Jina.retry_jina_request.
  change (py_range (3 + 1)) with [0; 1; 2; 3]. cbn [Jina.retry_loop].
  rewrite make_request_is_call by done. unfold call. rewrite Hclient.
  change (JinaService.handle (JinaService.HttpStatusError 500 error_text))
    with (Raise (A:=JinaService.payload)
            (Exc JinaRetryableError ("HTTP 500: " +:+ error_text))).
  cbn [isinstance exc_type exc_class_eqb str exc_msg].
  assert (PyStr.any_in Jina.retry_keywords (PyStr.lower ("HTTP 500: " +:+ error_text))
          = PyStr.any_in Jina.retry_keywords (PyStr.lower error_text)) as ->
    by reflexivity.
  rewrite Hkey. cbn [fst snd]. by rewrite Nat.add_1_r.
Qed.

(** X14. A method other than GET and POST fails without any request
    being sent and without a retry, with the error "Jina AI service
    error: Unsupported HTTP method: <method>"; a slot of the rate limiter
    is used up all the same. *)
Theorem unsupported_method_sends_nothing :
  1 <= RateLimiter.max_requests (JinaService.rate_limiter st) ->
  JinaService.upper method <> "GET" ->
  JinaService.upper method <> "POST" ->
  fst (JinaService._make_request_with_retry method client late st)
  = Raise (Exc JinaNonRetryableError
             ("Jina AI service error: Unsupported HTTP method: " +:+ method)) /\
  JinaService.retry_world (snd (JinaService._make_request_with_retry
         method client late st)) = (JinaService.retry_world st) /\
  RateLimiter.get (JinaService.rate_limiter (snd (JinaService._make_request_with_retry
         method client late st))) "default"
  = RateLimiter.recent (RateLimiter.time_window (JinaService.rate_limiter st))
      (RateLimiter.clock (JinaService.limiter_env st))
      (RateLimiter.get (JinaService.rate_limiter st) "default")
    ++ [RateLimiter.clock (JinaService.limiter_env st)].
Proof.
  intros Hmax Hget Hpost.
  destruct (make_request_with_retry_admitted Hmax) as (l' & e' & _ & Hslot & ->).
  cbn [fst snd JinaService.retry_world JinaService.rate_limiter].
  unfold Jina.retry_jina_request.
  change (py_range (3 + 1)) with [0; 1; 2; 3]. cbn [Jina.retry_loop].
  rewrite make_request_unsupported by done.
  by cbn.
Qed.

(** X15. One request takes one slot of the rate limiter, however often
    it is attempted: [_make_request_with_retry] adds the clock reading
    once to the timestamps of the default key, sends at most four
    requests, and sleeps a prefix of the delays 1, 2 and 4. *)
Theorem one_slot_per_request :
  1 <= RateLimiter.max_requests (JinaService.rate_limiter st) ->
  RateLimiter.get (JinaService.rate_limiter (snd (JinaService._make_request_with_retry
         method client late st))) "default"
  = RateLimiter.recent (RateLimiter.time_window (JinaService.rate_limiter st))
      (RateLimiter.clock (JinaService.limiter_env st))
      (RateLimiter.get (JinaService.rate_limiter st) "default")
    ++ [RateLimiter.clock (JinaService.limiter_env st)] /\
  exists retries, (retries <= 3)%nat /\
    (calls (JinaService.retry_world (snd (JinaService._make_request_with_retry
         method client late st))) <= calls (JinaService.retry_world st) + S retries)%nat /\
    slept (JinaService.retry_world (snd (JinaService._make_request_with_retry
         method client late st)))
    = slept (JinaService.retry_world st) ++ firstn retries [1; 2; 4]%Q.
Proof.
  intros Hmax.
  destruct (make_request_with_retry_admitted Hmax) as (l' & e' & _ & Hslot & ->).
  cbn [fst snd JinaService.retry_world JinaService.rate_limiter].
  split; [exact Hslot|].
  destruct (String.eqb_spec (JinaService.upper method) "GET") as [Hget|Hget];
    [|destruct (String.eqb_spec (JinaService.upper method) "POST") as [Hpost|Hpost]].
  1,2: unfold Jina.retry_jina_request;
    rewrite (jina_loop_ext _ (call (fun n => JinaService.handle (client n))))
      by (intros w0; apply make_request_is_call; tauto);
    destruct (jina_loop_delays (fun n => JinaService.handle (client n)) 1 30 2
                3 0 None (JinaService.retry_world st)) as (j & Hj & Hc & Hs);
    exists j; cbn zeta in Hc, Hs;
    change (py_range (3 + 1)) with (map Z.of_nat (seq 0 4));
    change (Z.of_nat (0 + 3)) with 3 in Hc, Hs;
    rewrite Hc, Hs; split; [lia|]; split; [lia|]; f_equal;
    by destruct j as [|[|[|[|j]]]]; [| | | |lia].
  exists 0%nat. unfold Jina.retry_jina_request.
  change (py_range (3 + 1)) with [0; 1; 2; 3]. cbn [Jina.retry_loop].
  rewrite make_request_unsupported by done.
  cbn. split; [lia|]. split; [lia|]. by rewrite app_nil_r.
Qed.

End JinaRequests.

Lemma transient_failures_are_retried_witness :
  let client := fun _ : nat => JinaService.HttpStatusError 503 "Service Unavailable" in
  let request := JinaService._make_request_with_retry "GET" client 0
                   (JinaService.new_state 0) in
  exists last,
    JinaService.handle (client 3%nat) = Raise last /\
    fst request = Raise (Jina.request_failed last) /\
    JinaService.retry_world (snd request) = World 4 [1; 2; 4]%Q.
Proof.
  apply (transient_failures_are_retried
           (fun _ => JinaService.HttpStatusError 503 "Service Unavailable")
           "GET" 0 (JinaService.new_state 0)).
  - cbn. lia.
  - by left.
  - intros n. right. right. exists 503, "Service Unavailable". split; [done|].
    cbn. tauto.
Defined.

Lemma client_errors_fail_at_once_witness :
  let request := JinaService._make_request_with_retry "post"
                   (fun _ => JinaService.HttpStatusError 404 "Not Found") 0
                   (JinaService.new_state 0) in
  fst request = Raise (Exc JinaNonRetryableError "HTTP 404: Not Found") /\
  JinaService.retry_world (snd request) = World 1 [].
Proof.
  apply (client_errors_fail_at_once
           (fun _ => JinaService.HttpStatusError 404 "Not Found")
           "post" 0 (JinaService.new_state 0) 404 "Not Found").
  - cbn. lia.
  - by right.
  - reflexivity.
  - cbn. tauto.
Defined.

Lemma server_error_without_keyword_is_not_retried_witness :
  let client := fun _ : nat => JinaService.HttpStatusError 500 "Internal Server Error" in
  let request := JinaService._make_request_with_retry "GET" client 0
                   (JinaService.new_state 0) in
  JinaService.handle (client 0%nat)
  = Raise (Exc JinaRetryableError "HTTP 500: Internal Server Error") /\
  fst request
  = Raise (Exc JinaNonRetryableError
             "Jina AI request failed: HTTP 500: Internal Server Error") /\
  JinaService.retry_world (snd request) = World 1 [].
Proof.
  apply (server_error_without_keyword_is_not_retried
           (fun _ => JinaService.HttpStatusError 500 "Internal Server Error")
           "GET" 0 (JinaService.new_state 0) "Internal Server Error").
  - cbn. lia.
  - by left.
  - reflexivity.
  - vm_compute. reflexivity.
Defined.

Lemma unsupported_method_sends_nothing_witness :
  let request := JinaService._make_request_with_retry "DELETE"
                   (fun _ => JinaService.HttpTimeout) 0 (JinaService.new_state 7) in
  fst request
  = Raise (Exc JinaNonRetryableError
             "Jina AI service error: Unsupported HTTP method: DELETE") /\
  JinaService.retry_world (snd request) = world0 /\
  RateLimiter.get (JinaService.rate_limiter (snd request)) "default" = [7%Q].
Proof.
  apply (unsupported_method_sends_nothing (fun _ => JinaService.HttpTimeout)
           "DELETE" 0 (JinaService.new_state 7)).
  - cbn. lia.
  - discriminate.
  - discriminate.
Defined.

Lemma one_slot_per_request_witness :
  let request := JinaService._make_request_with_retry "GET"
                   (fun _ => JinaService.HttpTimeout) 0 (JinaService.new_state 7) in
  RateLimiter.get (JinaService.rate_limiter (snd request)) "default" = [7%Q] /\
  exists retries, (retries <= 3)%nat /\
    (calls (JinaService.retry_world (snd request)) <= 0 + S retries)%nat /\
    slept (JinaService.retry_world (snd request)) = [] ++ firstn retries [1; 2; 4]%Q.
Proof.
  apply (one_slot_per_request (fun _ => JinaService.HttpTimeout)
           "GET" 0 (JinaService.new_state 7)).
  cbn. lia.
Defined.

(** ** More on the rate limiter *)

Section LimiterMore.
Import RateLimiter.
Local Open Scope Q_scope.

Lemma recent_subset (window : Z) (now t : Q) (l : list Q) :
  In t (recent window now l) -> In t l.
Proof.
  induction l as [|x l IH]; [done|]. rewrite recent_cons.
  destruct (Qltb (now - x) _); cbn [In]; tauto.
Qed.

(** X16. [acquire] raises exactly when the limit admits nothing and the
    window of the key is empty, and then it is the [ValueError] of
    [min] on an empty list, and no timestamp is recorded; in every other
    case it returns, with the clock reading added to the timestamps of
    the window. *)
Theorem acquire_raises_on_empty_window_only (key : string) (late : Q) (l : t) (e : env) :
  let kept := recent (time_window l) (clock e) (get l key) in
  let '(r, l', _) := acquire key late l e in
  match r with
  | Raise err =>
      err = Exc ValueError "min() arg is an empty sequence" /\
      (max_requests l <= 0)%Z /\ kept = [] /\ get l' key = []
  | Return _ =>
      ((0 < max_requests l)%Z \/ kept <> []) /\ get l' key = kept ++ [clock e]
  end.
Proof.
  cbn zeta. unfold acquire.
  assert (Hget : get (purge l key (clock e)) key
                 = recent (time_window l) (clock e) (get l key)).
  { unfold purge. rewrite get_set. by case_decide. }
  rewrite !Hget. change (max_requests (purge l key (clock e))) with (max_requests l).
  rewrite <- Hget.
  remember (get (purge l key (clock e)) key) as kept eqn:Hkept.
  destruct (Z.geb_spec (Z.of_nat (List.length kept)) (max_requests l)) as [Hfull|Hroom].
  - destruct (py_min kept) as [oldest|] eqn:Hmin.
    + split; [|rewrite get_set; by case_decide].
      right. by destruct kept.
    + destruct kept; [|discriminate Hmin]. cbn [List.length] in Hfull.
      split; [done|]. split; [lia|]. by split.
  - split; [left; lia|]. rewrite get_set. by case_decide.
Qed.

(** In sequential use no timestamp lies in the future. *)
Lemma reachable_past (M W : Z) (l : t) (e : env) :
  reachable M W l e -> forall k t, In t (get l k) -> t <= clock e.
Proof.
  induction 1 as [now | l e d _ IH Hd | l e key late r l' e' _ IH Hlate Hacq];
    intros k t.
  - unfold get, init. cbn [requests]. rewrite lookup_empty. by cbn.
  - intros Hin. specialize (IH k t Hin). cbn [elapse clock]. lra.
  - apply acquire_cases in Hacq. cbn zeta in Hacq.
    assert (Hkept : forall x, In x (recent (time_window l) (clock e) (get l key)) ->
                              x <= clock e).
    { intros x Hx. apply (IH key). by apply recent_subset in Hx. }
    destruct Hacq as [(_ & _ & -> & ->)
                     | [(_ & _ & _ & -> & ->)
                       | (_ & oldest & Hin & _ & -> & ->)]].
    + rewrite get_set. case_decide.
      * rewrite in_app_iff. intros [Hx | [<- | []]]; [by apply Hkept | lra].
      * unfold purge. rewrite get_set. case_decide; [done|]. apply IH.
    + unfold purge. rewrite get_set. case_decide; [apply Hkept | apply IH].
    + pose proof (recent_In _ _ _ _ Hin) as Hrecent.
      cbn [suspend clock].
      assert (Hlater : forall x, x <= clock e ->
                x <= clock e + (inject_Z (time_window l) - (clock e - oldest)) + late)
        by (intros x Hx; lra).
      rewrite get_set. case_decide.
      * rewrite in_app_iff. intros [Hx | [<- | []]]; apply Hlater; [by apply Hkept | lra].
      * unfold purge. rewrite get_set. case_decide; [done|].
        intros Hx. apply Hlater. by apply (IH k).
Qed.

(** X17. In sequential use the list kept for a key never holds more than
    [max_requests + 1] timestamps (one, when the limit is not positive):
    the list does not grow without bound, whatever the traffic. *)
Theorem timestamps_stay_bounded (M W : Z) (l : t) (e : env) (k : string) :
  reachable M W l e ->
  (Z.of_nat (List.length (get l k)) <= Z.max 0 M + 1)%Z.
Proof.
  intros Hreach. revert k.
  induction Hreach as [now | l e d _ IH Hd | l e key late r l' e' Hreach IH Hlate Hacq];
    intros k.
  - unfold get, init. cbn [requests]. rewrite lookup_empty. cbn. lia.
  - apply IH.
  - destruct (reachable_bound M W l e Hreach) as (HM & _ & Hwin).
    specialize (Hwin key). rewrite in_window_recent in Hwin.
    apply acquire_cases in Hacq. cbn zeta in Hacq.
    destruct Hacq as [(Hroom & _ & -> & _)
                     | [(_ & Hnil & _ & -> & _)
                       | (_ & oldest & _ & _ & -> & _)]].
    + rewrite get_set. case_decide.
      * rewrite length_app. cbn [List.length]. lia.
      * unfold purge. rewrite get_set. case_decide; [done|]. apply IH.
    + unfold purge. rewrite get_set. case_decide; [|apply IH].
      rewrite Hnil. cbn. lia.
    + rewrite get_set. case_decide.
      * rewrite length_app. cbn [List.length]. lia.
      * unfold purge. rewrite get_set. case_decide; [done|]. apply IH.
Qed.

Lemma timestamps_stay_bounded_witness :
  exists l e,
    acquire "default" 0 (init 1 60) (Env 0 []) = (Return tt, l, e) /\
    (Z.of_nat (List.length (get l "default")) <= Z.max 0 1 + 1)%Z.
Proof.
  eexists _, _. split; [reflexivity|].
  apply (timestamps_stay_bounded 1 60 _ (Env 0 []) "default").
  apply (reach_acquire 1 60 (init 1 60) (Env 0 []) "default" 0 (Return tt)).
  - apply reach_init.
  - lra.
  - reflexivity.
Defined.

(** X18. In sequential use a call that finds the window of its key full
    is always suspended: the wait it computes is positive, so that the
    test [wait_time > 0] never fails, and it is at most the length of
    the window. *)
Theorem full_window_suspends (M W : Z) (l : t) (e : env) (key : string) (late : Q) :
  reachable M W l e ->
  let kept := recent (time_window l) (clock e) (get l key) in
  (max_requests l <= Z.of_nat (List.length kept))%Z ->
  kept <> [] ->
  exists wait_time,
    0 < wait_time /\ wait_time <= inject_Z W /\
    snd (acquire key late l e) = suspend wait_time late e.
Proof.
  intros Hreach kept Hfull Hsome.
  destruct (reachable_bound M W l e Hreach) as (_ & HW & _).
  destruct (acquire key late l e) as [[r l'] e'] eqn:Hacq.
  apply acquire_cases in Hacq. cbn zeta in Hacq. fold kept in Hacq.
  destruct Hacq as [(Hroom & _) | [(_ & Hnil & _) | (_ & oldest & Hin & _ & _ & ->)]];
    [lia | done |].
  exists (inject_Z (time_window l) - (clock e - oldest)).
  pose proof (recent_In _ _ _ _ Hin) as Hrecent.
  pose proof (reachable_past M W l e Hreach key oldest (recent_subset _ _ _ _ Hin)).
  rewrite <- HW. split; [lra|]. split; [lra | done].
Qed.

Lemma full_window_suspends_witness :
  exists l e,
    acquire "default" 0 (init 1 60) (Env 10 []) = (Return tt, l, e) /\
    exists wait_time,
      0 < wait_time /\ wait_time <= inject_Z 60 /\
      snd (acquire "default" 0 l (elapse 20 e)) = suspend wait_time 0 (elapse 20 e).
Proof.
  eexists _, _. split; [reflexivity|].
  apply (full_window_suspends 1 60 _ (elapse 20 (Env 10 [])) "default" 0).
  - apply reach_elapse; [|lra].
    apply (reach_acquire 1 60 (init 1 60) (Env 10 []) "default" 0 (Return tt));
      [apply reach_init | lra | reflexivity].
  - vm_compute. discriminate.
  - vm_compute. discriminate.
Defined.

End LimiterMore.

(** ** More on the chat endpoints *)

(** What the retries of the chat endpoint can raise. *)
Lemma chat_loop_raises (agent_run : op MetatronAgent.run_result)
  (attempts : list Z) (last : option exc) (w : world) (e : exc) :
  match last with
  | Some e0 => exc_type e0 = RetryableError
  | None => attempts <> []
  end ->
  fst (Routes.retry_loop (Chat.run_chat_with_retry Chat.agent_created agent_run)
         2 1 10 2 attempts last w)
  = Raise e ->
  exc_type e = RetryableError \/
  exc_type e = NonRetryableError /\ exists text, str e = "Permanent error: " +:+ text.
Proof.
  revert last w. induction attempts as [|attempt rest IH]; intros last w Hlast.
  - destruct last as [e0|]; [|done]. cbn. intros [= <-]. by left.
  - cbn [Routes.retry_loop]. unfold Chat.run_chat_with_retry at 1.
    unfold Chat.agent_created at 1.
    destruct (agent_run w) as [[r|e0] w1]; [discriminate|].
    destruct (PyStr.any_in _ _).
    + cbn [isinstance exc_type exc_class_eqb].
      destruct (attempt =? 2).
      * cbn. intros [= <-]. by left.
      * apply IH. reflexivity.
    + cbn. intros [= <-]. right. split; [done|]. by eexists.
Qed.

(** X19. Whatever [agent.run] raises, the chat endpoint answers an
    error of it with status 400 or 503 only, never 500: with 400 the
    detail is the rate-limit, the authentication or the unknown-issue
    message (never the connection, validation or permission message,
    because the error has been wrapped in a [NonRetryableError]), and
    with 503 it is the temporary-difficulties message. *)
Theorem chat_error_statuses (agent_run : op MetatronAgent.run_result)
  (ws now : string) (w w' : world) (status_code : Z) (detail : string) :
  Chat.chat_with_orchestrator Chat.agent_created agent_run ws now w
  = (Chat.HTTPException status_code detail, w') ->
  status_code = 400 /\
    In detail [Chat.rate_limit_message; Chat.auth_message; Chat.unknown_message]
  \/ status_code = 503 /\ detail = Chat.temporary_message.
Proof.
  unfold Chat.chat_with_orchestrator, Routes.retry_with_backoff.
  pose proof (chat_loop_raises agent_run (py_range (2 + 1)) None w) as Hraise.
  destruct (Routes.retry_loop _ _ _ _ _ _ _ _) as [[result|e] w1]; [discriminate|].
  destruct (Hraise e ltac:(discriminate) eq_refl) as [Hclass | [Hclass _]];
    destruct e as [cls msg]; cbn [exc_type] in Hclass; subst cls;
    cbn [isinstance exc_type exc_class_eqb]; intros [= <- <- _]; [by right|].
  left. split; [done|].
  cbn [Chat.create_error_response Chat.user_message].
  unfold Chat.categorize. cbn [isinstance exc_type exc_class_eqb orb].
  repeat match goal with
         | |- context [if ?b then _ else _] => destruct b
         end; cbn [fst In]; tauto.
Qed.

Lemma chat_error_statuses_witness :
  400 = 400 /\
    In Chat.auth_message
       [Chat.rate_limit_message; Chat.auth_message; Chat.unknown_message]
  \/ 400 = 503 /\ Chat.auth_message = Chat.temporary_message.
Proof.
  apply (chat_error_statuses
           (call (fun _ => Raise (Exc ValueError "invalid api key")))
           "default" "now" world0 (World 1 []) 400 Chat.auth_message).
  vm_compute. reflexivity.
Defined.

(** X20. [MetatronAgent.run] calls the language model once and returns
    what the model returned or, on an error that holds "429" or
    "RESOURCE_EXHAUSTED", the rate-limit response.  On every other
    error of the model it raises the [UnboundLocalError] of its outer
    handler, so that the fallback response of that handler is never
    returned; the chat endpoint answers such an error with status 400
    and the unknown-issue message, after one attempt and no delay. *)
Theorem agent_run_fallback_is_never_returned
  (model : op MetatronAgent.OrchestratorOutput) (ws now : string) (w : world) :
  snd (MetatronAgent.run model w) = snd (model w) /\
  match fst (model w) with
  | Return out =>
      fst (MetatronAgent.run model w) = Return (MetatronAgent.AgentRunResult out)
  | Raise e =>
      if PyStr.contains "429" (str e) || PyStr.contains "RESOURCE_EXHAUSTED" (str e)
      then fst (MetatronAgent.run model w)
           = Return (MetatronAgent.RateLimitResult MetatronAgent.rate_limit_output)
      else fst (MetatronAgent.run model w)
           = Raise (Exc UnboundLocalError
                      "cannot access local variable 'OrchestratorOutput' where it is not associated with a value") /\
           Chat.chat_with_orchestrator Chat.agent_created (MetatronAgent.run model)
             ws now w
           = (Chat.HTTPException 400 Chat.unknown_message, snd (model w))
  end /\
  (forall output,
     fst (MetatronAgent.run model w) <> Return (MetatronAgent.MockResult output)).
Proof.
  assert (Hrun : MetatronAgent.run model w
                 = match model w with
                   | (Return out, w1) => (Return (MetatronAgent.AgentRunResult out), w1)
                   | (Raise e, w1) =>
                       if PyStr.contains "429" (str e)
                          || PyStr.contains "RESOURCE_EXHAUSTED" (str e)
                       then (Return (MetatronAgent.RateLimitResult
                                       MetatronAgent.rate_limit_output), w1)
                       else (Raise MetatronAgent.unbound_output, w1)
                   end).
  { unfold MetatronAgent.run, MetatronAgent.run_model.
    destruct (model w) as [[out|e] w1]; [done|]. by destruct (_ || _). }
  destruct (model w) as [[out|e] w1]; cbn [fst snd].
  - rewrite Hrun. by repeat split.
  - destruct (_ || _).
    + rewrite Hrun. by repeat split.
    + split; [by rewrite Hrun|]. split; [|by rewrite Hrun].
      split; [by rewrite Hrun|].
      by rewrite (chat_permanent_error _ ws now w w1 MetatronAgent.unbound_output Hrun).
Qed.




(** ** Content routing *)

Section RoutingFacts.
Import Routing.

Lemma tool_content_type_visual (tool_name t : string) :
  tool_content_type tool_name = Some t -> In t ["chart"; "image"; "video"].
Proof.
  unfold tool_content_type. cbn zeta.
  repeat match goal with
         | |- context [if ?b then _ else _] => destruct b
         end; intros [= <-]; cbn; tauto.
Qed.

Lemma response_content_type_visual (response_text t : string) :
  response_content_type response_text = Some t -> In t ["chart"; "image"; "video"; "map"].
Proof.
  unfold response_content_type. cbn zeta.
  repeat match goal with
         | |- context [if ?b then _ else _] => destruct b
         end; intros [= <-]; cbn; tauto.
Qed.

Lemma to_content_area_routed (t : string) (m : content_metadata) :
  In t ["chart"; "image"; "video"; "map"] -> routed (to_content_area t m).
Proof.
  intros Ht. unfold routed. cbn [to_content_area content_type display_mode
                                   has_visual_content].
  cbn [In] in Ht. by destruct Ht as [<-|[<-|[<-|[<-|[]]]]].
Qed.

Lemma from_detection_routed (detection : option detection_result) :
  routed (from_detection detection default_metadata).
Proof.
  destruct detection as [d|]; [|by split].
  unfold from_detection. cbn zeta.
  destruct (_ && _); [|by split].
  unfold routed. cbn [content_type display_mode has_visual_content].
  split; [|done].
  by destruct (String.eqb _ "text").
Qed.

Lemma from_tool_routed (m : content_metadata) (tool_name : string) :
  routed m -> routed (from_tool m tool_name).
Proof.
  intros Hm. unfold from_tool.
  destruct (tool_content_type tool_name) as [t|] eqn:Ht; [|done].
  apply to_content_area_routed. apply tool_content_type_visual in Ht.
  cbn [In] in *. tauto.
Qed.

Lemma from_response_routed (response_text : string) (m : content_metadata) :
  routed m -> routed (from_response response_text m).
Proof.
  intros Hm. unfold from_response.
  destruct (response_content_type response_text) as [t|] eqn:Ht; [|done].
  destruct (String.eqb _ "text"); [|done].
  apply to_content_area_routed. by apply response_content_type_visual in Ht.
Qed.

Lemma fold_from_tool_routed (tools_used : list string) (m : content_metadata) :
  routed m -> routed (fold_left from_tool tools_used m).
Proof.
  revert m. induction tools_used as [|tool rest IH]; intros m Hm; [done|].
  cbn [fold_left]. by apply IH, from_tool_routed.
Qed.

Lemma fold_from_tool_type (tools_used : list string) (m : content_metadata) :
  content_type (fold_left from_tool tools_used m)
  = default (content_type m) (last (omap tool_content_type tools_used)).
Proof.
  revert m. induction tools_used as [|tool rest IH]; intros m; [done|].
  cbn [fold_left]. rewrite IH. unfold from_tool.
  change (omap tool_content_type (tool :: rest))
    with (match tool_content_type tool with
          | Some t => t :: omap tool_content_type rest
          | None => omap tool_content_type rest
          end).
  destruct (tool_content_type tool) as [t|]; [|done].
  cbn [to_content_area content_type]. rewrite last_cons.
  by destruct (last (omap tool_content_type rest)).
Qed.

End RoutingFacts.

(** X22. Whatever the response, the detection result and the tools,
    the routing sends to the content area exactly the content that is
    not text, and to the chat area the text; and content that is not
    text is always marked as visual. *)
Theorem routing_display_follows_type (response_text : string)
  (detection : option Routing.detection_result) (tools_used : list string) :
  let m := Routing._determine_content_routing response_text detection tools_used in
  (Routing.display_mode m = "content_area" <-> Routing.content_type m <> "text") /\
  (Routing.display_mode m = "chat_area" <-> Routing.content_type m = "text") /\
  (Routing.content_type m <> "text" -> Routing.has_visual_content m = true).
Proof.
  cbn zeta. unfold Routing._determine_content_routing.
  destruct (from_response_routed response_text _
              (fold_from_tool_routed tools_used _ (from_detection_routed detection)))
    as [Hmode Hvisual].
  split; [|split; [|done]]; rewrite Hmode;
    destruct (String.eqb_spec (Routing.content_type
                (Routing.from_response response_text
                   (fold_left Routing.from_tool tools_used
                      (Routing.from_detection detection Routing.default_metadata))))
                "text"); split; intros; congruence.
Qed.

(** X23. The order of precedence of the routing: the last tool whose
    name selects a content type decides; without such a tool the
    detection result decides when it names a type other than text; and
    the indicators of the response text count only when neither does. *)
Theorem routing_precedence (response_text : string)
  (detection : option Routing.detection_result) (tools_used : list string) :
  Routing.content_type
    (Routing._determine_content_routing response_text detection tools_used)
  = match last (omap Routing.tool_content_type tools_used) with
    | Some t => t
    | None =>
        let detected :=
          Routing.content_type (Routing.from_detection detection Routing.default_metadata) in
        if String.eqb detected "text"
        then default "text" (Routing.response_content_type response_text)
        else detected
    end.
Proof.
  unfold Routing._determine_content_routing, Routing.from_response.
  pose proof (fold_from_tool_type tools_used
                (Routing.from_detection detection Routing.default_metadata)) as Htype.
  destruct (last (omap Routing.tool_content_type tools_used)) as [t|] eqn:Hlast;
    cbn [default] in Htype.
  - assert (Ht : In t ["chart"; "image"; "video"]).
    { apply last_Some in Hlast as (ts & Hts).
      assert (Hin : t ∈ omap Routing.tool_content_type tools_used)
        by (rewrite Hts; set_solver).
      apply list_elem_of_omap in Hin as (tool & _ & Htool).
      by apply tool_content_type_visual in Htool. }
    destruct (Routing.response_content_type response_text); [|done].
    rewrite Htype.
    cbn [In] in Ht. by destruct Ht as [<-|[<-|[<-|[]]]].
  - cbn zeta. cbn [default].
    destruct (Routing.response_content_type response_text) as [t|]; rewrite Htype.
    + destruct (String.eqb _ "text"); [done | exact Htype].
    + by destruct (String.eqb_spec
                     (Routing.content_type
                        (Routing.from_detection detection Routing.default_metadata))
                     "text").
Qed.

(** ** The shape of a detection result, and the routing of it *)

Lemma included_types (message : string) (table : list (string * ContentDetection.config))
  (entry : string * ContentDetection.config) :
  In entry (Spec.included message table) -> In (fst entry) (map fst table).
Proof.
  intros Hin. apply filter_In in Hin as [Hin _]. by apply in_map.
Qed.

Lemma detection_shape (now : string) (message : ContentDetection.py_value) :
  let r := ContentDetection.detect_content_intent now message in
  (ContentDetection.has_visual_content r = true /\
   40 <= ContentDetection.confidence r <= 100 /\
   In (ContentDetection.primary_content_type r) ["chart"; "image"; "video"; "map"] /\
   (List.length (ContentDetection.entities r) <= 3)%nat)
  \/ (ContentDetection.has_visual_content r = false /\
      ContentDetection.confidence r = 0 /\
      ContentDetection.primary_content_type r = "text" /\
      ContentDetection.entities r = []).
Proof.
  cbn zeta. destruct message as [message| |n]; [|by right..].
  unfold ContentDetection.detect_content_intent, ContentDetection.try_detect,
    ContentDetection.detect. cbv zeta.
  rewrite fold_analyze_type. cbn [app].
  set (wanted := map (Spec.expected message) _).
  pose proof (sort_desc_perm wanted) as Hperm.
  destruct (ContentDetection.sort_desc wanted) as [|top rest]; [by right|].
  cbn [ContentDetection.has_visual_content ContentDetection.primary_content_type
         ContentDetection.confidence ContentDetection.entities].
  destruct (Z.geb_spec (ContentDetection.det_confidence top) 40) as [Hconf|_];
    [left | by right].
  assert (Htop : In top wanted) by (apply (Permutation_in _ Hperm); by left).
  apply in_map_iff in Htop as (entry & <- & Hentry).
  apply included_types in Hentry.
  unfold Spec.expected, Spec.score in *.
  cbn [ContentDetection.det_confidence ContentDetection.det_entities
         ContentDetection.det_content_type] in *.
  split; [done|]. split; [lia|]. split; [exact Hentry|].
  rewrite length_firstn. lia.
Qed.

(** X24. The result of the detection tool has one of two shapes,
    whatever it is given, a message or a value that is not a string:
    visual content, with a confidence between 40 and 100, a primary
    type among chart, image, video and map, and at most three entities;
    or no visual content, with confidence 0, the primary type "text" and
    no entity. *)
Theorem detection_result_shape (now : string) (message : ContentDetection.py_value) :
  let r := ContentDetection.detect_content_intent now message in
  (ContentDetection.has_visual_content r = true /\
   40 <= ContentDetection.confidence r <= 100 /\
   In (ContentDetection.primary_content_type r) ["chart"; "image"; "video"; "map"] /\
   (List.length (ContentDetection.entities r) <= 3)%nat)
  \/ (ContentDetection.has_visual_content r = false /\
      ContentDetection.confidence r = 0 /\
      ContentDetection.primary_content_type r = "text" /\
      ContentDetection.entities r = []).
Proof. apply detection_shape. Qed.

Lemma from_detection_of_detection (r : ContentDetection.result)
  (m : Routing.content_metadata) :
  Routing.from_detection (Some (Routing.of_detection r)) m
  = if ContentDetection.has_visual_content r && (ContentDetection.confidence r >=? 40)
    then {| Routing.content_type := ContentDetection.primary_content_type r;
            Routing.display_mode :=
              if negb (String.eqb (ContentDetection.primary_content_type r) "text")
              then "content_area" else "chat_area";
            Routing.data :=
              Some {| Routing.cd_entities := ContentDetection.entities r;
                      Routing.cd_confidence := ContentDetection.confidence r;
                      Routing.cd_detection_details := Routing.of_detection r |};
            Routing.has_visual_content := true |}
    else m.
Proof. reflexivity. Qed.

(** X25. The routing of a result of the detection tool, when no tool
    was used: a visual detection is routed to the content area under its
    primary type, whatever the response text holds, so that the
    threshold of 40 of the routing never rejects what the tool found;
    without a visual detection the indicators of the response text
    decide, and the content is text without them. *)
Theorem routing_follows_detection (now response_text : string)
  (message : ContentDetection.py_value) :
  let r := ContentDetection.detect_content_intent now message in
  let m := Routing._determine_content_routing response_text
             (Some (Routing.of_detection r)) [] in
  Routing.content_type m
  = (if ContentDetection.has_visual_content r
     then ContentDetection.primary_content_type r
     else default "text" (Routing.response_content_type response_text)) /\
  (ContentDetection.has_visual_content r = true ->
   Routing.display_mode m = "content_area" /\
   Routing.has_visual_content m = true /\
   Routing.data m
   = Some {| Routing.cd_entities := ContentDetection.entities r;
             Routing.cd_confidence := ContentDetection.confidence r;
             Routing.cd_detection_details := Routing.of_detection r |}).
Proof.
  cbn zeta. pose proof (detection_shape now message) as Hshape. cbn zeta in Hshape.
  set (r := ContentDetection.detect_content_intent now message) in *. clearbody r.
  unfold Routing._determine_content_routing, Routing.from_response.
  cbn [fold_left]. rewrite from_detection_of_detection.
  destruct Hshape as [(-> & Hconf & Htype & _) | (-> & Hconf & Htype & _)].
  - destruct (Z.geb_spec (ContentDetection.confidence r) 40) as [_|?]; [|lia].
    cbn [andb].
    assert (Hne : String.eqb (ContentDetection.primary_content_type r) "text" = false).
    { cbn [In] in Htype. by destruct Htype as [<-|[<-|[<-|[<-|[]]]]]. }
    destruct (Routing.response_content_type response_text);
      cbn [Routing.content_type Routing.display_mode Routing.has_visual_content
             Routing.data]; rewrite ?Hne; cbn [negb]; done.
  - cbn [andb]. split; [|discriminate].
    by destruct (Routing.response_content_type response_text).
Qed.

Lemma routing_follows_detection_witness :
  let r := ContentDetection.detect_content_intent "now"
             (ContentDetection.PyStr_ "plot a graph of the stock price") in
  let m := Routing._determine_content_routing "A map of the location."
             (Some (Routing.of_detection r)) [] in
  Routing.content_type m
  = (if ContentDetection.has_visual_content r
     then ContentDetection.primary_content_type r
     else default "text" (Routing.response_content_type "A map of the location.")) /\
  (ContentDetection.has_visual_content r = true ->
   Routing.display_mode m = "content_area" /\
   Routing.has_visual_content m = true /\
   Routing.data m
   = Some {| Routing.cd_entities := ContentDetection.entities r;
             Routing.cd_confidence := ContentDetection.confidence r;
             Routing.cd_detection_details := Routing.of_detection r |}).
Proof.
  apply (routing_follows_detection "now" "A map of the location."
           (ContentDetection.PyStr_ "plot a graph of the stock price")).
Defined.

(** ** Citations *)

Section CitationFacts.
Import Citations.
Variable netloc : string -> string.

Lemma add_citations_numbers (r : EnhancedSearchResponse)
  (args : list (string * string * string)) :
  let '(numbers, r') := add_citations netloc r args in
  numbers = map (fun i => Z.of_nat (List.length (citations r) + i)) (seq 1 (List.length args)) /\
  map number (citations r') = map number (citations r) ++ numbers /\
  map (fun c => (title c, url c, snippet c)) (citations r')
  = map (fun c => (title c, url c, snippet c)) (citations r) ++ args /\
  map (fun s => (source_title s, source_url s, source_domain s)) (sources r')
  = map (fun s => (source_title s, source_url s, source_domain s)) (sources r)
    ++ map (fun '(t, u, _) => (t, u, netloc u)) args /\
  map domain (citations r') = map domain (citations r) ++ map (fun '(_, u, _) => netloc u) args /\
  total_sources r' = total_sources r.
Proof.
  revert r. induction args as [|[[t u] s] rest IH]; intros r.
  - cbn. by rewrite !app_nil_r.
  - cbn [add_citations]. unfold add_citation at 1. cbv zeta.
    match goal with
    | |- context [add_citations netloc ?r1 rest] => specialize (IH r1)
    end.
    destruct (add_citations netloc _ rest) as [numbers r2].
    cbn [citations sources total_sources] in IH.
    destruct IH as (-> & Hnum & Hargs & Hsrc & Hdom & Htotal).
    cbv beta iota zeta. rewrite Hnum, Hargs, Hsrc, Hdom, Htotal.
    rewrite !map_app, length_app. cbn [map List.length number title url snippet domain
                            source_title source_url source_domain seq].
    rewrite <- !app_assoc. cbn [app].
    split; [|done].
    f_equal; [lia|].
    rewrite <- (seq_shift (List.length rest) 1), map_map. apply map_ext. intros i. lia.
Qed.

End CitationFacts.

(** X26. The citations of a new response are numbered 1, 2, 3 and so
    on in the order they are added, and [add_citation] returns these
    numbers; the citations hold the titles, addresses and snippets
    given; the list of sources stays in step with them, entry by entry;
    and [total_sources] stays 0: adding a citation does not count it. *)
Theorem add_citation_numbers (netloc : string -> string) (q : string)
  (args : list (string * string * string)) :
  let '(numbers, r) := Citations.add_citations netloc (Citations.new q) args in
  numbers = map Z.of_nat (seq 1 (List.length args)) /\
  map Citations.number (Citations.citations r) = numbers /\
  map (fun c => (Citations.title c, Citations.url c, Citations.snippet c))
      (Citations.citations r) = args /\
  map (fun s => (Citations.source_title s, Citations.source_url s,
                 Citations.source_domain s)) (Citations.sources r)
  = map (fun c => (Citations.title c, Citations.url c, Citations.domain c))
        (Citations.citations r) /\
  Citations.total_sources r = 0.
Proof.
  pose proof (add_citations_numbers netloc (Citations.new q) args) as H.
  destruct (Citations.add_citations netloc (Citations.new q) args) as [numbers r].
  cbn [Citations.new Citations.citations Citations.sources Citations.total_sources
         map app List.length Nat.add] in H.
  destruct H as (Hn & Hnum & Hargs & Hsrc & Hdom & Htotal).
  split; [done|]. split; [done|]. split; [done|]. split; [|done].
  rewrite Hsrc.
  assert (Hzip : forall l : list Citations.EnhancedCitation,
            map (fun c => (Citations.title c, Citations.url c, Citations.domain c)) l
            = map (fun '(t, u, _, d) => (t, u, d))
                  (combine (map (fun c => (Citations.title c, Citations.url c,
                                           Citations.snippet c)) l)
                           (map Citations.domain l))).
  { induction l as [|c l IHl]; [done|]. cbn [map combine]. by rewrite IHl. }
  rewrite Hzip, Hargs, Hdom. clear.
  induction args as [|[[t u] s] rest IH]; [done|]. cbn [map combine]. by rewrite IH.
Qed.

(** ** The tools of the agent *)

(** X27. [_prepare_tools] never filters: for every context the list it
    returns ends with all the available tools, and names no tool beyond
    them; the workspaces "research" and "creative" put four and two of
    the tools in front a second time. *)
Theorem prepare_tools_never_filters (context : gmap string string) :
  (exists priority, Tools._prepare_tools context = priority ++ Tools.available_tools /\
                    (context !! "workspace" = Some "research" -> List.length priority = 4%nat) /\
                    (context !! "workspace" = Some "creative" -> List.length priority = 2%nat)) /\
  forall tool, In tool (Tools._prepare_tools context) <-> In tool Tools.available_tools.
Proof.
  unfold Tools._prepare_tools. cbn zeta.
  destruct (context !! "workspace") as [workspace|]; cbn [from_option id].
  - destruct (String.eqb_spec workspace "research") as [->|Hr];
      [|destruct (String.eqb_spec workspace "creative") as [->|Hc]].
    + split; [|intros tool; cbn; tauto].
      eexists. split; [reflexivity|]. split; [done|]. intros [=].
    + split; [|intros tool; cbn; tauto].
      eexists. split; [reflexivity|]. split; [|done]. intros [=].
    + split; [|intros tool; reflexivity]. exists []. split; [done|]. split; congruence.
  - split; [|intros tool; reflexivity]. exists []. by split.
Qed.
